(** * DataFrame-to-Autosize-Excel: width estimation and export orchestration

    A shallow embedding of [dataframe_to_autosize_excel.py]:

    - [maximum_character_widths]  (the width calculator),
    - [excel_column_width]        (the width converter, in binary64),
    - [to_autosize_excel]         (the export entry point, over a log of the
                                   calls made on the spreadsheet writer).

    Python exceptions are values of [exn]; a computation that may raise
    returns a [result].  Python dictionaries are insertion-ordered
    association lists ([PyDict]).  The pandas operations the source calls
    ([df[key]], [astype(str)], [.str.len()], [.max()], [reset_index()],
    [df[list]]) are modelled in [Pandas] as far as the source depends on
    them. *)

From Stdlib Require Import List String Ascii Bool Arith ZArith Lia Permutation.
From Stdlib Require Import Floats DecimalString.
Import ListNotations.

Local Open Scope string_scope.
Local Open Scope list_scope.

(** ** Exceptions and results *)

(** The exceptions met in the source.  The messages of the two exceptions the
    source raises itself are the source's; those of exceptions raised by
    Python or pandas are indicative. *)
Inductive exn : Type :=
| ValueError (msg : string)
| TypeError (msg : string)
| KeyError (key : string)
| AttributeError (msg : string)
| IndexError (msg : string)
| OverflowError (msg : string).

Inductive result (A : Type) : Type :=
| Ok (a : A)
| Raise (e : exn).

Arguments Ok {A} a.
Arguments Raise {A} e.

Definition bind {A B : Type} (r : result A) (k : A -> result B) : result B :=
  match r with
  | Ok a => k a
  | Raise e => Raise e
  end.

Notation "x <- r ;; k" := (bind r (fun x => k))
  (at level 61, r at next level, right associativity).

Definition is_ok {A : Type} (r : result A) : bool :=
  match r with Ok _ => true | Raise _ => false end.

(** ** Python dictionaries: insertion-ordered, one entry per key *)

Module PyDict.

Definition t (V : Type) : Type := list (string * V).

Definition keys {V} (d : t V) : list string := map fst d.

Fixpoint get {V} (d : t V) (k : string) : option V :=
  match d with
  | [] => None
  | (k', v) :: rest => if String.eqb k' k then Some v else get rest k
  end.

(** [d[k] = v]: an existing key keeps its position, a new key goes last. *)
Fixpoint set {V} (d : t V) (k : string) (v : V) : t V :=
  match d with
  | [] => [(k, v)]
  | (k', v') :: rest =>
      if String.eqb k' k then (k', v) :: rest else (k', v') :: set rest k v
  end.

(** [{k: v for k, v in pairs}] *)
Definition of_pairs {V} (pairs : list (string * V)) : t V :=
  fold_left (fun d kv => set d (fst kv) (snd kv)) pairs [].

(** A list of items is a dictionary when no key repeats. *)
Definition wf {V} (d : t V) : Prop := NoDup (keys d).

End PyDict.

(** ** Widths: what [Series.max()] and Python's [max] hand back *)

(** The maximum of a pandas Series of lengths is an integer, or NaN when the
    Series has no element. *)
Inductive width : Type :=
| WInt (n : Z)
| WNaN.

(** [max(a, m)] for an integer [a]: Python keeps the first argument unless the
    second compares greater, and no comparison with NaN is true. *)
Definition py_max (a : Z) (m : width) : width :=
  match m with
  | WInt b => if Z.ltb a b then WInt b else WInt a
  | WNaN => WInt a
  end.

Definition len (s : string) : Z := Z.of_nat (String.length s).

(** ** The pandas operations used by the source *)

Module Pandas.
Section Frames.

(** The type of cell values and Python's [str] on them. *)
Variable cell : Type.
Variable py_str : cell -> string.

Definition Series : Type := list cell.

(** A frame: its index levels (each with an optional name) and its columns
    in order.  Column labels may repeat, as pandas allows. *)
Record DataFrame : Type := mkDataFrame {
  index : list (option string * Series);
  columns : list (string * Series)
}.

Definition column_names (df : DataFrame) : list string :=
  map fst (columns df).

Definition index_names (df : DataFrame) : list (option string) :=
  map fst (index df).

(** [df[key]]: a Series when one column bears the label, a frame when
    several do, [KeyError] when none does. *)
Inductive selection : Type :=
| SelSeries (s : Series)
| SelFrame (cols : list (string * Series)).

Definition getitem (df : DataFrame) (key : string) : result selection :=
  match filter (fun c => String.eqb (fst c) key) (columns df) with
  | [] => Raise (KeyError key)
  | [c] => Ok (SelSeries (snd c))
  | cs => Ok (SelFrame cs)
  end.

Definition astype_str (s : Series) : list string := map py_str s.

Definition str_len (s : list string) : list Z := map len s.

(** [Series.max()]: NaN on an empty Series. *)
Definition series_max (s : list Z) : width :=
  match s with
  | [] => WNaN
  | x :: rest => WInt (fold_left Z.max rest x)
  end.

(** [df[key].astype(str).str.len().max()]; a frame has no [.str]. *)
Definition str_len_max (df : DataFrame) (key : string) : result width :=
  sel <- getitem df key ;;
  match sel with
  | SelSeries s => Ok (series_max (str_len (astype_str s)))
  | SelFrame _ =>
      Raise (AttributeError "'DataFrame' object has no attribute 'str'")
  end.

(** [df[names]]: the columns bearing each requested label, in the order
    requested; [KeyError] on a label the frame does not have. *)
Fixpoint select_columns (cols : list (string * Series)) (names : list string)
  : result (list (string * Series)) :=
  match names with
  | [] => Ok []
  | n :: rest =>
      match filter (fun c => String.eqb (fst c) n) cols with
      | [] => Raise (KeyError n)
      | found => tl <- select_columns cols rest ;; Ok (found ++ tl)
      end
  end.

Definition getitem_list (df : DataFrame) (names : list string)
  : result DataFrame :=
  cols <- select_columns (columns df) names ;;
  Ok (mkDataFrame (index df) cols).

Definition mem (s : string) (l : list string) : bool :=
  existsb (String.eqb s) l.

Definition string_of_nat (n : nat) : string :=
  NilEmpty.string_of_uint (Nat.to_uint n).

(** The labels [reset_index()] gives the index levels: a level's own name,
    or for an unnamed level ["index"] (["level_0"] when a column is already
    called ["index"]) on a single-level index and ["level_i"] on a
    multi-level one. *)
Definition reset_index_names (df : DataFrame) : list string :=
  match index df with
  | [(None, _)] =>
      [if mem "index" (column_names df) then "level_0" else "index"]
  | levels =>
      map (fun il => match fst (snd il) with
                     | Some n => n
                     | None => String.append "level_" (string_of_nat (fst il))
                     end)
          (combine (seq 0 (List.length levels)) levels)
  end.

(** Levels are inserted in front one by one, last level first; inserting a
    label the frame already has raises [ValueError]. *)
Fixpoint insert_levels (levels : list (string * Series))
    (cols : list (string * Series)) : result (list (string * Series)) :=
  match levels with
  | [] => Ok cols
  | (n, s) :: rest =>
      done <- insert_levels rest cols ;;
      if mem n (map fst done)
      then Raise (ValueError (String.append "cannot insert "
                               (String.append n ", already exists")))
      else Ok ((n, s) :: done)
  end.

(** The frame that results carries a fresh unnamed index, whose values are
    row numbers and are never read by the source. *)
Definition reset_index (df : DataFrame) : result DataFrame :=
  cols <- insert_levels
            (combine (reset_index_names df) (map snd (index df)))
            (columns df) ;;
  Ok (mkDataFrame [(None, [])] cols).

End Frames.
End Pandas.

Arguments Pandas.mkDataFrame {cell} index columns.
Arguments Pandas.index {cell} d.
Arguments Pandas.columns {cell} d.
Arguments Pandas.column_names {cell} df.
Arguments Pandas.index_names {cell} df.
Arguments Pandas.getitem_list {cell} df names.
Arguments Pandas.reset_index {cell} df.
Arguments Pandas.reset_index_names {cell} df.

(** ** The width calculator *)

(** The shapes the [alternate_headers] argument can take: [None], a list, a
    dict (its items in iteration order), or any other object (a tuple, a
    string, a bool, ...). *)
Inductive header_spec : Type :=
| AltNone
| AltList (labels : list string)
| AltDict (items : PyDict.t string)
| AltOther.

Definition label_count_msg : string :=
  "The number of labels must equal the number of columns in the dataframe".

Definition header_type_msg : string :=
  "Alternative headers must be a list or dictionary".

Section Calculator.

Variable cell : Type.
Variable py_str : cell -> string.

Let DataFrame : Type := Pandas.DataFrame cell.

(** The [if]/[elif] chain that builds [headers]. *)
Definition resolve_headers (df : DataFrame) (consider_headers : bool)
    (alternate_headers : header_spec) : result (PyDict.t string) :=
  match alternate_headers with
  | AltList labels =>
      if negb (Nat.eqb (List.length labels) (List.length (Pandas.columns df)))
      then Raise (ValueError label_count_msg)
      else Ok (PyDict.of_pairs (combine (Pandas.column_names df) labels))
  | AltDict items =>
      if negb (Nat.eqb (List.length (PyDict.keys items))
                       (List.length (Pandas.columns df)))
      then Raise (ValueError label_count_msg)
      else Ok items
  | AltNone =>
      if consider_headers
      then Ok (PyDict.of_pairs
                 (map (fun v => (v, v)) (Pandas.column_names df)))
      else Raise (TypeError header_type_msg)
  | AltOther => Raise (TypeError header_type_msg)
  end.

(** One turn of the loop: the value stored at [widths[key]]. *)
Definition column_width (df : DataFrame) (consider_headers : bool)
    (key value : string) : result width :=
  if consider_headers
  then m <- Pandas.str_len_max cell py_str df key ;; Ok (py_max (len value) m)
  else Pandas.str_len_max cell py_str df key.

(** [for key, value in headers.items(): widths[key] = ...] *)
Fixpoint fill_widths (df : DataFrame) (consider_headers : bool)
    (items : list (string * string)) (widths : PyDict.t width)
  : result (PyDict.t width) :=
  match items with
  | [] => Ok widths
  | (key, value) :: rest =>
      w <- column_width df consider_headers key value ;;
      fill_widths df consider_headers rest (PyDict.set widths key w)
  end.

Definition maximum_character_widths (df : DataFrame)
    (consider_headers : bool) (alternate_headers : header_spec)
  : result (PyDict.t width) :=
  headers <- resolve_headers df consider_headers alternate_headers ;;
  fill_widths df consider_headers headers [].

End Calculator.

Arguments maximum_character_widths {cell} py_str df consider_headers
  alternate_headers.
Arguments resolve_headers {cell} df consider_headers alternate_headers.
Arguments fill_widths {cell} py_str df consider_headers items widths.
Arguments column_width {cell} py_str df consider_headers key value.

(** ** The width converter, in binary64 arithmetic *)

(** A Python number handed to the converter: an [int] of any size, or a
    [float] (a binary64 value). *)
Inductive pynum : Type :=
| PyInt (z : Z)
| PyFloat (f : float).

(** [float(z)] as the multiplication performs it: the nearest double, ties to
    even; an integer that rounds beyond the largest double raises. *)
Definition int_to_float (z : Z) : result float :=
  let f := SF2Prim (binary_normalize prec emax z 0 false) in
  if is_infinity f
  then Raise (OverflowError "int too large to convert to float")
  else Ok f.

Definition to_float (x : pynum) : result float :=
  match x with
  | PyInt z => int_to_float z
  | PyFloat f => Ok f
  end.

(** [num / den] rounded to the nearest integer, ties to even
    ([0 <= num], [0 < den]). *)
Definition round_half_even (num den : Z) : Z :=
  let q := (num / den)%Z in
  let r := (num mod den)%Z in
  match (2 * r ?= den)%Z with
  | Lt => q
  | Gt => (q + 1)%Z
  | Eq => if Z.even q then q else (q + 1)%Z
  end.

Local Open Scope Z_scope.

(** *** [round(x, 2)] *)

(** [x * 100] rounded to an integer, ties to even, for [x = m * 2^e]: the
    number of hundredths CPython prints for [x], computed on the exact binary
    value. *)
Definition hundredths (m : positive) (e : Z) : Z :=
  if 0 <=? e
  then round_half_even (Zpos m * 2 ^ e * 100) 1
  else round_half_even (Zpos m * 100) (2 ^ (- e)).

(** The mantissa handed to the rounding for [n / 100]: the quotient taken
    with 64 more bits, and a last bit that records a non-zero remainder.
    The quotient has at least 58 bits, so that last bit lies below the
    position at which a double is rounded and only tells an exact quotient
    from an inexact one. *)
Definition sticky_quotient (n : positive) : Z :=
  2 * (Zpos n * 2 ^ 64 / 100)
  + (if (Zpos n * 2 ^ 64) mod 100 =? 0 then 0 else 1).

(** The double nearest to [n / 100] (ties to even), signed by [s]: what
    reading the decimal back gives. *)
Definition nearest_hundredth (s : bool) (n : positive) : spec_float :=
  let m := sticky_quotient n in
  binary_normalize prec emax (if s then - m else m) (-65) false.

(** [round(x, 2)] on a float: CPython prints the exact binary value of [x]
    with two decimals, correctly rounded (ties to even), and reads the
    decimal back as the nearest double.  Zeros, infinities and NaN are
    returned as they are; the sign of [x] is kept. *)
Definition py_round2 (x : float) : float :=
  match Prim2SF x with
  | S754_finite s m e =>
      match hundredths m e with
      | Zpos n => SF2Prim (nearest_hundredth s n)
      | _ => SF2Prim (S754_zero s)
      end
  | _ => x
  end.

Local Close Scope Z_scope.

(** The decimal constants of the source denote the nearest doubles. *)
Set Warnings "-inexact-float".

(** [fontsize] is a float; the default [11] is the double [11.0]. *)
Definition default_fontsize : float := 11%float.

Definition excel_column_width (charwidth : pynum) (fontsize : float)
  : result float :=
  let factor := py_round2 (0.118775 * fontsize)%float in
  c <- to_float charwidth ;;
  Ok (c * factor)%float.

(** ** The export entry point *)

(** The [columns] argument: [None], a list of labels, or (as the source
    tests for it) a bool. *)
Inductive columns_arg : Type :=
| ColNone
| ColBool (b : bool)
| ColList (names : list string).

(** The [header] argument: a bool, or a list of aliases. *)
Inductive header_arg : Type :=
| HdrBool (b : bool)
| HdrList (aliases : list string).

(** The [index_label] argument: [None], a string, or a sequence. *)
Inductive index_label_arg : Type :=
| IdxNone
| IdxStr (s : string)
| IdxSeq (l : list string).

(** The keyword arguments that steer the function.  The remaining ones
    ([na_rep], [float_format], [inf_rep], [verbose], [freeze_panes], the two
    date formats and [mode]) are handed to the writer and to [to_excel]
    untouched and are left out. *)
Record options : Type := mkOptions {
  consider_headers : bool;
  sheet_name : string;
  columns : columns_arg;
  header : header_arg;
  index : bool;
  index_label : index_label_arg;
  startrow : nat;
  startcol : nat
}.

Definition default_options : options :=
  {| consider_headers := true;
     sheet_name := "Sheet1";
     columns := ColNone;
     header := HdrBool true;
     index := true;
     index_label := IdxNone;
     startrow := 0;
     startcol := 0 |}.

(** [kwargs] as [df.to_excel] receives it: everything but
    [consider_headers]. *)
Record to_excel_kwargs : Type := mkKwargs {
  kw_sheet_name : string;
  kw_columns : columns_arg;
  kw_header : header_arg;
  kw_index : bool;
  kw_index_label : index_label_arg;
  kw_startrow : nat;
  kw_startcol : nat
}.

Definition kwargs_of (o : options) : to_excel_kwargs :=
  {| kw_sheet_name := sheet_name o;
     kw_columns := columns o;
     kw_header := header o;
     kw_index := index o;
     kw_index_label := index_label o;
     kw_startrow := startrow o;
     kw_startcol := startcol o |}.

(** Python truth values of the arguments the source tests. *)
Definition columns_truthy (c : columns_arg) : bool :=
  match c with
  | ColNone => false
  | ColBool b => b
  | ColList [] => false
  | ColList (_ :: _) => true
  end.

Definition index_label_truthy (l : index_label_arg) : bool :=
  match l with
  | IdxNone => false
  | IdxStr s => negb (String.eqb s "")
  | IdxSeq [] => false
  | IdxSeq (_ :: _) => true
  end.

(** [list(columns)] *)
Definition list_of_columns (c : columns_arg) : result (list string) :=
  match c with
  | ColList names => Ok names
  | ColNone => Raise (TypeError "'NoneType' object is not iterable")
  | ColBool _ => Raise (TypeError "'bool' object is not iterable")
  end.

(** [str(name) if name else ""] on an index level name. *)
Definition index_name_label (name : option string) : string :=
  match name with
  | Some n => n
  | None => ""
  end.

(** The width as the converter receives it. *)
Definition num_of_width (w : width) : pynum :=
  match w with
  | WInt n => PyInt n
  | WNaN => PyFloat nan
  end.

Section Orchestration.

Variable cell : Type.
Variable py_str : cell -> string.

Let DataFrame : Type := Pandas.DataFrame cell.

(** What the program asks of the spreadsheet writer, in order. *)
Inductive event : Type :=
| ToExcel (df : DataFrame) (kwargs : to_excel_kwargs)
| SetColumn (first_col last_col : nat) (w : float)
| AddFormat
| WriteRow (row col : nat) (data : list string)
| Close.

(** The collaborator: whether [df.to_excel(writer, **kwargs)] raises. *)
Variable to_excel_raises : DataFrame -> to_excel_kwargs -> option exn.

(** [data = df[list(columns)]] when [columns] is true, else [df]. *)
Definition choose_data (df : DataFrame) (c : columns_arg) : result DataFrame :=
  if columns_truthy c
  then names <- list_of_columns c ;; Pandas.getitem_list df names
  else Ok df.

(** The [if isinstance(columns, bool)] block that builds [labels]. *)
Definition choose_labels (data : DataFrame) (o : options)
  : result (list string) :=
  match columns o with
  | ColBool _ =>
      if index o
      then d <- Pandas.reset_index data ;; Ok (Pandas.column_names d)
      else Ok (Pandas.column_names data)
  | _ =>
      if index o && index_label_truthy (index_label o)
      then
        match index_label o with
        | IdxStr s => cs <- list_of_columns (columns o) ;; Ok ([s] ++ cs)
        | IdxSeq l => cs <- list_of_columns (columns o) ;; Ok (l ++ cs)
        | IdxNone => Raise (TypeError "'NoneType' object is not iterable")
        end
      else if index o && negb (index_label_truthy (index_label o))
      then
        cs <- list_of_columns (columns o) ;;
        Ok (map index_name_label (Pandas.index_names data) ++ cs)
      else list_of_columns (columns o)
  end.

(** The frame whose columns are sized: the index folded in when it is
    written. *)
Definition sized_frame (data : DataFrame) (o : options) : result DataFrame :=
  if index o then Pandas.reset_index data else Ok data.

(** One turn of the sizing loop, for sheet column [column]. *)
Definition size_column (sized : DataFrame) (widths : PyDict.t width)
    (column : nat) : result event :=
  column_name <-
    match nth_error (Pandas.column_names sized) column with
    | Some n => Ok n
    | None => Raise (IndexError "index out of bounds")
    end ;;
  column_width <-
    match PyDict.get widths column_name with
    | Some w => Ok w
    | None => Raise (KeyError column_name)
    end ;;
  x <- excel_column_width (num_of_width column_width) default_fontsize ;;
  Ok (SetColumn column column x).

(** [for column in range(startcol, startcol + len(labels))], over the log
    of writer calls. *)
Fixpoint size_columns (sized : DataFrame) (widths : PyDict.t width)
    (cols : list nat) (log : list event) : list event * result unit :=
  match cols with
  | [] => (log, Ok tt)
  | column :: rest =>
      match size_column sized widths column with
      | Ok ev => size_columns sized widths rest (log ++ [ev])
      | Raise e => (log, Raise e)
      end
  end.

(** The body of [with writer:], started on the log [log]. *)
Definition with_body (df data : DataFrame) (o : options) (log : list event)
  : list event * result unit :=
  match to_excel_raises df (kwargs_of o) with
  | Some e => (log, Raise e)
  | None =>
      let log := log ++ [ToExcel df (kwargs_of o)] in
      match choose_labels data o with
      | Raise e => (log, Raise e)
      | Ok labels =>
          match sized_frame data o with
          | Raise e => (log, Raise e)
          | Ok sized =>
              match maximum_character_widths py_str sized
                      (consider_headers o) (AltList labels) with
              | Raise e => (log, Raise e)
              | Ok widths =>
                  match size_columns sized widths
                          (seq (startcol o) (List.length labels)) log with
                  | (log, Raise e) => (log, Raise e)
                  | (log, Ok _) =>
                      if columns_truthy (columns o)
                         && negb (consider_headers o)
                      then (log ++ [AddFormat;
                                    WriteRow (startrow o) (startcol o) labels],
                            Ok tt)
                      else (log, Ok tt)
                  end
              end
          end
      end
  end.

(** The whole call.  The construction of the [ExcelWriter] is taken to
    succeed; [data] is chosen before the [with] block is entered; the writer
    is closed on every way out of the block; when the block ends normally the
    path of the file is returned (its normalisation by [Path] and
    [expandvars] is left out). *)
Definition to_autosize_excel (df : DataFrame) (outfile : string)
    (o : options) : list event * result string :=
  match choose_data df (columns o) with
  | Raise e => ([], Raise e)
  | Ok data =>
      let '(log, r) := with_body df data o [] in
      (log ++ [Close],
       match r with
       | Ok _ => Ok outfile
       | Raise e => Raise e
       end)
  end.

End Orchestration.

Arguments ToExcel {cell} df kwargs.
Arguments SetColumn {cell} first_col last_col w.
Arguments AddFormat {cell}.
Arguments WriteRow {cell} row col data.
Arguments Close {cell}.
Arguments choose_data {cell} df c.
Arguments choose_labels {cell} data o.
Arguments sized_frame {cell} data o.
Arguments size_column {cell} sized widths column.
Arguments size_columns {cell} sized widths cols log.
Arguments with_body {cell} py_str to_excel_raises df data o log.
Arguments to_autosize_excel {cell} py_str to_excel_raises df outfile o.

(** ** Reference notions used in the statements *)

(** The largest character length among the textual renderings of the cells of
    a column, as the specification words it. *)
Definition max_text_length {cell : Type} (py_str : cell -> string)
    (s : list cell) : Z :=
  Z.of_nat (list_max (map (fun v => String.length (py_str v)) s)).

(** The number of labels a header specification carries, when it is a list
    or a dict. *)
Definition label_count (h : header_spec) : option nat :=
  match h with
  | AltList labels => Some (List.length labels)
  | AltDict items => Some (List.length items)
  | _ => None
  end.

(** A header specification that fits a frame: as many labels as columns; for
    a dict, items whose keys do not repeat and are all column labels. *)
Definition fits {cell : Type} (df : Pandas.DataFrame cell) (h : header_spec)
  : Prop :=
  match h with
  | AltList labels => List.length labels = List.length (Pandas.columns df)
  | AltDict items =>
      PyDict.wf items
      /\ List.length items = List.length (Pandas.columns df)
      /\ incl (PyDict.keys items) (Pandas.column_names df)
  | _ => False
  end.

(** What one turn of the loop stores at a label borne by the one column
    [s]. *)
Definition stored {cell : Type} (py_str : cell -> string) (ch : bool)
    (value : string) (s : list cell) : width :=
  let m := Pandas.series_max
             (Pandas.str_len (Pandas.astype_str cell py_str s)) in
  if ch then py_max (len value) m else m.

(** A width that is a non-negative integer. *)
Definition nonneg_int (w : width) : Prop :=
  exists n, w = WInt n /\ (0 <= n)%Z.

(** Frames of text cells, on which [str] is the identity, for the examples
    of the calculator, which never reads the index. *)
Definition text_frame (cols : list (string * list string))
  : Pandas.DataFrame string :=
  Pandas.mkDataFrame [(None, [])] cols.

Definition str_id (s : string) : string := s.

Definition names_frame : Pandas.DataFrame string :=
  text_frame [("Name", ["Al"; "Bartholomew"])].

Definition ab_frame : Pandas.DataFrame string :=
  text_frame [("A", ["x"]); ("B", ["yy"])].

(** The column-to-label association that supplied labels denote: positional
    for a list, the items themselves for a dict. *)
Definition header_assoc {cell : Type} (df : Pandas.DataFrame cell)
    (h : header_spec) : list (string * string) :=
  match h with
  | AltList labels => combine (Pandas.column_names df) labels
  | AltDict items => items
  | _ => []
  end.

(** Two header specifications of the same shape that name the same columns in
    the same order, whatever their label texts. *)
Definition same_columns (h h' : header_spec) : Prop :=
  match h, h' with
  | AltList labels, AltList labels' => List.length labels = List.length labels'
  | AltDict items, AltDict items' => PyDict.keys items = PyDict.keys items'
  | _, _ => False
  end.

(** Header specifications whose labels go to the columns by position and
    pass the checks of the calculator: the frame's own labels, or a list
    with one label per column. *)
Definition by_position {cell : Type} (df : Pandas.DataFrame cell)
    (ch : bool) (h : header_spec) : Prop :=
  match h with
  | AltNone => ch = true
  | AltList labels => List.length labels = List.length (Pandas.columns df)
  | _ => False
  end.

(** A frame of two rows under an unnamed single-level index. *)
Definition people_frame : Pandas.DataFrame string :=
  Pandas.mkDataFrame [(None, ["0"; "1"])]
    [("Name", ["Al"; "Bartholomew"]); ("Age", ["31"; "7"])].

(** A collaborator whose [to_excel] never raises. *)
Definition to_excel_succeeds {cell : Type}
    (df : Pandas.DataFrame cell) (kwargs : to_excel_kwargs) : option exn :=
  None.

(** [columns=["Name", "Age"], index=False]. *)
Definition both_columns_no_index : options :=
  {| consider_headers := true;
     sheet_name := "Sheet1";
     columns := ColList ["Name"; "Age"];
     header := HdrBool true;
     index := false;
     index_label := IdxNone;
     startrow := 0;
     startcol := 0 |}.

(** [columns=["Name"], index_label=["i", "j"]], the rest at its default. *)
Definition two_index_labels : options :=
  {| consider_headers := true;
     sheet_name := "Sheet1";
     columns := ColList ["Name"];
     header := HdrBool true;
     index := true;
     index_label := IdxSeq ["i"; "j"];
     startrow := 0;
     startcol := 0 |}.

(** The options [o] with another [header] argument. *)
Definition with_header (o : options) (h : header_arg) : options :=
  {| consider_headers := consider_headers o;
     sheet_name := sheet_name o;
     columns := columns o;
     header := h;
     index := index o;
     index_label := index_label o;
     startrow := startrow o;
     startcol := startcol o |}.

(** [columns=False, index=False]: the frame under its own labels, the
    index not written. *)
Definition own_labels_no_index : options :=
  {| consider_headers := true;
     sheet_name := "Sheet1";
     columns := ColBool false;
     header := HdrBool true;
     index := false;
     index_label := IdxNone;
     startrow := 0;
     startcol := 0 |}.

(** The options [o] with another [startcol]. *)
Definition from_column (o : options) (c : nat) : options :=
  {| consider_headers := consider_headers o;
     sheet_name := sheet_name o;
     columns := columns o;
     header := header o;
     index := index o;
     index_label := index_label o;
     startrow := startrow o;
     startcol := c |}.

(** The options [o] with another list of [columns]. *)
Definition requesting (o : options) (names : list string) : options :=
  {| consider_headers := consider_headers o;
     sheet_name := sheet_name o;
     columns := ColList names;
     header := header o;
     index := index o;
     index_label := index_label o;
     startrow := startrow o;
     startcol := startcol o |}.

(** *** Binary64 rounding, as [SpecFloat] performs it *)

Local Open Scope Z_scope.

(** The exponent a double carries for a value of the size of [m * 2^e]. *)
Definition cexp (m : positive) (e : Z) : Z :=
  fexp prec emax (Zpos (digits2_pos m) + e).

(** The double of mantissa [m2] at exponent [E], once rounded: a mantissa
    of 54 bits is renormalised, an exponent out of range gives an
    infinity. *)
Definition finish (s : bool) (m2 E : Z) : spec_float :=
  match m2 with
  | Z0 => S754_zero s
  | Zpos p =>
      if m2 =? 2 ^ 53
      then (if E + 1 <=? emax - prec
            then S754_finite s (2 ^ 52)%positive (E + 1)
            else S754_infinity s)
      else (if E <=? emax - prec
            then S754_finite s p E
            else S754_infinity s)
  | Zneg _ => S754_nan
  end.

(** Mantissa and exponent after the renormalisation in [finish]. *)
Definition carry (m2 E : Z) : Z * Z :=
  if m2 =? 2 ^ 53 then (2 ^ 52, E + 1) else (m2, E).

(** The record after [n >= 1] one-bit shifts of an exact mantissa. *)
Definition shifted (M : Z) (n : Z) : shr_record :=
  Build_shr_record (M / 2 ^ n) (Z.odd (M / 2 ^ (n - 1)))
    (negb (M mod 2 ^ (n - 1) =? 0)).

(** The mantissa of [m * 2^e] at its canonical exponent, rounded to nearest
    even when bits are dropped. *)
Definition scaled (m : positive) (e : Z) : Z :=
  if e <=? cexp m e
  then round_half_even (Zpos m) (2 ^ (cexp m e - e))
  else Zpos m * 2 ^ (e - cexp m e).

(** The double nearest to [m * 2^e] (ties to even), signed by [s]. *)
Definition nearest (s : bool) (m : positive) (e : Z) : spec_float :=
  finish s (scaled m e) (cexp m e).

(** Doubles that are zeros or finite numbers. *)
Definition finite_sf (x : spec_float) : Prop :=
  match x with
  | S754_zero _ | S754_finite _ _ _ => True
  | _ => False
  end.

(** Valid doubles that are [+0] or finite and positive. *)
Definition nn (x : spec_float) : Prop :=
  valid_binary x = true
  /\ (x = S754_zero false \/ exists m e, x = S754_finite false m e).

(** The same, or [+infinity]. *)
Definition nni (x : spec_float) : Prop :=
  nn x \/ x = S754_infinity false.

(** [round(x, 2)] on doubles as [SpecFloat] writes them. *)
Definition round2_sf (x : spec_float) : spec_float :=
  match x with
  | S754_finite s m e =>
      match hundredths m e with
      | Zpos n => nearest_hundredth s n
      | _ => S754_zero s
      end
  | _ => x
  end.

(** Doubles that are finite and greater than zero. *)
Definition finite_positive (x : float) : Prop :=
  is_finite x = true /\ (0 <? x)%float = true.

(** The largest integer that is a double: [(2^53 - 1) * 2^971]. *)
Definition max_double_int : Z := (2 ^ 53 - 1) * 2 ^ 971.

(** The least integer that rounds beyond the largest double. *)
Definition overflow_threshold : Z := 2 ^ 1024 - 2 ^ 970.

(** Integers [1 .. 2000] and a few larger ones, to compare
    [nearest_hundredth] with the division of binary64. *)
Definition hundredth_samples : list positive :=
  map Pos.of_nat (seq 1 2000)
  ++ [123456789; 4503599627370497; 9007199254740991; 900719925474099]%positive.

Local Close Scope Z_scope.

(** *** The log of a call *)

(** The writer calls that size the sheet columns [first], [first + 1], ...
    with the widths [xs], one call per column. *)
Definition set_columns {cell : Type} (first : nat) (xs : list float)
  : list (event cell) :=
  map (fun ix => SetColumn (fst ix) (fst ix) (snd ix))
      (combine (seq first (List.length xs)) xs).

(** The two calls that rewrite the header row. *)
Definition rewrite_header {cell : Type} (o : options) (labels : list string)
  : list (event cell) :=
  [AddFormat; WriteRow (startrow o) (startcol o) labels].

(** Texts short enough for their lengths to be doubles: the renderings of
    the cells of a frame, and labels. *)
Definition short_texts {cell : Type} (py_str : cell -> string)
    (df : Pandas.DataFrame cell) (labels : list string) : Prop :=
  (forall name s v,
      In (name, s) (Pandas.columns df) -> In v s ->
      (len (py_str v) <= max_double_int)%Z)
  /\ (forall label, In label labels -> (len label <= max_double_int)%Z).

(** The number of index labels an [index_label] argument supplies. *)
Definition index_label_count (l : index_label_arg) : nat :=
  match l with
  | IdxNone => 0
  | IdxStr _ => 1
  | IdxSeq labels => List.length labels
  end.

(** * Properties *)

(** ** Dictionaries *)

Module PyDictFacts.
Section Facts.

Context {V : Type}.
Implicit Types (d : PyDict.t V) (k : string) (v : V).

Lemma keys_app d d' : PyDict.keys (d ++ d') = PyDict.keys d ++ PyDict.keys d'.
Proof. apply map_app. Qed.

Lemma set_fresh d k v :
  ~ In k (PyDict.keys d) -> PyDict.set d k v = d ++ [(k, v)].
Proof.
  induction d as [|[k' v'] d IH]; simpl; intros Hk; [reflexivity|].
  destruct (String.eqb_spec k' k) as [->|Hne].
  - exfalso. apply Hk. now left.
  - rewrite IH; [reflexivity|]. intros Hin. apply Hk. now right.
Qed.

Lemma keys_set_incl d k v k0 :
  In k0 (PyDict.keys (PyDict.set d k v)) <-> k0 = k \/ In k0 (PyDict.keys d).
Proof.
  induction d as [|[k' v'] d IH]; simpl.
  - intuition auto.
  - destruct (String.eqb_spec k' k) as [->|Hne]; simpl.
    + intuition auto.
    + rewrite IH. intuition auto.
Qed.

Lemma set_all_fresh (items : list (string * V)) d :
  NoDup (PyDict.keys d ++ map fst items) ->
  fold_left (fun d kv => PyDict.set d (fst kv) (snd kv)) items d = d ++ items.
Proof.
  revert d. induction items as [|[k v] items IH]; intros d Hnd; simpl.
  - now rewrite app_nil_r.
  - simpl in Hnd. rewrite set_fresh.
    + rewrite IH.
      * now rewrite <- app_assoc.
      * rewrite keys_app. simpl. rewrite <- app_assoc. exact Hnd.
    + apply NoDup_remove_2 in Hnd. intros Hin. apply Hnd.
      apply in_or_app. now left.
Qed.

(** A comprehension over pairs whose keys do not repeat keeps them all, in
    order. *)
Lemma of_pairs_nodup (items : list (string * V)) :
  NoDup (map fst items) -> PyDict.of_pairs items = items.
Proof.
  intros Hnd. unfold PyDict.of_pairs. now rewrite set_all_fresh.
Qed.

Lemma keys_fold_set (items : list (string * V)) d k0 :
  In k0 (PyDict.keys
           (fold_left (fun d kv => PyDict.set d (fst kv) (snd kv)) items d))
  <-> In k0 (PyDict.keys d) \/ In k0 (map fst items).
Proof.
  revert d. induction items as [|[k v] items IH]; intros d; simpl.
  - intuition auto.
  - rewrite IH, keys_set_incl. intuition auto.
Qed.

Lemma keys_of_pairs (items : list (string * V)) k0 :
  In k0 (PyDict.keys (PyDict.of_pairs items)) <-> In k0 (map fst items).
Proof.
  unfold PyDict.of_pairs. rewrite keys_fold_set. simpl. intuition auto.
Qed.

Lemma get_app_fresh d d' k :
  ~ In k (PyDict.keys d) -> PyDict.get (d ++ d') k = PyDict.get d' k.
Proof.
  induction d as [|[k' v'] d IH]; simpl; intros Hk; [reflexivity|].
  destruct (String.eqb_spec k' k) as [->|Hne].
  - exfalso. apply Hk. now left.
  - apply IH. intros Hin. apply Hk. now right.
Qed.

Lemma get_in_nodup d k v :
  NoDup (PyDict.keys d) -> In (k, v) d -> PyDict.get d k = Some v.
Proof.
  induction d as [|[k' v'] d IH]; simpl; intros Hnd Hin; [contradiction|].
  inversion Hnd as [|? ? Hk' Hnd']; subst.
  destruct Hin as [Heq|Hin].
  - inversion Heq; subst. now rewrite String.eqb_refl.
  - destruct (String.eqb_spec k' k) as [->|Hne].
    + exfalso. apply Hk'. change k with (fst (k, v)). now apply in_map.
    + now apply IH.
Qed.

Lemma get_some_in d k v : PyDict.get d k = Some v -> In (k, v) d.
Proof.
  induction d as [|[k' v'] d IH]; simpl; intros H; [discriminate|].
  destruct (String.eqb_spec k' k) as [->|Hne].
  - inversion H; subst. now left.
  - right. now apply IH.
Qed.

End Facts.
End PyDictFacts.

(** ** Frames *)

Section FrameFacts.

Variable cell : Type.
Variable py_str : cell -> string.

Let DataFrame : Type := Pandas.DataFrame cell.
Implicit Types (df : DataFrame) (k : string) (s : list cell).

Lemma filter_label_length (cols : list (string * list cell)) k :
  List.length (filter (fun c => String.eqb (fst c) k) cols)
  = count_occ string_dec (map fst cols) k.
Proof.
  induction cols as [|[k' s'] cols IH]; simpl; [reflexivity|].
  destruct (String.eqb_spec k' k) as [->|Hne].
  - destruct (string_dec k k); [simpl; now rewrite IH|contradiction].
  - destruct (string_dec k' k); [contradiction|exact IH].
Qed.

Lemma filter_label_in (cols : list (string * list cell)) k c :
  In c (filter (fun c => String.eqb (fst c) k) cols) -> fst c = k /\ In c cols.
Proof.
  rewrite filter_In. intros [Hin Heq]. apply String.eqb_eq in Heq. auto.
Qed.

Lemma filter_label_single (cols : list (string * list cell)) k s :
  NoDup (map fst cols) -> In (k, s) cols ->
  filter (fun c => String.eqb (fst c) k) cols = [(k, s)].
Proof.
  induction cols as [|[k' s'] cols IH]; simpl; intros Hnd Hin; [contradiction|].
  inversion Hnd as [|? ? Hk' Hnd']; subst.
  destruct Hin as [Heq|Hin].
  - inversion Heq; subst. rewrite String.eqb_refl. f_equal.
    destruct (filter _ cols) as [|c l] eqn:Hf; [reflexivity|].
    exfalso. apply Hk'.
    assert (Hc : In c (filter (fun c => String.eqb (fst c) k) cols))
      by (rewrite Hf; now left).
    apply filter_label_in in Hc as [<- Hc]. now apply in_map.
  - destruct (String.eqb_spec k' k) as [->|Hne].
    + exfalso. apply Hk'. change k with (fst (k, s)). now apply in_map.
    + now apply IH.
Qed.

(** [df[key].astype(str).str.len().max()] returns exactly when one column
    bears the label. *)
Lemma str_len_max_ok df k w :
  Pandas.str_len_max cell py_str df k = Ok w ->
  exists s,
    filter (fun c => String.eqb (fst c) k) (Pandas.columns df) = [(k, s)]
    /\ w = Pandas.series_max
             (Pandas.str_len (Pandas.astype_str cell py_str s)).
Proof.
  unfold Pandas.str_len_max, Pandas.getitem.
  destruct (filter _ (Pandas.columns df)) as [|[k' s] [|c l]] eqn:Hf;
    simpl; try discriminate.
  intros H. inversion H; subst. exists s. split; [|reflexivity].
  assert (Hc : In (k', s)
                 (filter (fun c => String.eqb (fst c) k) (Pandas.columns df)))
    by (rewrite Hf; now left).
  apply filter_label_in in Hc as [Hk _]. simpl in Hk. now subst.
Qed.

Lemma str_len_max_single df k s :
  filter (fun c => String.eqb (fst c) k) (Pandas.columns df) = [(k, s)] ->
  Pandas.str_len_max cell py_str df k
  = Ok (Pandas.series_max (Pandas.str_len (Pandas.astype_str cell py_str s))).
Proof.
  unfold Pandas.str_len_max, Pandas.getitem. now intros ->.
Qed.

Lemma str_len_max_missing df k :
  ~ In k (Pandas.column_names df) ->
  Pandas.str_len_max cell py_str df k = Raise (KeyError k).
Proof.
  intros Hk. unfold Pandas.str_len_max, Pandas.getitem.
  destruct (filter _ (Pandas.columns df)) as [|c l] eqn:Hf; [reflexivity|].
  exfalso. apply Hk.
  assert (Hc : In c (filter (fun c => String.eqb (fst c) k) (Pandas.columns df)))
    by (rewrite Hf; now left).
  apply filter_label_in in Hc as [<- Hc]. now apply in_map.
Qed.

Lemma single_count (cols : list (string * list cell)) k s :
  filter (fun c => String.eqb (fst c) k) cols = [(k, s)] ->
  count_occ string_dec (map fst cols) k = 1 /\ In (k, s) cols.
Proof.
  intros Hf. split.
  - rewrite <- filter_label_length, Hf. reflexivity.
  - assert (Hc : In (k, s) (filter (fun c => String.eqb (fst c) k) cols))
      by (rewrite Hf; now left).
    now apply filter_label_in in Hc.
Qed.

Lemma fold_max_lengths (l : list cell) (x : nat) :
  fold_left Z.max (Pandas.str_len (Pandas.astype_str cell py_str l))
    (Z.of_nat x)
  = Z.of_nat
      (Nat.max x (list_max (map (fun v => String.length (py_str v)) l))).
Proof.
  revert x. induction l as [|v l IH]; intros x; simpl.
  - now rewrite Nat.max_0_r.
  - unfold len at 1. rewrite <- Nat2Z.inj_max, IH. f_equal. lia.
Qed.

(** On a Series with at least one cell, the pandas pipeline computes the
    largest rendered length. *)
Lemma series_max_text s :
  s <> [] ->
  Pandas.series_max (Pandas.str_len (Pandas.astype_str cell py_str s))
  = WInt (max_text_length py_str s).
Proof.
  destruct s as [|v l]; [congruence|]. intros _. simpl.
  unfold len at 1. rewrite fold_max_lengths. reflexivity.
Qed.

Lemma series_max_cases s :
  (s = [] /\ Pandas.series_max
               (Pandas.str_len (Pandas.astype_str cell py_str s)) = WNaN)
  \/ (s <> [] /\ Pandas.series_max
                  (Pandas.str_len (Pandas.astype_str cell py_str s))
                = WInt (max_text_length py_str s)).
Proof.
  destruct s as [|v l].
  - left. split; reflexivity.
  - right. split; [discriminate|]. now apply series_max_text.
Qed.

Lemma max_text_length_nonneg s : (0 <= max_text_length py_str s)%Z.
Proof. unfold max_text_length. lia. Qed.

End FrameFacts.

(** ** The width calculator *)

Section CalculatorFacts.

Variable cell : Type.
Variable py_str : cell -> string.

Let DataFrame : Type := Pandas.DataFrame cell.
Implicit Types (df : DataFrame) (k : string) (s : list cell).

Lemma column_width_ok df ch k v w :
  column_width py_str df ch k v = Ok w ->
  exists s,
    filter (fun c => String.eqb (fst c) k) (Pandas.columns df) = [(k, s)]
    /\ w = stored py_str ch v s.
Proof.
  unfold column_width, stored. destruct ch.
  - destruct (Pandas.str_len_max cell py_str df k) as [m|e] eqn:Hm;
      simpl; [|discriminate].
    intros H. inversion H; subst.
    apply str_len_max_ok in Hm as (s & Hf & ->). now exists s.
  - intros Hm. apply str_len_max_ok in Hm as (s & Hf & ->). now exists s.
Qed.

Lemma column_width_single df ch k v s :
  filter (fun c => String.eqb (fst c) k) (Pandas.columns df) = [(k, s)] ->
  column_width py_str df ch k v = Ok (stored py_str ch v s).
Proof.
  intros Hf. unfold column_width, stored.
  rewrite (str_len_max_single _ _ _ _ _ Hf). now destruct ch.
Qed.

Lemma column_width_missing df ch k v :
  ~ In k (Pandas.column_names df) ->
  column_width py_str df ch k v = Raise (KeyError k).
Proof.
  intros Hk. unfold column_width.
  rewrite (str_len_max_missing _ _ _ _ Hk). now destruct ch.
Qed.

(** The loop returns only if every turn does. *)
Lemma fill_widths_turns df ch items acc w :
  fill_widths py_str df ch items acc = Ok w ->
  Forall (fun kv => exists x,
              column_width py_str df ch (fst kv) (snd kv) = Ok x) items.
Proof.
  revert acc. induction items as [|[k v] items IH]; intros acc H.
  - constructor.
  - simpl in H.
    destruct (column_width py_str df ch k v) as [x|e] eqn:Hx;
      simpl in H; [|discriminate].
    constructor; [now exists x|]. eapply IH; eauto.
Qed.

(** Over items whose keys are new and do not repeat, the loop appends one
    entry per item, in order. *)
Lemma fill_widths_ok df ch items acc w :
  NoDup (PyDict.keys acc ++ map fst items) ->
  fill_widths py_str df ch items acc = Ok w ->
  exists ws,
    w = acc ++ ws
    /\ map fst ws = map fst items
    /\ Forall2 (fun kv kw =>
                  column_width py_str df ch (fst kv) (snd kv) = Ok (snd kw))
               items ws.
Proof.
  revert acc. induction items as [|[k v] items IH]; intros acc Hnd H.
  - simpl in H. inversion H; subst. exists []. rewrite app_nil_r.
    repeat split; constructor.
  - simpl in H, Hnd.
    destruct (column_width py_str df ch k v) as [x|e] eqn:Hx;
      simpl in H; [|discriminate].
    rewrite PyDictFacts.set_fresh in H.
    2:{ apply NoDup_remove_2 in Hnd. intros Hin. apply Hnd.
        apply in_or_app. now left. }
    apply IH in H.
    2:{ rewrite PyDictFacts.keys_app. simpl. now rewrite <- app_assoc. }
    destruct H as (ws & -> & Hk & Hf).
    exists ((k, x) :: ws). rewrite <- app_assoc. simpl.
    repeat split; [now f_equal|]. now constructor.
Qed.

Lemma fill_widths_total df ch items acc :
  Forall (fun kv => exists x,
              column_width py_str df ch (fst kv) (snd kv) = Ok x) items ->
  exists w, fill_widths py_str df ch items acc = Ok w.
Proof.
  revert acc. induction items as [|[k v] items IH]; intros acc Hall.
  - now exists acc.
  - inversion Hall as [|? ? [x Hx] Hall']; subst. simpl in *.
    rewrite Hx. simpl. apply IH, Hall'.
Qed.

(** The first turn that raises ends the loop with its exception. *)
Lemma fill_widths_raise df ch items acc k v e rest done :
  items = done ++ (k, v) :: rest ->
  Forall (fun kv => exists x,
              column_width py_str df ch (fst kv) (snd kv) = Ok x) done ->
  column_width py_str df ch k v = Raise e ->
  fill_widths py_str df ch items acc = Raise e.
Proof.
  intros -> Hdone He. revert acc.
  induction done as [|[k' v'] done IH]; intros acc; simpl.
  - now rewrite He.
  - inversion Hdone as [|? ? [x Hx] Hdone']; subst. simpl in Hx.
    rewrite Hx. simpl. now apply IH.
Qed.

Lemma combine_fst {A B} (l : list A) (l' : list B) :
  List.length l' = List.length l -> map fst (combine l l') = l.
Proof.
  revert l'. induction l as [|a l IH]; intros [|b l']; simpl; intros H;
    try discriminate; [reflexivity|]. f_equal. apply IH. lia.
Qed.

Lemma map_fst_diag (l : list string) : map fst (map (fun v => (v, v)) l) = l.
Proof. rewrite map_map. simpl. apply map_id. Qed.

Lemma turns_once df ch (items : list (string * string)) :
  Forall (fun kv => exists x,
              column_width py_str df ch (fst kv) (snd kv) = Ok x) items ->
  forall k, In k (map fst items) ->
            count_occ string_dec (Pandas.column_names df) k = 1.
Proof.
  intros Hall k Hin. apply in_map_iff in Hin as ([k' v] & <- & Hin).
  rewrite Forall_forall in Hall. destruct (Hall _ Hin) as [x Hx].
  apply column_width_ok in Hx as (s & Hf & _).
  now apply single_count in Hf.
Qed.

Lemma once_nodup (names : list string) :
  (forall k, In k names -> count_occ string_dec names k = 1) -> NoDup names.
Proof.
  intros H. apply (NoDup_count_occ string_dec). intros x.
  destruct (in_dec string_dec x names) as [Hin|Hnin].
  - rewrite (H _ Hin). lia.
  - apply (count_occ_not_In string_dec) in Hnin. lia.
Qed.

End CalculatorFacts.

Section CalculatorStructure.

Variable cell : Type.
Variable py_str : cell -> string.

Let DataFrame : Type := Pandas.DataFrame cell.
Implicit Types (df : DataFrame) (k : string) (s : list cell).

Lemma column_names_length df :
  List.length (Pandas.column_names df) = List.length (Pandas.columns df).
Proof. apply length_map. Qed.

(** The dictionary [headers] for each shape of [alternate_headers]. *)
Lemma resolve_headers_ok df ch alt headers :
  resolve_headers df ch alt = Ok headers ->
  match alt with
  | AltList labels =>
      List.length labels = List.length (Pandas.columns df)
      /\ headers = PyDict.of_pairs (combine (Pandas.column_names df) labels)
  | AltDict items =>
      List.length items = List.length (Pandas.columns df) /\ headers = items
  | AltNone =>
      ch = true
      /\ headers = PyDict.of_pairs
                     (map (fun v => (v, v)) (Pandas.column_names df))
  | AltOther => False
  end.
Proof.
  unfold resolve_headers. destruct alt as [|labels|items|].
  - destruct ch; [|discriminate]. intros H. inversion H; subst. auto.
  - destruct (Nat.eqb_spec (List.length labels) (List.length (Pandas.columns df)));
      simpl; [|discriminate]. intros H. inversion H; subst. auto.
  - unfold PyDict.keys. rewrite length_map.
    destruct (Nat.eqb_spec (List.length items) (List.length (Pandas.columns df)));
      simpl; [|discriminate]. intros H. inversion H; subst. auto.
  - discriminate.
Qed.

(** Every column label is a key of [headers], whatever the shape, once the
    loop has returned. *)
Lemma headers_cover df ch alt headers :
  resolve_headers df ch alt = Ok headers ->
  (forall items, alt = AltDict items -> PyDict.wf items) ->
  Forall (fun kv => exists x,
              column_width py_str df ch (fst kv) (snd kv) = Ok x) headers ->
  NoDup (Pandas.column_names df)
  /\ NoDup (PyDict.keys headers)
  /\ Permutation (PyDict.keys headers) (Pandas.column_names df)
  /\ match alt with
     | AltList labels => headers = combine (Pandas.column_names df) labels
     | AltNone => headers = map (fun v => (v, v)) (Pandas.column_names df)
     | AltDict items => headers = items
     | AltOther => False
     end
  /\ match alt with
     | AltDict _ => True
     | _ => PyDict.keys headers = Pandas.column_names df
     end.
Proof.
  intros Hres Hwf Hturns.
  pose proof (turns_once _ py_str df ch headers Hturns) as Honce.
  apply resolve_headers_ok in Hres.
  destruct alt as [|labels|items|]; [| | |contradiction].
  - destruct Hres as [_ ->].
    assert (Hnd : NoDup (Pandas.column_names df)).
    { apply once_nodup. intros k Hk. apply Honce.
      apply PyDictFacts.keys_of_pairs. now rewrite map_fst_diag. }
    rewrite PyDictFacts.of_pairs_nodup by now rewrite map_fst_diag.
    unfold PyDict.keys. rewrite map_fst_diag. auto.
  - destruct Hres as [Hlen ->].
    assert (Hfst : map fst (combine (Pandas.column_names df) labels)
                   = Pandas.column_names df).
    { apply combine_fst. now rewrite column_names_length. }
    assert (Hnd : NoDup (Pandas.column_names df)).
    { apply once_nodup. intros k Hk. apply Honce.
      apply PyDictFacts.keys_of_pairs. now rewrite Hfst. }
    rewrite PyDictFacts.of_pairs_nodup by now rewrite Hfst.
    unfold PyDict.keys. rewrite Hfst. auto.
  - destruct Hres as [Hlen ->].
    pose proof (Hwf items eq_refl) as Hkeys. unfold PyDict.wf in Hkeys.
    assert (Hincl : incl (PyDict.keys items) (Pandas.column_names df)).
    { intros k Hk. apply (count_occ_In string_dec).
      rewrite (Honce k Hk). lia. }
    assert (Hperm : Permutation (PyDict.keys items) (Pandas.column_names df)).
    { apply NoDup_Permutation_bis; auto.
      unfold PyDict.keys. rewrite length_map, column_names_length. lia. }
    repeat split; auto. eapply Permutation_NoDup; eauto.
Qed.

(** What a returned width map looks like. *)
Lemma maximum_character_widths_ok df ch alt widths :
  (forall items, alt = AltDict items -> PyDict.wf items) ->
  maximum_character_widths py_str df ch alt = Ok widths ->
  exists headers,
    resolve_headers df ch alt = Ok headers
    /\ NoDup (Pandas.column_names df)
    /\ NoDup (PyDict.keys headers)
    /\ Permutation (PyDict.keys headers) (Pandas.column_names df)
    /\ PyDict.keys widths = PyDict.keys headers
    /\ Forall2 (fun kv kw =>
                  column_width py_str df ch (fst kv) (snd kv) = Ok (snd kw))
               headers widths
    /\ match alt with
       | AltList labels => headers = combine (Pandas.column_names df) labels
       | AltNone => headers = map (fun v => (v, v)) (Pandas.column_names df)
       | AltDict items => headers = items
       | AltOther => False
       end
    /\ match alt with
       | AltDict _ => True
       | _ => PyDict.keys headers = Pandas.column_names df
       end.
Proof.
  intros Hwf H. unfold maximum_character_widths in H.
  destruct (resolve_headers df ch alt) as [headers|e] eqn:Hres;
    simpl in H; [|discriminate].
  pose proof (fill_widths_turns _ _ _ _ _ _ _ H) as Hturns.
  destruct (headers_cover _ _ _ _ Hres Hwf Hturns)
    as (Hnd & Hk & Hperm & Hshape & Hord).
  apply fill_widths_ok in H; [|simpl; exact Hk].
  destruct H as (ws & -> & Hfst & Hf2). simpl.
  exists headers. repeat split; auto.
Qed.

(** A specification that fits a frame with distinct labels is accepted. *)
Lemma maximum_character_widths_fits df ch alt :
  NoDup (Pandas.column_names df) ->
  fits df alt ->
  exists headers widths,
    resolve_headers df ch alt = Ok headers
    /\ maximum_character_widths py_str df ch alt = Ok widths
    /\ Permutation (PyDict.keys headers) (Pandas.column_names df)
    /\ PyDict.keys widths = PyDict.keys headers
    /\ Forall2 (fun kv kw =>
                  column_width py_str df ch (fst kv) (snd kv) = Ok (snd kw))
               headers widths.
Proof.
  intros Hnd Hfit.
  assert (Hres : exists headers,
             resolve_headers df ch alt = Ok headers
             /\ NoDup (PyDict.keys headers)
             /\ incl (PyDict.keys headers) (Pandas.column_names df)
             /\ List.length (Pandas.column_names df)
                <= List.length (PyDict.keys headers)).
  { destruct alt as [|labels|items|]; simpl in Hfit; try contradiction.
    - exists (combine (Pandas.column_names df) labels).
      assert (Hfst : map fst (combine (Pandas.column_names df) labels)
                     = Pandas.column_names df)
        by (apply combine_fst; now rewrite column_names_length).
      unfold resolve_headers. rewrite Hfit, Nat.eqb_refl. simpl.
      rewrite PyDictFacts.of_pairs_nodup by now rewrite Hfst.
      unfold PyDict.keys. rewrite Hfst.
      repeat split; auto using incl_refl.
    - destruct Hfit as (Hwf & Hlen & Hincl). exists items.
      unfold resolve_headers, PyDict.keys. rewrite length_map, Hlen, Nat.eqb_refl.
      simpl. repeat split; auto.
      rewrite column_names_length. lia. }
  destruct Hres as (headers & Hres & Hk & Hincl & Hlen).
  assert (Hturns : Forall (fun kv => exists x,
                      column_width py_str df ch (fst kv) (snd kv) = Ok x)
                     headers).
  { apply Forall_forall. intros [k v] Hin. simpl.
    assert (Hkn : In k (Pandas.column_names df))
      by (apply Hincl; change k with (fst (k, v)); now apply in_map).
    apply in_map_iff in Hkn as ([k' s] & Heq & Hks). simpl in Heq. subst k'.
    exists (stored py_str ch v s). apply column_width_single.
    now apply filter_label_single. }
  destruct (fill_widths_total _ py_str df ch headers [] Hturns) as [w Hw].
  exists headers, w. unfold maximum_character_widths. rewrite Hres. simpl.
  pose proof Hw as Hw'.
  apply fill_widths_ok in Hw'; [|simpl; exact Hk].
  destruct Hw' as (ws & -> & Hfst & Hf2). simpl.
  repeat split; auto.
  apply NoDup_Permutation_bis; auto.
Qed.

(** The entry of a label in the width map, from the turn that stored it. *)
Lemma widths_entry df ch (headers : PyDict.t string) (widths : PyDict.t width) :
  NoDup (Pandas.column_names df) ->
  NoDup (PyDict.keys headers) ->
  PyDict.keys widths = PyDict.keys headers ->
  Forall2 (fun kv kw =>
             column_width py_str df ch (fst kv) (snd kv) = Ok (snd kw))
          headers widths ->
  forall k v s,
    In (k, v) headers -> In (k, s) (Pandas.columns df) ->
    PyDict.get widths k = Some (stored py_str ch v s).
Proof.
  intros Hnd Hk Hkeys Hf2 k v s Hin Hcol.
  assert (Hkw : NoDup (PyDict.keys widths)) by now rewrite Hkeys.
  apply PyDictFacts.get_in_nodup; [exact Hkw|].
  clear Hkw. revert widths Hkeys Hf2.
  induction headers as [|[k0 v0] headers IH]; intros widths Hkeys Hf2;
    [contradiction|].
  inversion Hf2 as [|? [k1 w1] ? ws Hcw Hf2']; subst. simpl in *.
  inversion Hkeys as [[Hk1 Hrest]]. inversion Hk; subst.
  destruct Hin as [Heq|Hin].
  - inversion Heq; subst. left. f_equal.
    rewrite (column_width_single _ py_str df ch k v s) in Hcw
      by now apply filter_label_single.
    now inversion Hcw.
  - right. now apply IH.
Qed.

End CalculatorStructure.

(** ** Statements about the width calculator *)

Example scenario1 :
  maximum_character_widths str_id names_frame true AltNone
  = Ok [("Name", WInt 11)].
Proof. reflexivity. Qed.

Example scenario3 :
  maximum_character_widths str_id ab_frame true (AltList ["Alpha"])
  = Raise (ValueError label_count_msg).
Proof. reflexivity. Qed.

Example repeated_label_has_no_str :
  maximum_character_widths str_id
    (text_frame [("A", ["x"]); ("A", ["y"])]) true (AltList ["a"; "b"])
  = Raise (AttributeError "'DataFrame' object has no attribute 'str'").
Proof. reflexivity. Qed.

(** C1, as the source has it.  On a frame whose column labels are distinct
    and whose columns all have at least one row, with header labels supplied (a list or a dict
    that fits the frame) and [consider_headers] false, the calculator returns
    a map that gives every column the largest character length among the
    textual renderings of its cells. *)
Theorem widths_without_headers_are_cell_maxima
    {cell : Type} (py_str : cell -> string)
    (df : Pandas.DataFrame cell) (alt : header_spec) :
  NoDup (Pandas.column_names df) ->
  (forall name s, In (name, s) (Pandas.columns df) -> s <> []) ->
  fits df alt ->
  exists widths,
    maximum_character_widths py_str df false alt = Ok widths
    /\ forall name s,
         In (name, s) (Pandas.columns df) ->
         PyDict.get widths name = Some (WInt (max_text_length py_str s)).
Proof.
  intros Hnd Hrows Hfit.
  destruct (maximum_character_widths_fits _ py_str df false alt Hnd Hfit)
    as (headers & widths & _ & Hw & Hperm & Hkeys & Hf2).
  exists widths. split; [exact Hw|]. intros name s Hin.
  assert (Hk : In name (PyDict.keys headers)).
  { eapply Permutation_in; [apply Permutation_sym, Hperm|].
    change name with (fst (name, s)). now apply in_map. }
  apply in_map_iff in Hk as ([k v] & Heq & Hkv). simpl in Heq. subst k.
  rewrite (widths_entry _ py_str df false headers widths Hnd) with (v := v) (s := s);
    auto.
  - unfold stored. now rewrite series_max_text by eauto.
  - eapply Permutation_NoDup; [apply Permutation_sym, Hperm|exact Hnd].
Qed.

Lemma widths_without_headers_are_cell_maxima_witness :
  NoDup (Pandas.column_names ab_frame)
  /\ (forall name s, In (name, s) (Pandas.columns ab_frame) -> s <> [])
  /\ fits ab_frame (AltList ["A much longer label"; "Another one"])
  /\ exists widths,
       maximum_character_widths str_id ab_frame false
         (AltList ["A much longer label"; "Another one"]) = Ok widths
       /\ forall name s,
            In (name, s) (Pandas.columns ab_frame) ->
            PyDict.get widths name = Some (WInt (max_text_length str_id s)).
Proof.
  assert (H1 : NoDup (Pandas.column_names ab_frame)).
  { simpl. repeat constructor; simpl; intuition discriminate. }
  assert (H2 : forall name s, In (name, s) (Pandas.columns ab_frame) -> s <> []).
  { simpl. intros name s [H|[H|[]]]; inversion H; discriminate. }
  assert (H3 : fits ab_frame (AltList ["A much longer label"; "Another one"]))
    by reflexivity.
  split; [exact H1|]. split; [exact H2|]. split; [exact H3|].
  exact (widths_without_headers_are_cell_maxima str_id ab_frame _ H1 H2 H3).
Defined.

(** C1 as stated fails: it promises a map for every dataset and every
    supplied labels.  On a frame in which a label repeats, each column with
    a row, a list of one label per column makes the calculator raise the
    [AttributeError] of the lookup; and on a frame with distinct labels a
    list with too few labels makes it raise the label-count [ValueError]. *)
Lemma cell_maxima_need_distinct_fitting_labels :
  ((forall name s,
       In (name, s) (Pandas.columns (text_frame [("A", ["x"]); ("A", ["y"])])) ->
       s <> [])
   /\ maximum_character_widths str_id
        (text_frame [("A", ["x"]); ("A", ["y"])]) false (AltList ["a"; "b"])
      = Raise (AttributeError "'DataFrame' object has no attribute 'str'"))
  /\ ((forall name s, In (name, s) (Pandas.columns ab_frame) -> s <> [])
      /\ maximum_character_widths str_id ab_frame false (AltList ["Alpha"])
         = Raise (ValueError label_count_msg)).
Proof.
  split; (split; [|reflexivity]); simpl;
    intros name s [H|[H|[]]]; inversion H; discriminate.
Qed.

(** C2.  A list or a dict of header labels whose number of labels differs
    from the number of columns makes the calculator raise the label-count
    [ValueError], whatever the labels are and whatever [consider_headers]
    is. *)
Theorem label_count_mismatch_raises
    {cell : Type} (py_str : cell -> string)
    (df : Pandas.DataFrame cell) (ch : bool) (alt : header_spec) (n : nat) :
  label_count alt = Some n ->
  n <> List.length (Pandas.columns df) ->
  maximum_character_widths py_str df ch alt
  = Raise (ValueError label_count_msg).
Proof.
  intros Hn Hne. unfold maximum_character_widths, resolve_headers.
  destruct alt as [|labels|items|]; simpl in Hn; try discriminate;
    inversion Hn; subst; unfold PyDict.keys; rewrite ?length_map;
    apply Nat.eqb_neq in Hne; now rewrite Hne.
Qed.

Lemma label_count_mismatch_raises_witness :
  label_count (AltDict [("A", "Alpha")]) = Some 1
  /\ 1 <> List.length (Pandas.columns ab_frame)
  /\ maximum_character_widths str_id ab_frame false (AltDict [("A", "Alpha")])
     = Raise (ValueError label_count_msg).
Proof.
  assert (H1 : label_count (AltDict [("A", "Alpha")]) = Some 1) by reflexivity.
  assert (H2 : 1 <> List.length (Pandas.columns ab_frame)) by (simpl; lia).
  split; [exact H1|]. split; [exact H2|].
  exact (label_count_mismatch_raises str_id ab_frame false _ 1 H1 H2).
Defined.

(** C3.  With [alternate_headers] absent and [consider_headers] false the
    calculator does not return: on every frame it raises the [TypeError]
    whose message asks for a list or a dictionary. *)
Theorem absent_headers_unconsidered_raises
    {cell : Type} (py_str : cell -> string) (df : Pandas.DataFrame cell) :
  maximum_character_widths py_str df false AltNone
  = Raise (TypeError header_type_msg).
Proof. reflexivity. Qed.

Example scenario2_raises :
  maximum_character_widths str_id names_frame false AltNone
  = Raise (TypeError header_type_msg).
Proof. reflexivity. Qed.

Section LabelsAndWidths.

Variable cell : Type.
Variable py_str : cell -> string.

Let DataFrame : Type := Pandas.DataFrame cell.
Implicit Types (df : DataFrame) (k : string) (s : list cell).

Lemma stored_considered v s :
  exists n, stored py_str true v s = WInt n /\ (len v <= n)%Z.
Proof.
  unfold stored, py_max.
  destruct (Pandas.series_max _) as [b|].
  - destruct (Z.ltb_spec (len v) b); eexists; split; eauto; lia.
  - eexists; split; eauto; lia.
Qed.

Lemma stored_cases ch v s :
  (s = [] /\ ch = false /\ stored py_str ch v s = WNaN)
  \/ ((s <> [] \/ ch = true) /\ nonneg_int (stored py_str ch v s)).
Proof.
  destruct ch.
  - right. split; [now right|].
    destruct (stored_considered v s) as (n & -> & Hn).
    exists n. split; [reflexivity|]. unfold len in Hn. lia.
  - unfold stored.
    destruct (series_max_cases _ py_str s) as [[-> ->]|[Hs ->]].
    + left. auto.
    + right. split; [now left|]. eexists. split; [reflexivity|].
      apply max_text_length_nonneg.
Qed.

(** With [consider_headers] false the loop reads the keys of [headers]
    only. *)
Lemma fill_widths_unconsidered df (items items' : list (string * string)) acc :
  map fst items = map fst items' ->
  fill_widths py_str df false items acc = fill_widths py_str df false items' acc.
Proof.
  revert items' acc.
  induction items as [|[k v] items IH]; intros [|[k' v'] items'] acc H;
    simpl in H; try discriminate; [reflexivity|].
  inversion H; subst. simpl. unfold column_width.
  destruct (Pandas.str_len_max cell py_str df k'); simpl; auto.
Qed.

Lemma set_keys_indep {V} (d d' : PyDict.t V) k v v' :
  PyDict.keys d = PyDict.keys d' ->
  PyDict.keys (PyDict.set d k v) = PyDict.keys (PyDict.set d' k v').
Proof.
  revert d'. induction d as [|[k0 v0] d IH]; intros [|[k0' v0'] d'] H;
    simpl in H; try discriminate; [reflexivity|].
  inversion H; subst. simpl.
  destruct (String.eqb k0' k); simpl; f_equal; auto.
Qed.

Lemma fold_set_keys_indep {V} (items items' : list (string * V)) d d' :
  map fst items = map fst items' ->
  PyDict.keys d = PyDict.keys d' ->
  PyDict.keys (fold_left (fun d kv => PyDict.set d (fst kv) (snd kv)) items d)
  = PyDict.keys
      (fold_left (fun d kv => PyDict.set d (fst kv) (snd kv)) items' d').
Proof.
  revert items' d d'.
  induction items as [|[k v] items IH]; intros [|[k' v'] items'] d d' H Hd;
    simpl in H; try discriminate; [exact Hd|].
  inversion H; subst. simpl. apply IH; auto. now apply set_keys_indep.
Qed.

Lemma combine_fst_indep {A B} (l : list A) (l1 l2 : list B) :
  List.length l1 = List.length l2 ->
  map fst (combine l l1) = map fst (combine l l2).
Proof.
  revert l1 l2. induction l as [|a l IH]; intros [|b1 l1] [|b2 l2] H;
    simpl in *; try discriminate; auto. f_equal. apply IH. lia.
Qed.

Lemma unconsidered_labels_unread df alt alt' :
  same_columns alt alt' ->
  maximum_character_widths py_str df false alt
  = maximum_character_widths py_str df false alt'.
Proof.
  unfold same_columns, maximum_character_widths, resolve_headers.
  destruct alt as [|l|d|], alt' as [|l'|d'|]; try contradiction; intros H.
  - rewrite <- H.
    destruct (negb (Nat.eqb (List.length l) (List.length (Pandas.columns df))));
      simpl; [reflexivity|].
    apply fill_widths_unconsidered.
    apply (fold_set_keys_indep _ _ [] []); [|reflexivity].
    now apply combine_fst_indep.
  - rewrite <- H.
    destruct (negb (Nat.eqb (List.length (PyDict.keys d))
                            (List.length (Pandas.columns df))));
      simpl; [reflexivity|].
    now apply fill_widths_unconsidered.
Qed.

End LabelsAndWidths.

(** C4.  The docstring of the calculator says that supplied labels count
    whatever [consider_headers] is ("If present, is equivalent to
    consider_headers = True"); the loop measures a label only when
    [consider_headers] is true.  For the one-column frame [Name] with the
    cells [Al] and [Bartholomew], the label [Full name of the customer] and
    [consider_headers] false, the call returns 11 for [Name], although the
    label has 25 characters.  In general, with [consider_headers] false the
    width a returned map gives a column with a row is the longest rendering
    of its cells alone, and the texts of the labels are not read at all:
    specifications naming the same columns give the same result; with
    [consider_headers] true, the sibling path, the width of every column is
    an integer no smaller than the length of its label. *)
Theorem labels_enter_widths_only_when_considered :
  (maximum_character_widths str_id names_frame false
     (AltList ["Full name of the customer"]) = Ok [("Name", WInt 11)]
   /\ (11 < len "Full name of the customer")%Z)
  /\ forall (cell : Type) (py_str : cell -> string)
            (df : Pandas.DataFrame cell) (alt : header_spec)
            (widths : PyDict.t width),
       (forall items, alt = AltDict items -> PyDict.wf items) ->
       (maximum_character_widths py_str df false alt = Ok widths ->
        forall name s,
          In (name, s) (Pandas.columns df) -> s <> [] ->
          PyDict.get widths name = Some (WInt (max_text_length py_str s)))
       /\ (forall alt',
              same_columns alt alt' ->
              maximum_character_widths py_str df false alt
              = maximum_character_widths py_str df false alt')
       /\ (maximum_character_widths py_str df true alt = Ok widths ->
           forall name label,
             In (name, label) (header_assoc df alt) ->
             exists n,
               PyDict.get widths name = Some (WInt n) /\ (len label <= n)%Z).
Proof.
  split; [split; reflexivity|].
  intros cell py_str df alt widths Hwf.
  split; [|split; [intros alt'; apply unconsidered_labels_unread|]].
  - intros Hw name s Hin Hs.
    destruct (maximum_character_widths_ok _ py_str df false alt widths Hwf Hw)
      as (headers & _ & Hnd & Hk & Hperm & Hkeys & Hf2 & _ & _).
    assert (Hname : In name (PyDict.keys headers)).
    { eapply Permutation_in; [apply Permutation_sym, Hperm|].
      change name with (fst (name, s)). now apply in_map. }
    apply in_map_iff in Hname as ([k label] & Heq & Hkv).
    simpl in Heq. subst k.
    rewrite (widths_entry _ py_str df false headers widths Hnd Hk Hkeys Hf2
               name label s Hkv Hin).
    unfold stored. now rewrite series_max_text.
  - intros Hw name label Hin.
    destruct (maximum_character_widths_ok _ py_str df true alt widths Hwf Hw)
      as (headers & _ & Hnd & Hk & Hperm & Hkeys & Hf2 & Hshape & _).
    assert (Hh : header_assoc df alt = headers).
    { destruct alt; simpl in *; try contradiction; now subst. }
    rewrite Hh in Hin. clear Hh.
    assert (Hname : In name (Pandas.column_names df)).
    { eapply Permutation_in; [exact Hperm|].
      change name with (fst (name, label)). now apply in_map. }
    apply in_map_iff in Hname as ([k s] & Heq & Hks). simpl in Heq. subst k.
    rewrite (widths_entry _ py_str df true headers widths Hnd Hk Hkeys Hf2
               name label s Hin Hks).
    destruct (stored_considered _ py_str label s) as (n & -> & Hn).
    now exists n.
Qed.

Lemma labels_enter_widths_only_when_considered_witness :
  (forall items,
      AltList ["Full name of the customer"] = AltDict items -> PyDict.wf items)
  /\ maximum_character_widths str_id names_frame false
       (AltList ["Full name of the customer"]) = Ok [("Name", WInt 11)]
  /\ In ("Name", ["Al"; "Bartholomew"]) (Pandas.columns names_frame)
  /\ ["Al"; "Bartholomew"] <> []
  /\ PyDict.get [("Name", WInt 11)] "Name"
     = Some (WInt (max_text_length str_id ["Al"; "Bartholomew"])).
Proof.
  assert (H1 : forall items,
             AltList ["Full name of the customer"] = AltDict items ->
             PyDict.wf items) by (intros items H; discriminate H).
  assert (H2 : maximum_character_widths str_id names_frame false
                 (AltList ["Full name of the customer"])
               = Ok [("Name", WInt 11)]) by reflexivity.
  assert (H3 : In ("Name", ["Al"; "Bartholomew"])
                  (Pandas.columns names_frame)) by (simpl; now left).
  assert (H4 : ["Al"; "Bartholomew"] <> []) by discriminate.
  split; [exact H1|]. split; [exact H2|]. split; [exact H3|].
  split; [exact H4|].
  exact (proj1 (proj2 labels_enter_widths_only_when_considered string str_id
                  names_frame _ _ H1) H2 _ _ H3 H4).
Defined.

(** C9, as the source has it.  A returned width map has exactly one entry
    per column of the frame: its keys are the column labels, each once, in
    the frame's column order when the labels are a list or absent and in the
    dict's own order when they are a dict.  The value of a column is a
    non-negative integer when the column has a row or [consider_headers] is
    true, and NaN for a column without rows otherwise. *)
Theorem width_map_shape
    {cell : Type} (py_str : cell -> string)
    (df : Pandas.DataFrame cell) (ch : bool) (alt : header_spec)
    (widths : PyDict.t width) :
  (forall items, alt = AltDict items -> PyDict.wf items) ->
  maximum_character_widths py_str df ch alt = Ok widths ->
  NoDup (PyDict.keys widths)
  /\ Permutation (PyDict.keys widths) (Pandas.column_names df)
  /\ match alt with
     | AltDict items => PyDict.keys widths = PyDict.keys items
     | _ => PyDict.keys widths = Pandas.column_names df
     end
  /\ forall name s,
       In (name, s) (Pandas.columns df) ->
       exists w,
         PyDict.get widths name = Some w
         /\ ((s <> [] \/ ch = true) /\ nonneg_int w
             \/ s = [] /\ ch = false /\ w = WNaN).
Proof.
  intros Hwf Hw.
  destruct (maximum_character_widths_ok _ py_str df ch alt widths Hwf Hw)
    as (headers & _ & Hnd & Hk & Hperm & Hkeys & Hf2 & Hshape & Hord).
  split; [now rewrite Hkeys|]. split; [now rewrite Hkeys|]. split.
  - destruct alt; try contradiction; subst; rewrite Hkeys; auto.
  - intros name s Hin.
    assert (Hname : In name (PyDict.keys headers)).
    { eapply Permutation_in; [apply Permutation_sym, Hperm|].
      change name with (fst (name, s)). now apply in_map. }
    apply in_map_iff in Hname as ([k v] & Heq & Hkv). simpl in Heq. subst k.
    exists (stored py_str ch v s). split.
    + now apply (widths_entry _ py_str df ch headers widths).
    + destruct (stored_cases _ py_str ch v s) as [(? & ? & ?)|[? ?]]; auto.
Qed.

Lemma width_map_shape_witness :
  (forall items,
      AltDict [("B", "Beta"); ("A", "Alpha")] = AltDict items ->
      PyDict.wf items)
  /\ maximum_character_widths str_id ab_frame true
       (AltDict [("B", "Beta"); ("A", "Alpha")])
     = Ok [("B", WInt 4); ("A", WInt 5)]
  /\ Permutation (PyDict.keys [("B", WInt 4); ("A", WInt 5)])
                 (Pandas.column_names ab_frame).
Proof.
  assert (H1 : forall items,
             AltDict [("B", "Beta"); ("A", "Alpha")] = AltDict items ->
             PyDict.wf items).
  { intros items H. inversion H; subst. unfold PyDict.wf. simpl.
    repeat constructor; simpl; intuition discriminate. }
  assert (H2 : maximum_character_widths str_id ab_frame true
                 (AltDict [("B", "Beta"); ("A", "Alpha")])
               = Ok [("B", WInt 4); ("A", WInt 5)]) by reflexivity.
  split; [exact H1|]. split; [exact H2|].
  exact (proj1 (proj2 (width_map_shape str_id ab_frame true _ _ H1 H2))).
Defined.

(** C9 as stated fails twice: a dict of labels fixes the order of the map,
    not the frame; and a column without rows, headers unconsidered, gets NaN
    rather than an integer. *)
Lemma width_map_order_and_nan :
  (maximum_character_widths str_id ab_frame true
     (AltDict [("B", "Beta"); ("A", "Alpha")])
   = Ok [("B", WInt 4); ("A", WInt 5)]
   /\ Pandas.column_names ab_frame = ["A"; "B"])
  /\ maximum_character_widths str_id (text_frame [("A", [])]) false
       (AltList ["Alpha"])
     = Ok [("A", WNaN)].
Proof. repeat split; reflexivity. Qed.

Lemma first_missing {V} (items : list (string * V)) (names : list string) :
  ~ incl (map fst items) names ->
  exists done k v rest,
    items = done ++ (k, v) :: rest
    /\ ~ In k names
    /\ incl (map fst done) names.
Proof.
  induction items as [|[k v] items IH]; intros Hn.
  - exfalso. apply Hn. intros x [].
  - destruct (in_dec string_dec k names) as [Hin|Hnin].
    + destruct IH as (done & k' & v' & rest & -> & Hk' & Hdone).
      { intros Hincl. apply Hn. intros x [<-|Hx]; auto. }
      exists ((k, v) :: done), k', v', rest. repeat split; auto.
      intros x [<-|Hx]; auto.
    + exists [], k, v, items. repeat split; auto. intros x [].
Qed.

(** C10.  A dict of labels with as many entries as the frame has columns is
    accepted by the count check whatever its keys are: the calculator then
    returns only if every key is a column label, and on a frame with
    distinct labels the first key that is not one ends the call with the
    [KeyError] of the lookup, not with the label-count or header-type
    error.  The dict [{"A": "Alpha", "Z": "Zeta"}] on a frame with columns
    [A] and [B] is such a case. *)
Theorem mapping_keys_must_be_columns :
  (List.length [("A", "Alpha"); ("Z", "Zeta")]
   = List.length (Pandas.columns ab_frame)
   /\ maximum_character_widths str_id ab_frame true
        (AltDict [("A", "Alpha"); ("Z", "Zeta")])
      = Raise (KeyError "Z"))
  /\ forall (cell : Type) (py_str : cell -> string)
            (df : Pandas.DataFrame cell) (ch : bool) (items : PyDict.t string),
       List.length items = List.length (Pandas.columns df) ->
       (forall widths,
           maximum_character_widths py_str df ch (AltDict items) = Ok widths ->
           incl (PyDict.keys items) (Pandas.column_names df))
       /\ (NoDup (Pandas.column_names df) ->
           ~ incl (PyDict.keys items) (Pandas.column_names df) ->
           exists k,
             In k (PyDict.keys items)
             /\ ~ In k (Pandas.column_names df)
             /\ maximum_character_widths py_str df ch (AltDict items)
                = Raise (KeyError k)).
Proof.
  split; [split; reflexivity|].
  intros cell py_str df ch items Hlen.
  assert (Hres : resolve_headers df ch (AltDict items) = Ok items).
  { unfold resolve_headers, PyDict.keys.
    now rewrite length_map, Hlen, Nat.eqb_refl. }
  unfold maximum_character_widths. rewrite Hres. simpl. split.
  - intros widths Hw k Hk.
    apply fill_widths_turns in Hw.
    apply (count_occ_In string_dec).
    rewrite (turns_once _ py_str df ch items Hw k Hk). lia.
  - intros Hnd Hn.
    destruct (first_missing items _ Hn) as (done & k & v & rest & -> & Hk & Hd).
    exists k. split; [|split; [exact Hk|]].
    + unfold PyDict.keys. rewrite map_app. apply in_or_app. right. now left.
    + eapply fill_widths_raise; [reflexivity| |now apply column_width_missing].
      apply Forall_forall. intros [k' v'] Hin. simpl.
      assert (Hk' : In k' (Pandas.column_names df))
        by (apply Hd; change k' with (fst (k', v')); now apply in_map).
      apply in_map_iff in Hk' as ([k0 s] & Heq & Hks). simpl in Heq. subst k0.
      exists (stored py_str ch v' s). apply column_width_single.
      now apply filter_label_single.
Qed.

Lemma mapping_keys_must_be_columns_witness :
  List.length [("B", "Beta"); ("A", "Alpha")]
  = List.length (Pandas.columns ab_frame)
  /\ maximum_character_widths str_id ab_frame false
       (AltDict [("B", "Beta"); ("A", "Alpha")])
     = Ok [("B", WInt 2); ("A", WInt 1)]
  /\ incl (PyDict.keys [("B", "Beta"); ("A", "Alpha")])
          (Pandas.column_names ab_frame).
Proof.
  assert (H1 : List.length [("B", "Beta"); ("A", "Alpha")]
               = List.length (Pandas.columns ab_frame)) by reflexivity.
  assert (H2 : maximum_character_widths str_id ab_frame false
                 (AltDict [("B", "Beta"); ("A", "Alpha")])
               = Ok [("B", WInt 2); ("A", WInt 1)]) by reflexivity.
  split; [exact H1|]. split; [exact H2|].
  exact (proj1 (proj2 mapping_keys_must_be_columns string str_id ab_frame
                  false _ H1) _ H2).
Defined.

(** ** Further properties of the width calculator *)

Section CalculatorMore.

Variable cell : Type.
Variable py_str : cell -> string.

Let DataFrame : Type := Pandas.DataFrame cell.
Implicit Types (df : DataFrame) (k : string) (s : list cell).

Lemma text_length_le s v :
  In v s -> (len (py_str v) <= max_text_length py_str s)%Z.
Proof.
  intros Hin. unfold len, max_text_length. apply Nat2Z.inj_le.
  pose proof (proj1 (list_max_le
                       (map (fun v => String.length (py_str v)) s) _)
                    (Nat.le_refl _)) as Hall.
  rewrite Forall_forall in Hall. apply Hall.
  apply in_map_iff. now exists v.
Qed.

(** What a turn stores is no smaller than any cell of the column. *)
Lemma stored_covers ch label s v :
  In v s ->
  exists n, stored py_str ch label s = WInt n /\ (len (py_str v) <= n)%Z.
Proof.
  intros Hin. pose proof (text_length_le s v Hin) as Hle.
  assert (Hs : s <> []) by (intros ->; contradiction).
  unfold stored. rewrite (series_max_text _ py_str s Hs).
  destruct ch; simpl.
  - destruct (Z.ltb_spec (len label) (max_text_length py_str s));
      eexists; split; eauto; lia.
  - eexists; split; eauto.
Qed.

(** With the header considered, a turn stores the larger of the label's
    length and the longest cell. *)
Lemma stored_true_max label s :
  stored py_str true label s
  = WInt (Z.max (len label) (max_text_length py_str s)).
Proof.
  unfold stored.
  destruct (series_max_cases _ py_str s) as [[-> ->]|[Hs ->]]; simpl.
  - f_equal. unfold max_text_length, len. simpl. lia.
  - destruct (Z.ltb_spec (len label) (max_text_length py_str s));
      f_equal; lia.
Qed.

(** Headers whose keys are distinct column labels of a frame with distinct
    labels are sized without an error. *)
Lemma calculator_accepts df ch alt (headers : PyDict.t string) :
  resolve_headers df ch alt = Ok headers ->
  NoDup (Pandas.column_names df) ->
  NoDup (PyDict.keys headers) ->
  incl (PyDict.keys headers) (Pandas.column_names df) ->
  exists widths,
    maximum_character_widths py_str df ch alt = Ok widths
    /\ PyDict.keys widths = PyDict.keys headers
    /\ Forall2 (fun kv kw =>
                  column_width py_str df ch (fst kv) (snd kv) = Ok (snd kw))
               headers widths.
Proof.
  intros Hres Hnd Hk Hincl.
  assert (Hturns : Forall (fun kv => exists x,
                      column_width py_str df ch (fst kv) (snd kv) = Ok x)
                     headers).
  { apply Forall_forall. intros [k v] Hin. simpl.
    assert (Hkn : In k (Pandas.column_names df))
      by (apply Hincl; change k with (fst (k, v)); now apply in_map).
    apply in_map_iff in Hkn as ([k' s] & Heq & Hks). simpl in Heq. subst k'.
    exists (stored py_str ch v s). apply column_width_single.
    now apply filter_label_single. }
  destruct (fill_widths_total _ py_str df ch headers [] Hturns) as [w Hw].
  exists w. unfold maximum_character_widths. rewrite Hres. simpl.
  pose proof Hw as Hw'.
  apply fill_widths_ok in Hw'; [|simpl; exact Hk].
  destruct Hw' as (ws & -> & Hfst & Hf2). simpl. auto.
Qed.

(** A loop that raises does so with the exception of one of its turns. *)
Lemma fill_widths_raise_inv df ch items acc e :
  fill_widths py_str df ch items acc = Raise e ->
  exists k v, In (k, v) items /\ column_width py_str df ch k v = Raise e.
Proof.
  revert acc. induction items as [|[k v] items IH]; intros acc H;
    simpl in H; [discriminate|].
  destruct (column_width py_str df ch k v) as [x|e'] eqn:Hx; simpl in H.
  - apply IH in H as (k' & v' & Hin & He). exists k', v'. split; auto.
    now right.
  - inversion H; subst. exists k, v. split; auto. now left.
Qed.

(** On a label the frame has, a turn can only fail for want of [.str]. *)
Lemma column_width_raise_in df ch k v e :
  In k (Pandas.column_names df) ->
  column_width py_str df ch k v = Raise e ->
  exists msg, e = AttributeError msg.
Proof.
  intros Hin.
  assert (Hm : forall e',
             Pandas.str_len_max cell py_str df k = Raise e' ->
             exists msg, e' = AttributeError msg).
  { unfold Pandas.str_len_max, Pandas.getitem.
    destruct (filter _ (Pandas.columns df)) as [|c [|c' l]] eqn:Hf; simpl.
    - exfalso. apply in_map_iff in Hin as ([k' s] & Heq & Hks).
      simpl in Heq. subst k'.
      assert (Hc : In (k, s) (filter (fun c => String.eqb (fst c) k)
                                (Pandas.columns df))).
      { apply filter_In. split; [exact Hks|]. simpl. apply String.eqb_refl. }
      rewrite Hf in Hc. contradiction.
    - discriminate.
    - intros e' H. inversion H. eauto. }
  unfold column_width. destruct ch.
  - destruct (Pandas.str_len_max cell py_str df k) as [m|e'] eqn:Hs; simpl.
    + discriminate.
    + intros H. inversion H; subst. now apply Hm.
  - apply Hm.
Qed.

(** Whether and how the loop fails does not depend on [consider_headers]
    nor on the widths gathered so far. *)
Lemma fill_widths_raise_indep df items acc acc' e :
  fill_widths py_str df true items acc = Raise e
  <-> fill_widths py_str df false items acc' = Raise e.
Proof.
  revert acc acc'. induction items as [|[k v] items IH]; intros acc acc';
    simpl.
  - split; discriminate.
  - unfold column_width.
    destruct (Pandas.str_len_max cell py_str df k) as [m|e']; simpl.
    + apply IH.
    + reflexivity.
Qed.

Lemma resolve_headers_supplied df ch alt :
  alt <> AltNone ->
  resolve_headers df ch alt = resolve_headers df true alt.
Proof. destruct alt; try reflexivity. congruence. Qed.

End CalculatorMore.

(** X1.  Whatever the header labels and [consider_headers] are, a returned
    width map gives every column an integer that is no smaller than the
    length of the rendering of any of its cells. *)
Theorem widths_cover_every_cell
    {cell : Type} (py_str : cell -> string)
    (df : Pandas.DataFrame cell) (ch : bool) (alt : header_spec)
    (widths : PyDict.t width) :
  (forall items, alt = AltDict items -> PyDict.wf items) ->
  maximum_character_widths py_str df ch alt = Ok widths ->
  forall name s v,
    In (name, s) (Pandas.columns df) -> In v s ->
    exists n,
      PyDict.get widths name = Some (WInt n) /\ (len (py_str v) <= n)%Z.
Proof.
  intros Hwf Hw name s v Hin Hv.
  destruct (maximum_character_widths_ok _ py_str df ch alt widths Hwf Hw)
    as (headers & _ & Hnd & Hk & Hperm & Hkeys & Hf2 & _ & _).
  assert (Hname : In name (PyDict.keys headers)).
  { eapply Permutation_in; [apply Permutation_sym, Hperm|].
    change name with (fst (name, s)). now apply in_map. }
  apply in_map_iff in Hname as ([k label] & Heq & Hkv). simpl in Heq. subst k.
  rewrite (widths_entry _ py_str df ch headers widths Hnd Hk Hkeys Hf2
             name label s Hkv Hin).
  destruct (stored_covers _ py_str ch label s v Hv) as (n & -> & Hn).
  now exists n.
Qed.

Lemma widths_cover_every_cell_witness :
  (forall items, AltList ["N"; "A"] = AltDict items -> PyDict.wf items)
  /\ maximum_character_widths str_id people_frame false
       (AltList ["N"; "A"])
     = Ok [("Name", WInt 11); ("Age", WInt 2)]
  /\ In ("Name", ["Al"; "Bartholomew"]) (Pandas.columns people_frame)
  /\ In "Bartholomew" ["Al"; "Bartholomew"]
  /\ exists n,
       PyDict.get [("Name", WInt 11); ("Age", WInt 2)] "Name"
       = Some (WInt n)
       /\ (len (str_id "Bartholomew") <= n)%Z.
Proof.
  assert (H1 : forall items,
             AltList ["N"; "A"] = AltDict items -> PyDict.wf items)
    by (intros items H; discriminate H).
  assert (H2 : maximum_character_widths str_id people_frame false
                 (AltList ["N"; "A"])
               = Ok [("Name", WInt 11); ("Age", WInt 2)]) by reflexivity.
  assert (H3 : In ("Name", ["Al"; "Bartholomew"])
                  (Pandas.columns people_frame)) by (simpl; now left).
  assert (H4 : In "Bartholomew" ["Al"; "Bartholomew"])
    by (simpl; right; now left).
  split; [exact H1|]. split; [exact H2|]. split; [exact H3|].
  split; [exact H4|].
  exact (widths_cover_every_cell str_id people_frame false _ _ H1 H2
           _ _ _ H3 H4).
Defined.

(** X2.  With no labels supplied and [consider_headers] true, on a frame
    whose column labels are distinct the calculator returns; the keys of the
    map are the column labels in the frame's order, and the width of a column
    is the larger of the length of its own label and the longest rendering
    of its cells (the label's length for a column without rows). *)
Theorem own_labels_are_measured
    {cell : Type} (py_str : cell -> string) (df : Pandas.DataFrame cell) :
  NoDup (Pandas.column_names df) ->
  exists widths,
    maximum_character_widths py_str df true AltNone = Ok widths
    /\ PyDict.keys widths = Pandas.column_names df
    /\ forall name s,
         In (name, s) (Pandas.columns df) ->
         PyDict.get widths name
         = Some (WInt (Z.max (len name) (max_text_length py_str s))).
Proof.
  intros Hnd.
  set (headers := map (fun v => (v, v)) (Pandas.column_names df)).
  assert (Hkeys : PyDict.keys headers = Pandas.column_names df)
    by apply map_fst_diag.
  assert (Hres : resolve_headers df true AltNone = Ok headers).
  { simpl. now rewrite PyDictFacts.of_pairs_nodup by now rewrite map_fst_diag. }
  destruct (calculator_accepts _ py_str df true AltNone headers Hres Hnd)
    as (widths & Hw & Hk & Hf2).
  - now rewrite Hkeys.
  - rewrite Hkeys. apply incl_refl.
  - exists widths. split; [exact Hw|]. split; [now rewrite Hk|].
    intros name s Hin.
    rewrite (widths_entry _ py_str df true headers widths Hnd)
      with (v := name) (s := s); auto.
    + now rewrite stored_true_max.
    + now rewrite Hkeys.
    + apply in_map_iff. exists name. split; [reflexivity|].
      change name with (fst (name, s)). now apply in_map.
Qed.

Lemma own_labels_are_measured_witness :
  NoDup (Pandas.column_names people_frame)
  /\ exists widths,
       maximum_character_widths str_id people_frame true AltNone = Ok widths
       /\ PyDict.keys widths = Pandas.column_names people_frame
       /\ forall name s,
            In (name, s) (Pandas.columns people_frame) ->
            PyDict.get widths name
            = Some (WInt (Z.max (len name) (max_text_length str_id s))).
Proof.
  assert (H : NoDup (Pandas.column_names people_frame)).
  { simpl. repeat constructor; simpl; intuition discriminate. }
  split; [exact H|].
  exact (own_labels_are_measured str_id people_frame H).
Defined.

(** X3.  Considering the headers only ever widens.  When the calculator
    returns with [consider_headers] false, it also returns with
    [consider_headers] true, with the same keys in the same order, and the
    width of each column is then Python's [max] of the length of its label
    and the width found without the headers. *)
Theorem considered_width_is_max_with_label
    {cell : Type} (py_str : cell -> string)
    (df : Pandas.DataFrame cell) (alt : header_spec)
    (w0 : PyDict.t width) :
  (forall items, alt = AltDict items -> PyDict.wf items) ->
  maximum_character_widths py_str df false alt = Ok w0 ->
  exists w1,
    maximum_character_widths py_str df true alt = Ok w1
    /\ PyDict.keys w1 = PyDict.keys w0
    /\ forall name label m,
         In (name, label) (header_assoc df alt) ->
         PyDict.get w0 name = Some m ->
         PyDict.get w1 name = Some (py_max (len label) m).
Proof.
  intros Hwf Hw.
  destruct (maximum_character_widths_ok _ py_str df false alt w0 Hwf Hw)
    as (headers & Hres & Hnd & Hk & Hperm & Hkeys & Hf2 & Hshape & _).
  assert (Halt : alt <> AltNone) by (intros ->; discriminate Hw).
  rewrite (resolve_headers_supplied _ df false alt Halt) in Hres.
  destruct (calculator_accepts _ py_str df true alt headers Hres Hnd Hk)
    as (w1 & Hw1 & Hk1 & Hf21).
  { intros k Hin. eapply Permutation_in; eauto. }
  exists w1. split; [exact Hw1|]. split; [congruence|].
  intros name label m Hin Hm.
  assert (Hh : header_assoc df alt = headers).
  { destruct alt; simpl in *; try contradiction; now subst. }
  rewrite Hh in Hin. clear Hh.
  assert (Hname : In name (Pandas.column_names df)).
  { eapply Permutation_in; [exact Hperm|].
    change name with (fst (name, label)). now apply in_map. }
  apply in_map_iff in Hname as ([k s] & Heq & Hks). simpl in Heq. subst k.
  rewrite (widths_entry _ py_str df false headers w0 Hnd Hk Hkeys Hf2
             name label s Hin Hks) in Hm.
  rewrite (widths_entry _ py_str df true headers w1 Hnd Hk Hk1 Hf21
             name label s Hin Hks).
  inversion Hm; subst m. reflexivity.
Qed.

Lemma considered_width_is_max_with_label_witness :
  (forall items, AltList ["N"; "Years"] = AltDict items -> PyDict.wf items)
  /\ maximum_character_widths str_id people_frame false
       (AltList ["N"; "Years"])
     = Ok [("Name", WInt 11); ("Age", WInt 2)]
  /\ exists w1,
       maximum_character_widths str_id people_frame true
         (AltList ["N"; "Years"]) = Ok w1
       /\ PyDict.keys w1 = PyDict.keys [("Name", WInt 11); ("Age", WInt 2)]
       /\ forall name label m,
            In (name, label)
               (header_assoc people_frame (AltList ["N"; "Years"])) ->
            PyDict.get [("Name", WInt 11); ("Age", WInt 2)] name = Some m ->
            PyDict.get w1 name = Some (py_max (len label) m).
Proof.
  assert (H1 : forall items,
             AltList ["N"; "Years"] = AltDict items -> PyDict.wf items)
    by (intros items H; discriminate H).
  assert (H2 : maximum_character_widths str_id people_frame false
                 (AltList ["N"; "Years"])
               = Ok [("Name", WInt 11); ("Age", WInt 2)]) by reflexivity.
  split; [exact H1|]. split; [exact H2|].
  exact (considered_width_is_max_with_label str_id people_frame _ _ H1 H2).
Defined.

(** X4.  With labels supplied (a list, a dict or any other object),
    [consider_headers] changes neither whether the calculator fails nor the
    exception it fails with. *)
Theorem header_consideration_keeps_failures
    {cell : Type} (py_str : cell -> string)
    (df : Pandas.DataFrame cell) (alt : header_spec) (e : exn) :
  alt <> AltNone ->
  maximum_character_widths py_str df true alt = Raise e
  <-> maximum_character_widths py_str df false alt = Raise e.
Proof.
  intros Halt. unfold maximum_character_widths.
  rewrite (resolve_headers_supplied _ df false alt Halt).
  destruct (resolve_headers df true alt) as [headers|e']; simpl.
  - apply fill_widths_raise_indep.
  - reflexivity.
Qed.

Lemma header_consideration_keeps_failures_witness :
  AltDict [("A", "Alpha"); ("Z", "Zeta")] <> AltNone
  /\ (maximum_character_widths str_id ab_frame true
        (AltDict [("A", "Alpha"); ("Z", "Zeta")]) = Raise (KeyError "Z")
      <-> maximum_character_widths str_id ab_frame false
            (AltDict [("A", "Alpha"); ("Z", "Zeta")]) = Raise (KeyError "Z")).
Proof.
  assert (H : AltDict [("A", "Alpha"); ("Z", "Zeta")] <> AltNone)
    by discriminate.
  split; [exact H|].
  exact (header_consideration_keeps_failures str_id ab_frame _
           (KeyError "Z") H).
Defined.

(** X5.  A frame in which a column label repeats is never sized by position:
    with the frame's own labels, or with a list of one label per column, the
    calculator raises the [AttributeError] of [.str] on the frame that
    [df[key]] hands back for the repeated label. *)
Theorem repeated_labels_raise_attribute_error
    {cell : Type} (py_str : cell -> string)
    (df : Pandas.DataFrame cell) (ch : bool) (alt : header_spec) :
  by_position df ch alt ->
  ~ NoDup (Pandas.column_names df) ->
  exists msg,
    maximum_character_widths py_str df ch alt = Raise (AttributeError msg).
Proof.
  intros Hpos Hdup.
  assert (Hwf : forall items, alt = AltDict items -> PyDict.wf items).
  { intros items ->. contradiction. }
  destruct (maximum_character_widths py_str df ch alt) as [widths|e] eqn:Hw.
  { exfalso. apply Hdup.
    now destruct (maximum_character_widths_ok _ py_str df ch alt widths
                    Hwf Hw) as (_ & _ & Hnd & _). }
  assert (Hres : exists headers,
             resolve_headers df ch alt = Ok headers
             /\ incl (PyDict.keys headers) (Pandas.column_names df)).
  { destruct alt as [|labels|items|]; simpl in Hpos; try contradiction.
    - subst ch. eexists. split; [reflexivity|].
      intros k Hk. apply (proj1 (PyDictFacts.keys_of_pairs _ _)) in Hk.
      now rewrite map_fst_diag in Hk.
    - eexists. split.
      + unfold resolve_headers. now rewrite Hpos, Nat.eqb_refl.
      + intros k Hk. apply (proj1 (PyDictFacts.keys_of_pairs _ _)) in Hk.
        rewrite combine_fst in Hk; [exact Hk|].
        now rewrite column_names_length. }
  destruct Hres as (headers & Hres & Hincl).
  unfold maximum_character_widths in Hw. rewrite Hres in Hw. simpl in Hw.
  apply fill_widths_raise_inv in Hw as (k & v & Hin & He).
  apply column_width_raise_in in He as [msg ->]; [now exists msg|].
  apply Hincl. change k with (fst (k, v)). now apply in_map.
Qed.

Lemma repeated_labels_raise_attribute_error_witness :
  by_position (text_frame [("A", ["x"]); ("A", ["y"])]) false
    (AltList ["a"; "b"])
  /\ ~ NoDup (Pandas.column_names (text_frame [("A", ["x"]); ("A", ["y"])]))
  /\ exists msg,
       maximum_character_widths str_id
         (text_frame [("A", ["x"]); ("A", ["y"])]) false (AltList ["a"; "b"])
       = Raise (AttributeError msg).
Proof.
  assert (H1 : by_position (text_frame [("A", ["x"]); ("A", ["y"])]) false
                 (AltList ["a"; "b"])) by reflexivity.
  assert (H2 : ~ NoDup (Pandas.column_names
                          (text_frame [("A", ["x"]); ("A", ["y"])]))).
  { simpl. intros H. inversion H as [|? ? Hin _]; subst.
    apply Hin. now left. }
  split; [exact H1|]. split; [exact H2|].
  exact (repeated_labels_raise_attribute_error str_id _ false _ H1 H2).
Defined.

(** X6.  A list of labels is read as the dict that pairs the column labels
    with it: on a frame with distinct column labels, a list with one label
    per column and the dict [dict(zip(df.columns, labels))] give the same
    result. *)
Theorem list_labels_are_a_zipped_dict
    {cell : Type} (py_str : cell -> string)
    (df : Pandas.DataFrame cell) (ch : bool) (labels : list string) :
  NoDup (Pandas.column_names df) ->
  List.length labels = List.length (Pandas.columns df) ->
  maximum_character_widths py_str df ch (AltList labels)
  = maximum_character_widths py_str df ch
      (AltDict (PyDict.of_pairs (combine (Pandas.column_names df) labels))).
Proof.
  intros Hnd Hlen.
  assert (Hfst : map fst (combine (Pandas.column_names df) labels)
                 = Pandas.column_names df)
    by (apply combine_fst; now rewrite column_names_length).
  unfold maximum_character_widths, resolve_headers.
  rewrite PyDictFacts.of_pairs_nodup by now rewrite Hfst.
  unfold PyDict.keys. rewrite Hfst, column_names_length, Hlen.
  reflexivity.
Qed.

Lemma list_labels_are_a_zipped_dict_witness :
  NoDup (Pandas.column_names ab_frame)
  /\ List.length ["Alpha"; "Beta"] = List.length (Pandas.columns ab_frame)
  /\ maximum_character_widths str_id ab_frame true (AltList ["Alpha"; "Beta"])
     = maximum_character_widths str_id ab_frame true
         (AltDict (PyDict.of_pairs
                     (combine (Pandas.column_names ab_frame)
                        ["Alpha"; "Beta"]))).
Proof.
  assert (H1 : NoDup (Pandas.column_names ab_frame)).
  { simpl. repeat constructor; simpl; intuition discriminate. }
  assert (H2 : List.length ["Alpha"; "Beta"]
               = List.length (Pandas.columns ab_frame)) by reflexivity.
  split; [exact H1|]. split; [exact H2|].
  exact (list_labels_are_a_zipped_dict str_id ab_frame true _ H1 H2).
Defined.

Section CalculatorOrder.

Variable cell : Type.
Variable py_str : cell -> string.

Let DataFrame : Type := Pandas.DataFrame cell.
Implicit Types (df : DataFrame) (k : string) (s : list cell).

(** Over items whose keys are new and do not repeat, the loop maps each
    item to its entry. *)
Lemma fill_widths_map df ch (items : list (string * string)) acc w :
  NoDup (PyDict.keys acc ++ map fst items) ->
  fill_widths py_str df ch items acc = Ok w ->
  w = acc ++ map (fun kv =>
                    (fst kv,
                     match column_width py_str df ch (fst kv) (snd kv) with
                     | Ok x => x
                     | Raise _ => WNaN
                     end)) items.
Proof.
  intros Hnd Hw.
  destruct (fill_widths_ok _ py_str df ch items acc w Hnd Hw)
    as (ws & -> & Hfst & Hf2).
  f_equal. clear Hnd Hw. revert ws Hfst Hf2.
  induction items as [|[k v] items IH]; intros [|[k' x] ws] Hfst Hf2;
    simpl in Hfst; try discriminate; [reflexivity|].
  inversion Hfst; subst. inversion Hf2 as [|? ? ? ? Hx Hrest]; subst.
  simpl in Hx. simpl. rewrite Hx. f_equal. now apply IH.
Qed.

End CalculatorOrder.

(** X7.  The order of a dict of labels decides the order of the width map
    and nothing else: when the calculator returns for a dict, it returns for
    every reordering of its items, with the same entries, in the order of
    the reordered dict. *)
Theorem dict_order_only_orders_the_map
    {cell : Type} (py_str : cell -> string)
    (df : Pandas.DataFrame cell) (ch : bool)
    (items items' : PyDict.t string) (widths : PyDict.t width) :
  PyDict.wf items ->
  Permutation items items' ->
  maximum_character_widths py_str df ch (AltDict items) = Ok widths ->
  exists widths',
    maximum_character_widths py_str df ch (AltDict items') = Ok widths'
    /\ Permutation widths widths'
    /\ PyDict.keys widths' = PyDict.keys items'.
Proof.
  intros Hwf Hperm Hw. unfold maximum_character_widths in *.
  destruct (resolve_headers df ch (AltDict items)) as [headers|e] eqn:Hres;
    simpl in Hw; [|discriminate].
  apply resolve_headers_ok in Hres as [Hlen ->].
  pose proof (fill_widths_turns _ py_str df ch items [] widths Hw) as Hturns.
  apply fill_widths_map in Hw; [|exact Hwf]. simpl in Hw.
  assert (Hres' : resolve_headers df ch (AltDict items') = Ok items').
  { unfold resolve_headers, PyDict.keys.
    rewrite length_map, <- (Permutation_length Hperm), Hlen, Nat.eqb_refl.
    reflexivity. }
  assert (Hwf' : NoDup (PyDict.keys items')).
  { eapply Permutation_NoDup; [|exact Hwf].
    unfold PyDict.keys. now apply Permutation_map. }
  assert (Hturns' : Forall (fun kv => exists x,
                       column_width py_str df ch (fst kv) (snd kv) = Ok x)
                      items')
    by (eapply Permutation_Forall; eauto).
  destruct (fill_widths_total _ py_str df ch items' [] Hturns') as [w' Hw'].
  rewrite Hres'. simpl. exists w'. split; [exact Hw'|].
  apply fill_widths_map in Hw'; [|exact Hwf']. simpl in Hw'. subst.
  split; [now apply Permutation_map|].
  unfold PyDict.keys. rewrite map_map. reflexivity.
Qed.

Lemma dict_order_only_orders_the_map_witness :
  PyDict.wf [("A", "Alpha"); ("B", "Beta")]
  /\ Permutation [("A", "Alpha"); ("B", "Beta")]
                 [("B", "Beta"); ("A", "Alpha")]
  /\ maximum_character_widths str_id ab_frame true
       (AltDict [("A", "Alpha"); ("B", "Beta")])
     = Ok [("A", WInt 5); ("B", WInt 4)]
  /\ exists widths',
       maximum_character_widths str_id ab_frame true
         (AltDict [("B", "Beta"); ("A", "Alpha")]) = Ok widths'
       /\ Permutation [("A", WInt 5); ("B", WInt 4)] widths'
       /\ PyDict.keys widths' = PyDict.keys [("B", "Beta"); ("A", "Alpha")].
Proof.
  assert (H1 : PyDict.wf [("A", "Alpha"); ("B", "Beta")]).
  { unfold PyDict.wf. simpl.
    repeat constructor; simpl; intuition discriminate. }
  assert (H2 : Permutation [("A", "Alpha"); ("B", "Beta")]
                           [("B", "Beta"); ("A", "Alpha")])
    by apply perm_swap.
  assert (H3 : maximum_character_widths str_id ab_frame true
                 (AltDict [("A", "Alpha"); ("B", "Beta")])
               = Ok [("A", WInt 5); ("B", WInt 4)]) by reflexivity.
  split; [exact H1|]. split; [exact H2|]. split; [exact H3|].
  exact (dict_order_only_orders_the_map str_id ab_frame true _ _ _
           H1 H2 H3).
Defined.

(** X8.  When the calculator returns.  For header labels that are absent, a
    list, or a dict whose keys do not repeat, the calculator returns a map
    exactly when the column labels of the frame are distinct and the labels
    fit: a list with one label per column, a dict whose keys are exactly the
    column labels, or no labels with [consider_headers] true. *)
Theorem calculator_returns_iff
    {cell : Type} (py_str : cell -> string)
    (df : Pandas.DataFrame cell) (ch : bool) (alt : header_spec) :
  (forall items, alt = AltDict items -> PyDict.wf items) ->
  (exists widths, maximum_character_widths py_str df ch alt = Ok widths)
  <-> NoDup (Pandas.column_names df)
      /\ (fits df alt \/ by_position df ch alt).
Proof.
  intros Hwf. split.
  - intros [widths Hw].
    destruct (maximum_character_widths_ok _ py_str df ch alt widths Hwf Hw)
      as (headers & Hres & Hnd & Hk & Hperm & _ & _ & Hshape & _).
    split; [exact Hnd|].
    apply resolve_headers_ok in Hres.
    destruct alt as [|labels|items|]; [| | |contradiction].
    + right. exact (proj1 Hres).
    + left. exact (proj1 Hres).
    + left. destruct Hres as [Hlen ->].
      split; [now apply Hwf|]. split; [exact Hlen|].
      intros k Hin. eapply Permutation_in; eauto.
  - intros [Hnd [Hfit|Hpos]].
    + destruct (maximum_character_widths_fits _ py_str df ch alt Hnd Hfit)
        as (headers & widths & _ & Hw & _).
      now exists widths.
    + destruct alt as [|labels|items|]; simpl in Hpos; try contradiction.
      * subst ch.
        assert (Hkeys : PyDict.keys
                          (map (fun v => (v, v)) (Pandas.column_names df))
                        = Pandas.column_names df) by apply map_fst_diag.
        destruct (calculator_accepts _ py_str df true AltNone
                    (map (fun v => (v, v)) (Pandas.column_names df)))
          as (widths & Hw & _); auto.
        -- simpl. now rewrite PyDictFacts.of_pairs_nodup
             by now rewrite map_fst_diag.
        -- now rewrite Hkeys.
        -- rewrite Hkeys. apply incl_refl.
        -- now exists widths.
      * destruct (maximum_character_widths_fits _ py_str df ch
                    (AltList labels) Hnd Hpos)
          as (headers & widths & _ & Hw & _).
        now exists widths.
Qed.

Lemma calculator_returns_iff_witness :
  (forall items, AltList ["Alpha"] = AltDict items -> PyDict.wf items)
  /\ ((exists widths,
          maximum_character_widths str_id ab_frame true (AltList ["Alpha"])
          = Ok widths)
      <-> NoDup (Pandas.column_names ab_frame)
          /\ (fits ab_frame (AltList ["Alpha"])
              \/ by_position ab_frame true (AltList ["Alpha"]))).
Proof.
  assert (H : forall items,
             AltList ["Alpha"] = AltDict items -> PyDict.wf items)
    by (intros items H; discriminate H).
  split; [exact H|].
  exact (calculator_returns_iff str_id ab_frame true (AltList ["Alpha"]) H).
Defined.

(** ** Statements about the export entry point *)

Example export_two_columns :
  to_autosize_excel str_id to_excel_succeeds people_frame "out.xlsx"
    both_columns_no_index
  = ([ToExcel people_frame (kwargs_of both_columns_no_index);
      SetColumn 0 0 14.41%float;
      SetColumn 1 1 3.93%float;
      Close],
     Ok "out.xlsx").
Proof. vm_compute. reflexivity. Qed.

(** C5, as the source has it.  The data is handed to the writer before the
    widths are computed: when the calculator raises, its exception leaves
    the call unchanged, no column has been sized and no header rewritten,
    the writer is closed, and the [to_excel] write is already in the log. *)
Theorem width_error_follows_the_data_write
    {cell : Type} (py_str : cell -> string)
    (to_excel_raises : Pandas.DataFrame cell -> to_excel_kwargs -> option exn)
    (df data sized : Pandas.DataFrame cell) (outfile : string) (o : options)
    (labels : list string) (e : exn) :
  choose_data df (columns o) = Ok data ->
  to_excel_raises df (kwargs_of o) = None ->
  choose_labels data o = Ok labels ->
  sized_frame data o = Ok sized ->
  maximum_character_widths py_str sized (consider_headers o) (AltList labels)
  = Raise e ->
  to_autosize_excel py_str to_excel_raises df outfile o
  = ([ToExcel df (kwargs_of o); Close], Raise e).
Proof.
  intros Hdata Hx Hlabels Hsized Hw.
  unfold to_autosize_excel, with_body.
  now rewrite Hdata, Hx, Hlabels, Hsized, Hw.
Qed.

Lemma width_error_follows_the_data_write_witness :
  choose_data people_frame (columns two_index_labels)
  = Ok (Pandas.mkDataFrame [(None, ["0"; "1"])]
          [("Name", ["Al"; "Bartholomew"])])
  /\ to_excel_succeeds people_frame (kwargs_of two_index_labels) = None
  /\ choose_labels
       (Pandas.mkDataFrame [(None, ["0"; "1"])]
          [("Name", ["Al"; "Bartholomew"])])
       two_index_labels
     = Ok ["i"; "j"; "Name"]
  /\ sized_frame
       (Pandas.mkDataFrame [(None, ["0"; "1"])]
          [("Name", ["Al"; "Bartholomew"])])
       two_index_labels
     = Ok (Pandas.mkDataFrame [(None, [])]
             [("index", ["0"; "1"]); ("Name", ["Al"; "Bartholomew"])])
  /\ maximum_character_widths str_id
       (Pandas.mkDataFrame [(None, [])]
          [("index", ["0"; "1"]); ("Name", ["Al"; "Bartholomew"])])
       (consider_headers two_index_labels) (AltList ["i"; "j"; "Name"])
     = Raise (ValueError label_count_msg)
  /\ to_autosize_excel str_id to_excel_succeeds people_frame "out.xlsx"
       two_index_labels
     = ([ToExcel people_frame (kwargs_of two_index_labels); Close],
        Raise (ValueError label_count_msg)).
Proof.
  repeat (split; [reflexivity|]).
  exact (width_error_follows_the_data_write str_id to_excel_succeeds
           people_frame _ _ "out.xlsx" two_index_labels _ _
           eq_refl eq_refl eq_refl eq_refl eq_refl).
Defined.

(** C5 as stated fails: with two index labels for a single-level index the
    calculator raises the label-count [ValueError], and by then the writer
    has received the data. *)
Lemma label_count_error_after_write :
  (exists data sized labels,
      choose_data people_frame (columns two_index_labels) = Ok data
      /\ choose_labels data two_index_labels = Ok labels
      /\ sized_frame data two_index_labels = Ok sized
      /\ maximum_character_widths str_id sized
           (consider_headers two_index_labels) (AltList labels)
         = Raise (ValueError label_count_msg))
  /\ to_autosize_excel str_id to_excel_succeeds people_frame "out.xlsx"
       two_index_labels
     = ([ToExcel people_frame (kwargs_of two_index_labels); Close],
        Raise (ValueError label_count_msg)).
Proof.
  split; [|reflexivity].
  eexists _, _, _. repeat split; reflexivity.
Qed.

(** C6.  The source never consults [header]: the labels it sizes by do not
    change with it.  With [columns] left at [None] (whatever [header] is)
    the branch taken is the one for alternative labels, and [list(columns)]
    on [None] ends the call with a [TypeError], after the data was written
    and before any width is computed; the call with every keyword argument
    at its default is such a call. *)
Theorem default_call_raises_before_sizing
    {cell : Type} (py_str : cell -> string)
    (df : Pandas.DataFrame cell) (outfile : string) :
  to_autosize_excel py_str to_excel_succeeds df outfile default_options
  = ([ToExcel df (kwargs_of default_options); Close],
     Raise (TypeError "'NoneType' object is not iterable"))
  /\ (forall o : options,
         columns o = ColNone ->
         to_autosize_excel py_str to_excel_succeeds df outfile o
         = ([ToExcel df (kwargs_of o); Close],
            Raise (TypeError "'NoneType' object is not iterable")))
  /\ (forall (data : Pandas.DataFrame cell) (o : options) (h : header_arg),
         choose_labels data (with_header o h) = choose_labels data o).
Proof.
  split; [reflexivity|]. split.
  - intros [ch sn c hd ix il sr sc] Hc. simpl in Hc. subst c.
    unfold to_autosize_excel, with_body, choose_labels. simpl.
    destruct ix; [destruct il as [|s|[|l0 l]]|]; simpl; try reflexivity.
    destruct (String.eqb s ""); reflexivity.
  - intros data [ch sn c hd ix il sr sc] h. reflexivity.
Qed.

Lemma default_call_raises_before_sizing_witness :
  columns (with_header default_options (HdrList ["N"; "A"])) = ColNone
  /\ to_autosize_excel str_id to_excel_succeeds people_frame "out.xlsx"
       (with_header default_options (HdrList ["N"; "A"]))
     = ([ToExcel people_frame
           (kwargs_of (with_header default_options (HdrList ["N"; "A"])));
         Close],
        Raise (TypeError "'NoneType' object is not iterable")).
Proof.
  assert (H : columns (with_header default_options (HdrList ["N"; "A"]))
              = ColNone) by reflexivity.
  split; [exact H|].
  exact (proj1 (proj2 (default_call_raises_before_sizing str_id people_frame
                         "out.xlsx")) _ H).
Defined.

(** ** Rounding to binary64 *)

Local Open Scope Z_scope.

(** *** Rounding a fraction to the nearest integer, ties to even *)

Lemma rhe_cases a b :
  0 < b ->
  let q := a / b in let r := a mod b in
  a = b * q + r /\ 0 <= r < b /\
  (round_half_even a b = q /\ (2 * r < b \/ (2 * r = b /\ Z.even q = true))
   \/ round_half_even a b = q + 1 /\ (2 * r > b \/ (2 * r = b /\ Z.even q = false))).
Proof.
  intros Hb q r. pose proof (Z.div_mod a b ltac:(lia)) as Hdm.
  pose proof (Z.mod_pos_bound a b Hb) as Hr.
  split; [exact Hdm|]. split; [exact Hr|].
  unfold round_half_even. fold q r.
  destruct (Z.compare_spec (2 * r) b) as [H|H|H].
  - destruct (Z.even q) eqn:He; [left|right]; split; auto.
  - left. split; auto.
  - right. split; auto. lia.
Qed.

Lemma rhe_exact a b : 0 < b -> round_half_even (a * b) b = a.
Proof.
  intros Hb. unfold round_half_even.
  rewrite Z.div_mul, Z.mod_mul by lia.
  destruct (Z.compare_spec (2 * 0) b); lia.
Qed.

Lemma rhe_one a : round_half_even a 1 = a.
Proof. rewrite <- (Z.mul_1_r a) at 1. apply rhe_exact. lia. Qed.

Lemma rhe_mono a a' b :
  0 < b -> a <= a' -> round_half_even a b <= round_half_even a' b.
Proof.
  intros Hb Hle.
  destruct (rhe_cases a b Hb) as (Ha & Hr & Hc).
  destruct (rhe_cases a' b Hb) as (Ha' & Hr' & Hc').
  set (q := a / b) in *. set (r := a mod b) in *.
  set (q' := a' / b) in *. set (r' := a' mod b) in *.
  assert (Hq : q <= q') by (apply Z.div_le_mono; lia).
  destruct (Z.eq_dec q q') as [Heq|Hne].
  - assert (r <= r') by nia.
    destruct Hc as [[-> Hc]|[-> Hc]], Hc' as [[-> Hc']|[-> Hc']]; try lia.
    rewrite <- Heq in Hc'. destruct Hc as [?|[? ?]], Hc' as [?|[? ?]]; try lia.
    congruence.
  - destruct Hc as [[-> Hc]|[-> Hc]], Hc' as [[-> Hc']|[-> Hc']]; lia.
Qed.

Lemma rhe_scale a b c :
  0 < b -> 0 < c -> round_half_even (a * c) (b * c) = round_half_even a b.
Proof.
  intros Hb Hc. unfold round_half_even.
  rewrite Z.div_mul_cancel_r by lia.
  rewrite Z.mul_mod_distr_r by lia.
  destruct (Z.compare_spec (2 * (a mod b * c)) (b * c)),
    (Z.compare_spec (2 * (a mod b)) b); try reflexivity; nia.
Qed.

Lemma rhe_nonneg a b : 0 < b -> 0 <= a -> 0 <= round_half_even a b.
Proof.
  intros Hb Ha. rewrite <- (rhe_exact 0 b Hb). apply rhe_mono; lia.
Qed.

Lemma rhe_upper a b k : 0 < b -> a <= k * b -> round_half_even a b <= k.
Proof. intros Hb H. rewrite <- (rhe_exact k b Hb). now apply rhe_mono. Qed.

Lemma rhe_lower a b k : 0 < b -> k * b <= a -> k <= round_half_even a b.
Proof. intros Hb H. rewrite <- (rhe_exact k b Hb). now apply rhe_mono. Qed.

(** *** Digits and canonical exponents *)

Lemma fexp_eq x : fexp prec emax x = Z.max (x - 53) (-1074).
Proof. reflexivity. Qed.

Lemma digits2_size p : digits2_pos p = Pos.size p.
Proof. induction p; simpl; congruence. Qed.

Lemma digits2_bounds p :
  2 ^ (Zpos (digits2_pos p) - 1) <= Zpos p < 2 ^ Zpos (digits2_pos p).
Proof.
  rewrite digits2_size.
  pose proof (Pos.size_gt p) as Hgt. pose proof (Pos.size_le p) as Hle.
  split.
  - assert (H : 2 ^ Zpos (Pos.size p) <= 2 * Zpos p).
    { change (2 * Zpos p) with (Zpos p~0). rewrite <- Pos2Z.inj_pow.
      apply Pos2Z.pos_le_pos. exact Hle. }
    replace (Zpos (Pos.size p)) with (Z.succ (Zpos (Pos.size p) - 1)) in H by lia.
    rewrite Z.pow_succ_r in H by lia. lia.
  - rewrite <- Pos2Z.inj_pow. apply Pos2Z.pos_lt_pos. exact Hgt.
Qed.

Lemma mantissa_lt m : Zpos (digits2_pos m) <= 53 -> Zpos m < 2 ^ 53.
Proof.
  intros Hd. destruct (digits2_bounds m) as [_ Hhi].
  assert (2 ^ Zpos (digits2_pos m) <= 2 ^ 53)
    by (apply Z.pow_le_mono_r; lia). lia.
Qed.

Lemma digits2_unique p d :
  2 ^ (d - 1) <= Zpos p < 2 ^ d -> Zpos (digits2_pos p) = d.
Proof.
  intros [Hlo Hhi]. destruct (digits2_bounds p) as [Hlo' Hhi'].
  assert (Hd : 0 < d).
  { destruct (Z.ltb_spec 0 d); auto. exfalso.
    assert (2 ^ d <= 1).
    { destruct (Z.eq_dec d 0) as [->|]; [simpl; lia|rewrite Z.pow_neg_r; lia]. }
    lia. }
  destruct (Z.lt_trichotomy (Zpos (digits2_pos p)) d) as [H|[H|H]]; auto.
  - assert (2 ^ Zpos (digits2_pos p) <= 2 ^ (d - 1))
      by (apply Z.pow_le_mono_r; lia). lia.
  - assert (2 ^ d <= 2 ^ (Zpos (digits2_pos p) - 1))
      by (apply Z.pow_le_mono_r; lia). lia.
Qed.

(** *** Shifting a mantissa right, with its round and sticky bits *)

Lemma iter_pos_iter {A} (f : A -> A) p x : iter_pos f p x = Pos.iter f x p.
Proof.
  revert x. induction p as [p IH|p IH|]; intros x; simpl.
  - rewrite !IH, !Pos.iter_swap. reflexivity.
  - now rewrite !IH.
  - reflexivity.
Qed.

Lemma shr_1_nonneg m r s :
  0 <= m ->
  shr_1 (Build_shr_record m r s) = Build_shr_record (m / 2) (Z.odd m) (r || s).
Proof.
  intros Hm. rewrite <- Z.div2_div.
  destruct m as [|[p|p|]|]; try reflexivity. lia.
Qed.

Lemma shifted_succ M n :
  0 <= M -> 1 <= n -> shr_1 (shifted M n) = shifted M (n + 1).
Proof.
  intros HM Hn. unfold shifted.
  rewrite shr_1_nonneg by (apply Z.div_pos; [lia|apply Z.pow_pos_nonneg; lia]).
  replace (n + 1 - 1) with n by lia.
  f_equal.
  - rewrite Z.pow_add_r, Z.div_div by lia || (apply Z.pow_pos_nonneg; lia).
    reflexivity.
  - assert (Hp : 0 < 2 ^ (n - 1)) by (apply Z.pow_pos_nonneg; lia).
    assert (Hn2 : 2 ^ n = 2 ^ (n - 1) * 2).
    { replace n with (Z.succ (n - 1)) at 1 by lia.
      rewrite Z.pow_succ_r by lia. ring. }
    pose proof (Z.div_mod M (2 ^ (n - 1)) ltac:(lia)) as Hdm.
    pose proof (Z.mod_pos_bound M (2 ^ (n - 1)) Hp) as Hb.
    set (q := M / 2 ^ (n - 1)) in *. set (r := M mod 2 ^ (n - 1)) in *.
    assert (Hmod : M mod 2 ^ n = (q mod 2) * 2 ^ (n - 1) + r).
    { rewrite Hn2. rewrite Z.rem_mul_r by lia. fold q r. ring. }
    rewrite Hmod.
    pose proof (Z.mod_pos_bound q 2 ltac:(lia)) as Hq2.
    rewrite Zodd_mod.
    destruct (Z.eqb_spec (q mod 2) 1) as [H1|H1],
             (Z.eqb_spec r 0) as [H0|H0],
             (Z.eqb_spec (q mod 2 * 2 ^ (n - 1) + r) 0) as [H2|H2];
      simpl; try reflexivity; try nia.
Qed.

Lemma shifted_one M : 0 <= M -> shr_1 (Build_shr_record M false false) = shifted M 1.
Proof.
  intros HM. rewrite shr_1_nonneg by lia. unfold shifted. simpl.
  rewrite Z.div_1_r, Z.mod_1_r. reflexivity.
Qed.

Lemma iter_shr_1 M p :
  0 <= M ->
  iter_pos shr_1 p (Build_shr_record M false false) = shifted M (Zpos p).
Proof.
  intros HM. rewrite iter_pos_iter.
  induction p using Pos.peano_ind.
  - simpl. now apply shifted_one.
  - rewrite Pos.iter_succ, IHp, shifted_succ by lia.
    f_equal. lia.
Qed.

Lemma round_shifted M n :
  0 <= M -> 1 <= n ->
  round_nearest_even (shr_m (shifted M n)) (loc_of_shr_record (shifted M n))
  = round_half_even M (2 ^ n).
Proof.
  intros HM Hn. unfold shifted. simpl.
  assert (Hp : 0 < 2 ^ (n - 1)) by (apply Z.pow_pos_nonneg; lia).
  assert (Hn2 : 2 ^ n = 2 ^ (n - 1) * 2).
  { replace n with (Z.succ (n - 1)) at 1 by lia.
    rewrite Z.pow_succ_r by lia. ring. }
  pose proof (Z.div_mod M (2 ^ (n - 1)) ltac:(lia)) as Hdm.
  pose proof (Z.mod_pos_bound M (2 ^ (n - 1)) Hp) as Hb.
  set (q := M / 2 ^ (n - 1)) in *. set (r := M mod 2 ^ (n - 1)) in *.
  assert (Hmod : M mod 2 ^ n = (q mod 2) * 2 ^ (n - 1) + r).
  { rewrite Hn2. rewrite Z.rem_mul_r by lia. fold q r. ring. }
  assert (Hdiv : M / 2 ^ n = q / 2).
  { rewrite Hn2, <- Z.div_div by lia. reflexivity. }
  unfold round_half_even. rewrite Hmod, Hdiv.
  pose proof (Z.mod_pos_bound q 2 ltac:(lia)) as Hq2.
  rewrite Zodd_mod.
  destruct (Z.compare_spec (2 * (q mod 2 * 2 ^ (n - 1) + r)) (2 ^ n));
    destruct (Z.eqb_spec (q mod 2) 1) as [H1|H1],
             (Z.eqb_spec r 0) as [H0|H0]; simpl;
    try reflexivity; try nia.
Qed.

(** *** What [binary_round_aux] computes on an exact mantissa *)

Lemma pow2_pos n : 0 <= n -> 0 < 2 ^ n.
Proof. intros. apply Z.pow_pos_nonneg; lia. Qed.

Lemma pow2_split a b : 0 <= a -> 0 <= b -> 2 ^ (a + b) = 2 ^ a * 2 ^ b.
Proof. intros. apply Z.pow_add_r; lia. Qed.

Lemma shr_fexp_noshift m2 E :
  fexp prec emax (Zdigits2 m2 + E) - E <= 0 ->
  shr_fexp prec emax m2 E loc_Exact = (Build_shr_record m2 false false, E).
Proof.
  intros H. unfold shr_fexp, shr. simpl shr_record_of_loc.
  destruct (fexp prec emax (Zdigits2 m2 + E) - E); try reflexivity. lia.
Qed.

Lemma shr_fexp_shift m e :
  e <= cexp m e ->
  exists mrs,
    shr_fexp prec emax (Zpos m) e loc_Exact = (mrs, cexp m e)
    /\ round_nearest_even (shr_m mrs) (loc_of_shr_record mrs)
       = round_half_even (Zpos m) (2 ^ (cexp m e - e)).
Proof.
  intros He. unfold shr_fexp, shr. simpl shr_record_of_loc.
  change (fexp prec emax (Zdigits2 (Zpos m) + e)) with (cexp m e).
  destruct (cexp m e - e) as [|n|n] eqn:Hn; try lia.
  - eexists. split; [f_equal; lia|]. simpl. now rewrite rhe_one.
  - eexists. split; [f_equal; lia|].
    rewrite iter_shr_1 by lia. apply round_shifted; lia.
Qed.

Lemma cexp_eq m e :
  cexp m e = Z.max (Zpos (digits2_pos m) + e - 53) (-1074).
Proof. reflexivity. Qed.

(** The mantissa after the first rounding. *)
Lemma rounded_bounds m e :
  e <= cexp m e ->
  let m2 := round_half_even (Zpos m) (2 ^ (cexp m e - e)) in
  0 <= m2 <= 2 ^ 53 /\ (-1074 < cexp m e -> 2 ^ 52 <= m2).
Proof.
  intros He m2. pose proof (digits2_bounds m) as [Hlo Hhi].
  pose proof (cexp_eq m e) as HE.
  set (d := Zpos (digits2_pos m)) in *. set (E := cexp m e) in *.
  assert (Hn : 0 <= E - e) by lia.
  assert (Hp : 0 < 2 ^ (E - e)) by now apply pow2_pos.
  assert (Hd : 0 < d) by (unfold d; lia).
  split; [split|].
  - apply rhe_nonneg; lia.
  - apply rhe_upper; [lia|].
    rewrite <- pow2_split by lia.
    assert (2 ^ d <= 2 ^ (53 + (E - e))) by (apply Z.pow_le_mono_r; lia). lia.
  - intros Hnorm. apply rhe_lower; [lia|].
    rewrite <- pow2_split by lia.
    replace (52 + (E - e)) with (d - 1) by lia. lia.
Qed.

Lemma binary_round_aux_exact s m e :
  e <= cexp m e ->
  binary_round_aux prec emax s (Zpos m) e loc_Exact
  = finish s (round_half_even (Zpos m) (2 ^ (cexp m e - e))) (cexp m e).
Proof.
  intros He. unfold binary_round_aux.
  destruct (shr_fexp_shift m e He) as (mrs & -> & ->).
  destruct (rounded_bounds m e He) as [[H0 H53] Hnorm].
  pose proof (cexp_eq m e) as HE.
  set (E := cexp m e) in *.
  set (m2 := round_half_even (Zpos m) (2 ^ (E - e))) in *.
  destruct m2 as [|p2|p2] eqn:Hm2; [| |lia].
  - rewrite shr_fexp_noshift; [reflexivity|].
    rewrite fexp_eq. simpl Zdigits2. lia.
  - unfold finish. destruct (Z.eqb_spec (Zpos p2) (2 ^ 53)) as [Heq|Hne].
    + inversion Heq; subst p2.
      unfold shr_fexp, shr. simpl shr_record_of_loc.
      replace (fexp prec emax (Zdigits2 (Zpos 9007199254740992) + E) - E)
        with 1 by (rewrite fexp_eq; simpl Zdigits2; lia).
      reflexivity.
    + assert (Hd2 : Zpos (digits2_pos p2) <= 53).
      { destruct (digits2_bounds p2) as [Hlo _].
        destruct (Z.leb_spec (Zpos (digits2_pos p2)) 53); auto.
        assert (2 ^ 53 <= 2 ^ (Zpos (digits2_pos p2) - 1))
          by (apply Z.pow_le_mono_r; lia). lia. }
      assert (Hd2' : -1074 < E -> Zpos (digits2_pos p2) = 53).
      { intros Hn. apply digits2_unique. specialize (Hnorm Hn). simpl. lia. }
      rewrite shr_fexp_noshift; [reflexivity|].
      rewrite fexp_eq. simpl Zdigits2.
      destruct (Z.eq_dec E (-1074)); [lia|]. rewrite Hd2' by lia. lia.
Qed.

(** *** Monotonicity of the rounding *)

Lemma digits2_mono m m' :
  Zpos m <= Zpos m' -> Zpos (digits2_pos m) <= Zpos (digits2_pos m').
Proof.
  intros H. destruct (digits2_bounds m) as [Hlo _].
  destruct (digits2_bounds m') as [_ Hhi].
  destruct (Z.leb_spec (Zpos (digits2_pos m)) (Zpos (digits2_pos m'))); auto.
  assert (2 ^ Zpos (digits2_pos m') <= 2 ^ (Zpos (digits2_pos m) - 1))
    by (apply Z.pow_le_mono_r; lia). lia.
Qed.

Lemma digits2_shift m m' k :
  0 <= k -> Zpos m' = Zpos m * 2 ^ k ->
  Zpos (digits2_pos m') = Zpos (digits2_pos m) + k.
Proof.
  intros Hk Hm. apply digits2_unique. rewrite Hm.
  destruct (digits2_bounds m) as [Hlo Hhi].
  assert (Hp : 0 < 2 ^ k) by now apply pow2_pos.
  replace (Zpos (digits2_pos m) + k - 1) with (Zpos (digits2_pos m) - 1 + k) by lia.
  rewrite !pow2_split by lia. nia.
Qed.

Lemma finish_carry s m2 E :
  0 < m2 ->
  finish s m2 E
  = if snd (carry m2 E) <=? 971
    then S754_finite s (Z.to_pos (fst (carry m2 E))) (snd (carry m2 E))
    else S754_infinity s.
Proof.
  intros Hm. unfold finish, carry. destruct m2 as [|p|p]; try lia.
  change (emax - prec) with 971.
  destruct (Z.pos p =? 2 ^ 53); reflexivity.
Qed.

Lemma SFleb_finite m e m' e' :
  e < e' \/ (e = e' /\ Zpos m <= Zpos m') ->
  SFleb (S754_finite false m e) (S754_finite false m' e') = true.
Proof.
  intros H. unfold SFleb, SFcompare.
  destruct (Z.compare_spec e e') as [He|He|He]; try reflexivity; try lia.
  change (Pos.compare_cont Eq m m') with (Pos.compare m m').
  destruct (Pos.compare_spec m m'); try reflexivity. lia.
Qed.

Lemma finish_le m2 E m2' E' :
  E <= E' ->
  0 <= m2 <= 2 ^ 53 -> 0 <= m2' <= 2 ^ 53 ->
  (E = E' -> m2 <= m2') ->
  (E < E' -> 2 ^ 52 <= m2') ->
  SFleb (finish false m2 E) (finish false m2' E') = true.
Proof.
  intros HE H2 H2' Hsame Hless.
  assert (Hcase : E = E' /\ m2 <= m2' \/ E < E' /\ 2 ^ 52 <= m2').
  { destruct (Z.eq_dec E E') as [Heq|Hne]; [left|right]; split; auto;
      try lia. }
  clear Hsame Hless.
  destruct (Z.eq_dec m2 0) as [->|Hnz].
  - destruct m2' as [|p'|p']; try lia; [reflexivity|].
    rewrite (finish_carry false (Zpos p')) by lia. simpl finish.
    destruct (snd (carry (Z.pos p') E') <=? 971); reflexivity.
  - assert (Hpos : 0 < m2) by lia.
    assert (Hpos' : 0 < m2').
    { change (2 ^ 52) with 4503599627370496 in *. lia. }
    rewrite !finish_carry by lia.
    assert (Hk : snd (carry m2 E) < snd (carry m2' E')
                 \/ (snd (carry m2 E) = snd (carry m2' E')
                     /\ fst (carry m2 E) <= fst (carry m2' E'))).
    { unfold carry. change (2 ^ 53) with 9007199254740992 in *.
      change (2 ^ 52) with 4503599627370496 in *.
      destruct (Z.eqb_spec m2 9007199254740992),
               (Z.eqb_spec m2' 9007199254740992); simpl; lia. }
    assert (Hf : 0 < fst (carry m2 E)).
    { unfold carry. destruct (m2 =? 2 ^ 53); simpl; lia. }
    assert (Hf' : 0 < fst (carry m2' E')).
    { unfold carry. destruct (m2' =? 2 ^ 53); simpl; lia. }
    destruct (carry m2 E) as [k e], (carry m2' E') as [k' e']. simpl in *.
    destruct (Z.leb_spec e 971), (Z.leb_spec e' 971); try reflexivity.
    + apply SFleb_finite. rewrite !Z2Pos.id by lia. lia.
    + lia.
Qed.

Lemma cexp_mono m m' e : Zpos m <= Zpos m' -> cexp m e <= cexp m' e.
Proof.
  intros H. rewrite !cexp_eq. pose proof (digits2_mono m m' H). lia.
Qed.

Lemma scaled_le m e :
  e <= cexp m e ->
  scaled m e = round_half_even (Zpos m) (2 ^ (cexp m e - e)).
Proof. intros H. unfold scaled. apply Z.leb_le in H. now rewrite H. Qed.

(** Same exponent, below both canonical exponents: rounding is monotone. *)
Lemma nearest_mono_aligned m m' e :
  e <= cexp m e -> Zpos m <= Zpos m' ->
  SFleb (nearest false m e) (nearest false m' e) = true.
Proof.
  intros He Hm. pose proof (cexp_mono m m' e Hm) as HE.
  assert (He' : e <= cexp m' e) by lia.
  unfold nearest. rewrite !scaled_le by assumption.
  destruct (rounded_bounds m e He) as [Hb _].
  destruct (rounded_bounds m' e He') as [Hb' Hn'].
  apply finish_le; auto.
  - intros Heq. rewrite Heq. apply rhe_mono; [apply pow2_pos; lia|exact Hm].
  - intros Hlt. apply Hn'. pose proof (cexp_eq m e). lia.
Qed.

(** Writing the same value with a smaller exponent does not change the
    result. *)
Lemma nearest_refine s m m' e k :
  0 <= k -> Zpos m' = Zpos m * 2 ^ k ->
  nearest s m' (e - k) = nearest s m e.
Proof.
  intros Hk Hm.
  assert (HE : cexp m' (e - k) = cexp m e).
  { rewrite !cexp_eq, (digits2_shift m m' k Hk Hm). f_equal. lia. }
  unfold nearest. rewrite HE. f_equal.
  unfold scaled. rewrite HE.
  assert (Hp : 0 < 2 ^ k) by now apply pow2_pos.
  destruct (Z.leb_spec e (cexp m e)) as [H1|H1].
  - assert (H2 : e - k <= cexp m e) by lia.
    apply Z.leb_le in H2. rewrite H2, Hm.
    replace (cexp m e - (e - k)) with (cexp m e - e + k) by lia.
    rewrite pow2_split by lia. apply rhe_scale; [apply pow2_pos|]; lia.
  - destruct (Z.leb_spec (e - k) (cexp m e)) as [H2|H2].
    + rewrite Hm.
      replace k with ((e - cexp m e) + (cexp m e - (e - k))) at 1 by lia.
      rewrite pow2_split, Z.mul_assoc by lia.
      apply rhe_exact. apply pow2_pos. lia.
    + rewrite Hm.
      replace (e - cexp m e) with (k + (e - k - cexp m e)) by lia.
      rewrite pow2_split by lia. ring.
Qed.

Lemma shifted_pos (m : positive) (k : Z) :
  0 <= k -> exists m', Zpos m' = Zpos m * 2 ^ k.
Proof.
  intros Hk. assert (Hp : 0 < 2 ^ k) by now apply pow2_pos.
  exists (Z.to_pos (Zpos m * 2 ^ k)). rewrite Z2Pos.id; nia.
Qed.

(** Rounding to the nearest double is monotone in the value rounded. *)
Lemma nearest_mono m e m' e' e0 :
  e0 <= e -> e0 <= e' -> e0 <= -1074 ->
  Zpos m * 2 ^ (e - e0) <= Zpos m' * 2 ^ (e' - e0) ->
  SFleb (nearest false m e) (nearest false m' e') = true.
Proof.
  intros H0 H0' Hmin Hle.
  destruct (shifted_pos m (e - e0) ltac:(lia)) as [n Hn].
  destruct (shifted_pos m' (e' - e0) ltac:(lia)) as [n' Hn'].
  rewrite <- (nearest_refine false m n e (e - e0)) by (auto; lia).
  rewrite <- (nearest_refine false m' n' e' (e' - e0)) by (auto; lia).
  replace (e - (e - e0)) with e0 by lia.
  replace (e' - (e' - e0)) with e0 by lia.
  apply nearest_mono_aligned; [|lia].
  pose proof (cexp_eq n e0). lia.
Qed.

(** *** Validity of the results *)

(** The results are valid doubles. *)
Lemma finish_valid s m e :
  valid_binary (nearest s m e) = true.
Proof.
  unfold nearest.
  pose proof (cexp_eq m e) as HE. set (E := cexp m e) in *.
  assert (Hb : 0 <= scaled m e <= 2 ^ 53
               /\ (-1074 < E -> 2 ^ 52 <= scaled m e)).
  { unfold scaled. fold E. destruct (Z.leb_spec e E) as [H|H].
    - apply (rounded_bounds m e H).
    - pose proof (digits2_bounds m) as [Hlo Hhi].
      assert (Hd : Zpos (digits2_pos m) + (e - E) <= 53) by lia.
      assert (Hp : 0 < 2 ^ (e - E)) by (apply pow2_pos; lia).
      assert (Hup : Zpos m * 2 ^ (e - E) < 2 ^ 53).
      { assert (2 ^ (Zpos (digits2_pos m) + (e - E)) <= 2 ^ 53)
          by (apply Z.pow_le_mono_r; lia).
        rewrite pow2_split in H0 by lia. nia. }
      split; [nia|]. intros Hn.
      assert (Hd' : Zpos (digits2_pos m) - 1 + (e - E) = 52) by lia.
      assert (2 ^ (Zpos (digits2_pos m) - 1 + (e - E)) = 2 ^ 52)
        by now rewrite Hd'.
      rewrite pow2_split in H0 by lia. nia. }
  destruct Hb as [[H0 H53] Hn].
  unfold finish. destruct (scaled m e) as [|p|p] eqn:Hs; try reflexivity.
  change (emax - prec) with 971.
  destruct (Z.eqb_spec (Zpos p) (2 ^ 53)) as [Heq|Hne].
  - destruct (Z.leb_spec (E + 1) 971) as [Hle|Hgt]; [|reflexivity].
    simpl. unfold bounded, canonical_mantissa.
    apply andb_true_iff. split; [apply Z.eqb_eq|apply Z.leb_le; exact Hle].
    rewrite fexp_eq.
    replace (Zpos (digits2_pos (2 ^ 52))) with 53 by reflexivity. lia.
  - destruct (Z.leb_spec E 971) as [Hle|Hgt]; [|reflexivity].
    simpl. unfold bounded, canonical_mantissa.
    apply andb_true_iff. split; [apply Z.eqb_eq|apply Z.leb_le; exact Hle].
    rewrite fexp_eq.
    assert (Hd2 : Zpos (digits2_pos p) <= 53).
    { destruct (digits2_bounds p) as [Hlo _].
      destruct (Z.leb_spec (Zpos (digits2_pos p)) 53); auto.
      assert (2 ^ 53 <= 2 ^ (Zpos (digits2_pos p) - 1))
        by (apply Z.pow_le_mono_r; lia). lia. }
    destruct (Z.eq_dec E (-1074)); [lia|].
    assert (Zpos (digits2_pos p) = 53).
    { apply digits2_unique. simpl. specialize (Hn ltac:(lia)). lia. }
    lia.
Qed.

(** *** [binary_round], products and the order of valid doubles *)

Lemma nearest_aligned s m e :
  e <= cexp m e ->
  binary_round_aux prec emax s (Zpos m) e loc_Exact = nearest s m e.
Proof.
  intros He. rewrite binary_round_aux_exact by exact He.
  unfold nearest. now rewrite scaled_le.
Qed.

Lemma iter_xO m d : Zpos (Pos.iter xO m d) = Zpos m * 2 ^ Zpos d.
Proof.
  induction d using Pos.peano_ind.
  - simpl. lia.
  - rewrite Pos.iter_succ, Pos2Z.inj_succ, Z.pow_succ_r by lia.
    rewrite Pos2Z.inj_xO, IHd. ring.
Qed.

Lemma binary_round_nearest s m e :
  binary_round prec emax s m e = nearest s m e.
Proof.
  unfold binary_round, shl_align.
  change (fexp prec emax (Zpos (digits2_pos m) + e)) with (cexp m e).
  destruct (cexp m e - e) as [|d|d] eqn:Hd.
  - apply nearest_aligned. lia.
  - apply nearest_aligned. lia.
  - pose proof (iter_xO m d) as Hm.
    rewrite nearest_aligned.
    + rewrite <- (nearest_refine s m (Pos.iter xO m d) e (Zpos d)) by (auto; lia).
      f_equal. lia.
    + pose proof (cexp_eq (Pos.iter xO m d) (cexp m e)) as Hc.
      rewrite (digits2_shift m _ (Zpos d) ltac:(lia) Hm) in Hc.
      pose proof (cexp_eq m e). lia.
Qed.

(** A valid finite double: canonical mantissa, exponent in range. *)
Lemma valid_finite s m e :
  valid_binary (S754_finite s m e) = true ->
  cexp m e = e /\ e <= 971.
Proof.
  simpl. unfold bounded, canonical_mantissa. intros H.
  apply andb_true_iff in H as [H1 H2].
  apply Z.eqb_eq in H1. apply Z.leb_le in H2.
  split; [exact H1|exact H2].
Qed.

Lemma valid_digits s m e :
  valid_binary (S754_finite s m e) = true ->
  -1074 <= e <= 971 /\ Zpos (digits2_pos m) <= 53
  /\ (-1074 < e -> Zpos (digits2_pos m) = 53).
Proof.
  intros H. apply valid_finite in H as [Hc He]. rewrite cexp_eq in Hc. lia.
Qed.

(** A valid double rounds to itself. *)
Lemma nearest_valid s m e :
  valid_binary (S754_finite s m e) = true ->
  nearest s m e = S754_finite s m e.
Proof.
  intros H. pose proof (valid_digits s m e H) as (He & Hd & _).
  apply valid_finite in H as [Hc _].
  unfold nearest. rewrite scaled_le, Hc by lia.
  rewrite Z.sub_diag, rhe_one. unfold finish.
  change (emax - prec) with 971.
  pose proof (mantissa_lt m Hd) as Hm.
  destruct (Z.eqb_spec (Zpos m) (2 ^ 53)); [lia|].
  destruct (Z.leb_spec e 971); [reflexivity|lia].
Qed.

Lemma digits2_mul m m' :
  Zpos (digits2_pos m) + Zpos (digits2_pos m') - 1
  <= Zpos (digits2_pos (m * m')).
Proof.
  destruct (digits2_bounds m) as [Hlo _].
  destruct (digits2_bounds m') as [Hlo' _].
  destruct (digits2_bounds (m * m')) as [_ Hhi].
  rewrite Pos2Z.inj_mul in Hhi.
  set (d := Zpos (digits2_pos m)) in *. set (d' := Zpos (digits2_pos m')) in *.
  set (D := Zpos (digits2_pos (m * m'))) in *.
  assert (Hd : 0 < d) by (unfold d; lia).
  assert (Hd' : 0 < d') by (unfold d'; lia).
  destruct (Z.leb_spec (d + d' - 1) D); auto.
  assert (Hp : 2 ^ D <= 2 ^ (d - 1 + (d' - 1)))
    by (apply Z.pow_le_mono_r; lia).
  rewrite pow2_split in Hp by lia.
  assert (0 < 2 ^ (d - 1)) by (apply pow2_pos; lia).
  assert (0 < 2 ^ (d' - 1)) by (apply pow2_pos; lia).
  nia.
Qed.

(** The product of two valid finite doubles is the double nearest to the
    exact product. *)
Lemma SFmul_nearest sx mx ex sy my ey :
  valid_binary (S754_finite sx mx ex) = true ->
  valid_binary (S754_finite sy my ey) = true ->
  SFmul prec emax (S754_finite sx mx ex) (S754_finite sy my ey)
  = nearest (xorb sx sy) (mx * my) (ex + ey).
Proof.
  intros Hx Hy. simpl. apply nearest_aligned.
  pose proof (valid_digits _ _ _ Hx) as (Hex & Hdx & Hnx).
  pose proof (valid_digits _ _ _ Hy) as (Hey & Hdy & Hny).
  pose proof (digits2_mul mx my) as Hd.
  rewrite cexp_eq.
  assert (0 < Zpos (digits2_pos mx)) by lia.
  assert (0 < Zpos (digits2_pos my)) by lia.
  destruct (Z.eq_dec ex (-1074)) as [Hx0|Hx0];
    destruct (Z.eq_dec ey (-1074)) as [Hy0|Hy0].
  - lia.
  - rewrite Hny in Hd by lia. lia.
  - rewrite Hnx in Hd by lia. lia.
  - rewrite Hnx in Hd by lia. lia.
Qed.

(** On valid doubles the order of [SFleb] is the order of the values. *)
Lemma valid_le_value m e m' e' e0 :
  valid_binary (S754_finite false m e) = true ->
  valid_binary (S754_finite false m' e') = true ->
  SFleb (S754_finite false m e) (S754_finite false m' e') = true ->
  e0 <= e -> e0 <= e' ->
  Zpos m * 2 ^ (e - e0) <= Zpos m' * 2 ^ (e' - e0).
Proof.
  intros Hv Hv' Hle H0 H0'.
  pose proof (valid_digits _ _ _ Hv) as (He & Hd & Hn).
  pose proof (valid_digits _ _ _ Hv') as (He' & Hd' & Hn').
  unfold SFleb, SFcompare in Hle.
  destruct (Z.compare_spec e e') as [Heq|Hlt|Hgt]; try discriminate.
  - subst e'. change (Pos.compare_cont Eq m m') with (Pos.compare m m') in Hle.
    assert (Zpos m <= Zpos m').
    { destruct (Pos.compare_spec m m'); try discriminate; lia. }
    assert (0 < 2 ^ (e - e0)) by (apply pow2_pos; lia). nia.
  - destruct (digits2_bounds m') as [Hlo' _].
    rewrite Hn' in Hlo' by lia.
    pose proof (mantissa_lt m Hd) as Hm.
    replace (e' - e0) with ((e' - e - 1) + 1 + (e - e0)) by lia.
    rewrite !pow2_split by lia.
    assert (0 < 2 ^ (e - e0)) by (apply pow2_pos; lia).
    assert (0 < 2 ^ (e' - e - 1)) by (apply pow2_pos; lia).
    change (2 ^ (53 - 1)) with 4503599627370496 in Hlo'.
    change (2 ^ 53) with 9007199254740992 in Hm.
    change (2 ^ 1) with 2.
    set (A := 2 ^ (e - e0)) in *. set (B := 2 ^ (e' - e - 1)) in *.
    assert (Hmm : Zpos m <= 2 * Zpos m') by lia.
    assert (H2 : Zpos m * A <= 2 * Zpos m' * A)
      by (apply Z.mul_le_mono_nonneg_r; lia).
    assert (H3 : 2 * Zpos m' * A * 1 <= 2 * Zpos m' * A * B)
      by (apply Z.mul_le_mono_nonneg_l; nia).
    replace (Zpos m' * (B * 2 * A)) with (2 * Zpos m' * A * B) by ring.
    lia.
Qed.

(** *** The quotient by one hundred *)

Lemma sticky_quotient_bounds n :
  2 ^ 58 <= sticky_quotient n <= Zpos n * 2 ^ 59.
Proof.
  unfold sticky_quotient.
  pose proof (Z.div_mod (Zpos n * 2 ^ 64) 100 ltac:(lia)) as Hdm.
  pose proof (Z.mod_pos_bound (Zpos n * 2 ^ 64) 100 ltac:(lia)) as Hr.
  set (q := Zpos n * 2 ^ 64 / 100) in *.
  set (r := (Zpos n * 2 ^ 64) mod 100) in *.
  change (2 ^ 64) with 18446744073709551616 in *.
  change (2 ^ 58) with 288230376151711744.
  change (2 ^ 59) with 576460752303423488.
  destruct (Z.eqb_spec r 0); lia.
Qed.

Lemma sticky_quotient_mono n n' :
  Zpos n <= Zpos n' -> sticky_quotient n <= sticky_quotient n'.
Proof.
  intros H. unfold sticky_quotient.
  pose proof (Z.div_mod (Zpos n * 2 ^ 64) 100 ltac:(lia)) as Hdm.
  pose proof (Z.mod_pos_bound (Zpos n * 2 ^ 64) 100 ltac:(lia)) as Hr.
  pose proof (Z.div_mod (Zpos n' * 2 ^ 64) 100 ltac:(lia)) as Hdm'.
  pose proof (Z.mod_pos_bound (Zpos n' * 2 ^ 64) 100 ltac:(lia)) as Hr'.
  set (q := Zpos n * 2 ^ 64 / 100) in *.
  set (r := (Zpos n * 2 ^ 64) mod 100) in *.
  set (q' := Zpos n' * 2 ^ 64 / 100) in *.
  set (r' := (Zpos n' * 2 ^ 64) mod 100) in *.
  change (2 ^ 64) with 18446744073709551616 in *.
  destruct (Z.eqb_spec r 0), (Z.eqb_spec r' 0); lia.
Qed.

Lemma nearest_hundredth_eq s n :
  nearest_hundredth s n = nearest s (Z.to_pos (sticky_quotient n)) (-65).
Proof.
  unfold nearest_hundredth.
  pose proof (sticky_quotient_bounds n) as [Hlo _].
  change (2 ^ 58) with 288230376151711744 in Hlo.
  destruct (sticky_quotient n) as [|p|p] eqn:Hq; try lia.
  destruct s; simpl; apply binary_round_nearest.
Qed.

Lemma digits2_upper p k : Zpos p < 2 ^ k -> Zpos (digits2_pos p) <= k.
Proof.
  intros H. destruct (digits2_bounds p) as [Hlo _].
  destruct (Z.leb_spec (Zpos (digits2_pos p)) k); auto.
  assert (2 ^ k <= 2 ^ (Zpos (digits2_pos p) - 1)).
  { destruct (Z.leb_spec 0 k).
    - apply Z.pow_le_mono_r; lia.
    - rewrite (Z.pow_neg_r 2 k) by lia. apply Z.pow_nonneg. lia. }
  lia.
Qed.

Lemma digits2_lower p k : 2 ^ k <= Zpos p -> k < Zpos (digits2_pos p).
Proof.
  intros H. destruct (digits2_bounds p) as [_ Hhi].
  destruct (Z.ltb_spec k (Zpos (digits2_pos p))); auto.
  assert (2 ^ Zpos (digits2_pos p) <= 2 ^ k)
    by (apply Z.pow_le_mono_r; lia). lia.
Qed.

Lemma scaled_nonneg m e : 0 <= scaled m e.
Proof.
  unfold scaled. destruct (Z.leb_spec e (cexp m e)) as [H|H].
  - apply rhe_nonneg; [apply pow2_pos; lia|lia].
  - assert (0 < 2 ^ (e - cexp m e)) by (apply pow2_pos; lia). nia.
Qed.

Lemma nearest_sign s m e :
  match nearest s m e with
  | S754_zero s' | S754_finite s' _ _ | S754_infinity s' => s' = s
  | S754_nan => False
  end.
Proof.
  unfold nearest, finish. pose proof (scaled_nonneg m e) as H0.
  destruct (scaled m e) as [|p|p]; try lia; auto.
  destruct (Z.pos p =? 2 ^ 53);
    match goal with |- context [?a <=? ?b] => destruct (a <=? b) end; auto.
Qed.

Lemma nearest_finite s m e :
  cexp m e < 971 -> finite_sf (nearest s m e).
Proof.
  intros H. unfold nearest.
  pose proof (scaled_nonneg m e) as H0.
  destruct (Z.eq_dec (scaled m e) 0) as [->|Hnz]; [exact I|].
  rewrite finish_carry by lia.
  assert (snd (carry (scaled m e) (cexp m e)) <= 971).
  { unfold carry. destruct (scaled m e =? 2 ^ 53); simpl; lia. }
  destruct (Z.leb_spec (snd (carry (scaled m e) (cexp m e))) 971);
    [exact I|lia].
Qed.

(** *** From primitive floats to their specification *)


Lemma Prim2SF_zero : Prim2SF 0%float = S754_zero false.
Proof. reflexivity. Qed.

Lemma Prim2SF_infinity : Prim2SF infinity = S754_infinity false.
Proof. reflexivity. Qed.

Lemma Prim2SF_K :
  Prim2SF 0.118775%float = S754_finite false 8558640731854891 (-56).
Proof. reflexivity. Qed.

Lemma is_finite_spec x : is_finite x = true <-> finite_sf (Prim2SF x).
Proof.
  unfold is_finite, is_nan, is_infinity.
  rewrite !eqb_spec, abs_spec, Prim2SF_infinity.
  unfold SFeqb.
  destruct (Prim2SF x) as [s|s| |s m e] eqn:Hx; simpl.
  - destruct s; simpl; intuition.
  - destruct s; simpl; intuition discriminate.
  - intuition discriminate.
  - rewrite Z.compare_refl.
    change (Pos.compare_cont Eq m m) with (Pos.compare m m).
    rewrite Pos.compare_refl. destruct s; simpl; intuition.
Qed.

Lemma positive_finite_sf x :
  is_finite x = true -> (0 <? x)%float = true ->
  exists m e, Prim2SF x = S754_finite false m e.
Proof.
  intros Hf Hp. apply is_finite_spec in Hf.
  rewrite ltb_spec, Prim2SF_zero in Hp. unfold SFltb in Hp.
  destruct (Prim2SF x) as [s|s| |s m e]; simpl in *; try contradiction;
    try discriminate.
  destruct s; [discriminate|]. eauto.
Qed.

Lemma py_round2_spec x : Prim2SF (py_round2 x) = round2_sf (Prim2SF x).
Proof.
  unfold py_round2, round2_sf.
  destruct (Prim2SF x) as [s|s| |s m e] eqn:Hx; try exact Hx.
  destruct (hundredths m e) as [|n|n];
    rewrite Prim2SF_SF2Prim; try reflexivity.
  rewrite nearest_hundredth_eq. apply finish_valid.
Qed.

Lemma hundredths_common m e e0 :
  e0 <= e -> e0 <= 0 ->
  hundredths m e
  = round_half_even (Zpos m * 2 ^ (e - e0) * 100) (2 ^ (- e0)).
Proof.
  intros H H0. unfold hundredths.
  assert (Hp : 0 < 2 ^ (- e0)) by (apply pow2_pos; lia).
  destruct (Z.leb_spec 0 e) as [He|He].
  - replace (e - e0) with (e + - e0) by lia.
    rewrite pow2_split by lia.
    replace (Zpos m * (2 ^ e * 2 ^ (- e0)) * 100)
      with (Zpos m * 2 ^ e * 100 * 2 ^ (- e0)) by ring.
    rewrite <- (Z.mul_1_l (2 ^ (- e0))) at 2.
    symmetry. apply rhe_scale; lia.
  - replace (- e0) with (- e + (e - e0)) at 1 by lia.
    rewrite pow2_split by lia.
    replace (Zpos m * 2 ^ (e - e0) * 100)
      with (Zpos m * 100 * 2 ^ (e - e0)) by ring.
    symmetry. apply rhe_scale; apply pow2_pos; lia.
Qed.

Lemma hundredths_nonneg m e : 0 <= hundredths m e.
Proof.
  unfold hundredths. destruct (Z.leb_spec 0 e).
  - apply rhe_nonneg; [lia|].
    assert (0 < 2 ^ e) by (apply pow2_pos; lia). nia.
  - apply rhe_nonneg; [apply pow2_pos; lia|lia].
Qed.

Lemma cexp_sticky n : -65 <= cexp (Z.to_pos (sticky_quotient n)) (-65).
Proof.
  pose proof (sticky_quotient_bounds n) as [Hlo _].
  assert (Hq : Zpos (Z.to_pos (sticky_quotient n)) = sticky_quotient n).
  { apply Z2Pos.id. change (2 ^ 58) with 288230376151711744 in Hlo. lia. }
  rewrite cexp_eq.
  assert (58 < Zpos (digits2_pos (Z.to_pos (sticky_quotient n))))
    by (apply digits2_lower; now rewrite Hq).
  lia.
Qed.

Lemma is_infinity_spec x :
  is_infinity x
  = match Prim2SF x with S754_infinity _ => true | _ => false end.
Proof.
  unfold is_infinity. rewrite eqb_spec, abs_spec, Prim2SF_infinity.
  destruct (Prim2SF x) as [s|s| |s m e]; reflexivity.
Qed.

(** [round(x, 2)] of a finite double is a finite double. *)
Lemma round2_finite x :
  valid_binary x = true -> finite_sf x ->
  valid_binary (round2_sf x) = true /\ finite_sf (round2_sf x).
Proof.
  intros Hv Hf. destruct x as [s|s| |s m e]; try contradiction.
  - split; [reflexivity|exact I].
  - unfold round2_sf.
    pose proof (hundredths_nonneg m e) as Hh.
    destruct (hundredths m e) as [|n|n] eqn:Hn; try lia.
    + split; [reflexivity|exact I].
    + rewrite nearest_hundredth_eq. split; [apply finish_valid|].
      pose proof (sticky_quotient_bounds n) as [Hlo Hhi].
      assert (Hq : Zpos (Z.to_pos (sticky_quotient n)) = sticky_quotient n).
      { apply Z2Pos.id. change (2 ^ 58) with 288230376151711744 in Hlo. lia. }
      pose proof (valid_digits _ _ _ Hv) as (He & Hd & _).
      destruct (Z.leb_spec 0 e) as [He0|He0].
      * assert (Hs : sticky_quotient n = Zpos m * 2 ^ (e + 65)).
        { unfold sticky_quotient, hundredths in *.
          apply Z.leb_le in He0. rewrite He0, rhe_one in Hn.
          rewrite <- Hn.
          replace (Zpos m * 2 ^ e * 100 * 2 ^ 64)
            with (Zpos m * 2 ^ e * 2 ^ 64 * 100) by ring.
          rewrite Z.div_mul, Z.mod_mul by lia. simpl (0 =? 0).
          apply Z.leb_le in He0.
          rewrite (pow2_split e 65) by lia.
          change (2 ^ 65) with (2 * 2 ^ 64). ring. }
        assert (Hq' : Zpos (Z.to_pos (sticky_quotient n))
                      = Zpos m * 2 ^ (e + 65)) by (rewrite Hq; exact Hs).
        pose proof (nearest_refine s m _ e (e + 65) ltac:(lia) Hq') as Hr.
        replace (e - (e + 65)) with (-65) in Hr by lia.
        rewrite Hr, (nearest_valid _ _ _ Hv). exact I.
      * apply nearest_finite. rewrite cexp_eq.
        assert (Zpos (digits2_pos (Z.to_pos (sticky_quotient n))) <= 119).
        { apply digits2_upper. rewrite Hq.
          assert (Hn60 : Zpos n < 2 ^ 60).
          { rewrite <- Hn. unfold hundredths.
            destruct (Z.leb_spec 0 e); [lia|].
            pose proof (mantissa_lt m Hd) as Hm.
            assert (Hp : 0 < 2 ^ (- e)) by (apply pow2_pos; lia).
            assert (round_half_even (Zpos m * 100) (2 ^ (- e)) <= Zpos m * 100).
            { apply rhe_upper; [exact Hp|]. nia. }
            change (2 ^ 53) with 9007199254740992 in Hm.
            change (2 ^ 60) with 1152921504606846976. lia. }
          change (2 ^ 60) with 1152921504606846976 in Hn60.
          change (2 ^ 59) with 576460752303423488 in Hhi.
          change (2 ^ 119) with 664613997892457936451903530140172288.
          lia. }
        lia.
Qed.


(** [round(x, 2)] keeps a valid non-negative double finite, non-negative
    and valid. *)
Lemma round2_nn x : nn x -> nn (round2_sf x).
Proof.
  intros [Hv Hx].
  assert (Hf : finite_sf x) by (destruct Hx as [->|(m & e & ->)]; exact I).
  destruct (round2_finite x Hv Hf) as [Hv' Hf'].
  split; [exact Hv'|].
  destruct Hx as [->|(m & e & ->)]; [now left|].
  unfold round2_sf in *.
  destruct (hundredths m e) as [|n|n]; [now left| |now left].
  rewrite nearest_hundredth_eq in *.
  pose proof (nearest_sign false (Z.to_pos (sticky_quotient n)) (-65)) as Hs.
  destruct (nearest false (Z.to_pos (sticky_quotient n)) (-65))
    as [s|s| |s m' e']; simpl in *; try contradiction; subst; eauto.
Qed.

(** *** Order and products of non-negative doubles *)

Lemma nearest_nni m e : nni (nearest false m e).
Proof.
  pose proof (finish_valid false m e) as Hv.
  pose proof (nearest_sign false m e) as Hs.
  unfold nni, nn.
  destruct (nearest false m e) as [s|s| |s m' e']; try contradiction; subst.
  - left. split; auto.
  - now right.
  - left. split; eauto.
Qed.

Lemma SFleb_zero_l x : nni x -> SFleb (S754_zero false) x = true.
Proof.
  intros [[_ [->|(m & e & ->)]]| ->]; reflexivity.
Qed.

Lemma SFleb_refl_nn x : nni x -> SFleb x x = true.
Proof.
  intros [[_ [->|(m & e & ->)]]| ->]; try reflexivity.
  apply SFleb_finite. lia.
Qed.

Lemma nn_nni x : nn x -> nni x.
Proof. now left. Qed.

Lemma nni_finite x : nni x -> finite_sf x -> nn x.
Proof. intros [H| ->] Hf; [exact H|contradiction]. Qed.

(** Products of finite non-negative doubles. *)
Lemma SFmul_nni a r : nn a -> nn r -> nni (SFmul prec emax a r).
Proof.
  intros [Hva [->|(ma & ea & ->)]] [Hvr [->|(mr & er & ->)]];
    try (left; split; [reflexivity|now left]).
  rewrite SFmul_nearest by assumption. apply nearest_nni.
Qed.

Lemma SFmul_comm_nn a r :
  nn a -> nn r -> SFmul prec emax a r = SFmul prec emax r a.
Proof.
  intros [Hva [->|(ma & ea & ->)]] [Hvr [->|(mr & er & ->)]];
    try reflexivity.
  simpl. now rewrite Pos.mul_comm, Z.add_comm.
Qed.

Lemma SFmul_mono_l a b r :
  nn a -> nn b -> nn r ->
  SFleb a b = true ->
  SFleb (SFmul prec emax a r) (SFmul prec emax b r) = true.
Proof.
  intros Ha Hb Hr Hle.
  pose proof (SFmul_nni a r Ha Hr) as Har.
  pose proof (SFmul_nni b r Hb Hr) as Hbr.
  destruct Ha as [Hva [->|(ma & ea & ->)]].
  - destruct Hr as [Hvr [->|(mr & er & ->)]];
      apply SFleb_zero_l; exact Hbr.
  - destruct Hb as [Hvb [->|(mb & eb & ->)]]; [discriminate Hle|].
    destruct Hr as [Hvr [->|(mr & er & ->)]]; [reflexivity|].
    rewrite !SFmul_nearest by assumption. simpl xorb.
    pose proof (valid_digits _ _ _ Hva) as (Hea & _).
    pose proof (valid_digits _ _ _ Hvb) as (Heb & _).
    pose proof (valid_digits _ _ _ Hvr) as (Her & _).
    pose proof (valid_le_value ma ea mb eb (-2148 - er) Hva Hvb Hle
                  ltac:(lia) ltac:(lia)) as Hval.
    apply (nearest_mono _ _ _ _ (-2148)); try lia.
    rewrite !Pos2Z.inj_mul.
    replace (ea + er - -2148) with (ea - (-2148 - er)) by lia.
    replace (eb + er - -2148) with (eb - (-2148 - er)) by lia.
    set (A := 2 ^ (ea - (-2148 - er))) in *.
    set (B := 2 ^ (eb - (-2148 - er))) in *.
    replace (Zpos ma * Zpos mr * A) with (Zpos mr * (Zpos ma * A)) by ring.
    replace (Zpos mb * Zpos mr * B) with (Zpos mr * (Zpos mb * B)) by ring.
    apply Z.mul_le_mono_nonneg_l; lia.
Qed.

Lemma SFmul_mono_r a b r :
  nn a -> nn b -> nn r ->
  SFleb a b = true ->
  SFleb (SFmul prec emax r a) (SFmul prec emax r b) = true.
Proof.
  intros Ha Hb Hr Hle.
  rewrite <- (SFmul_comm_nn a r), <- (SFmul_comm_nn b r) by assumption.
  now apply SFmul_mono_l.
Qed.

(** [round(x, 2)] is monotone on finite non-negative doubles. *)
Lemma round2_mono x y :
  nn x -> nn y -> SFleb x y = true ->
  SFleb (round2_sf x) (round2_sf y) = true.
Proof.
  intros Hx Hy Hle.
  pose proof (round2_nn x Hx) as Hrx. pose proof (round2_nn y Hy) as Hry.
  destruct Hx as [Hvx [->|(m & e & ->)]].
  - apply SFleb_zero_l, nn_nni, Hry.
  - destruct Hy as [Hvy [->|(m' & e' & ->)]]; [discriminate Hle|].
    pose proof (valid_digits _ _ _ Hvx) as (He & _).
    pose proof (valid_digits _ _ _ Hvy) as (He' & _).
    pose proof (valid_le_value m e m' e' (-1074) Hvx Hvy Hle
                  ltac:(lia) ltac:(lia)) as Hval.
    assert (Hh : hundredths m e <= hundredths m' e').
    { rewrite (hundredths_common m e (-1074)) by lia.
      rewrite (hundredths_common m' e' (-1074)) by lia.
      apply rhe_mono; [apply pow2_pos; lia|lia]. }
    pose proof (hundredths_nonneg m e) as H0.
    unfold round2_sf in *.
    destruct (hundredths m e) as [|n|n] eqn:Hn; try lia.
    + apply SFleb_zero_l, nn_nni, Hry.
    + destruct (hundredths m' e') as [|n'|n'] eqn:Hn'; try lia.
      rewrite !nearest_hundredth_eq.
      pose proof (sticky_quotient_bounds n) as [Hlo _].
      pose proof (sticky_quotient_bounds n') as [Hlo' _].
      change (2 ^ 58) with 288230376151711744 in *.
      apply nearest_mono_aligned; [apply cexp_sticky|].
      rewrite !Z2Pos.id by lia. apply sticky_quotient_mono. lia.
Qed.

(** *** The factor [round(0.118775 * fontsize, 2)] *)

(** The product [0.118775 * fontsize] in binary64. *)
Lemma K_mul_spec (fs : float) :
  Prim2SF (0.118775 * fs)%float
  = SFmul prec emax (S754_finite false 8558640731854891 (-56)) (Prim2SF fs).
Proof. now rewrite mul_spec, Prim2SF_K. Qed.

Lemma K_valid :
  valid_binary (S754_finite false 8558640731854891 (-56)) = true.
Proof. reflexivity. Qed.

Lemma K_mul_finite x :
  valid_binary x = true -> finite_sf x ->
  finite_sf (SFmul prec emax (S754_finite false 8558640731854891 (-56)) x).
Proof.
  intros Hv Hf. destruct x as [s|s| |s m e]; try contradiction.
  - exact I.
  - rewrite SFmul_nearest by (exact K_valid || exact Hv).
    apply nearest_finite. rewrite cexp_eq.
    pose proof (valid_digits _ _ _ Hv) as (He & Hd & _).
    assert (Zpos (digits2_pos (8558640731854891 * m)) <= 106).
    { apply digits2_upper. rewrite Pos2Z.inj_mul.
      pose proof (mantissa_lt m Hd) as Hm.
      change (2 ^ 53) with 9007199254740992 in Hm.
      change (2 ^ 106) with (9007199254740992 * 9007199254740992).
      nia. }
    lia.
Qed.

(** The factor [round(0.118775 * fontsize, 2)]. *)
Lemma factor_finite (fs : float) :
  is_finite fs = true ->
  valid_binary (Prim2SF (py_round2 (0.118775 * fs)%float)) = true
  /\ finite_sf (Prim2SF (py_round2 (0.118775 * fs)%float)).
Proof.
  intros Hf. apply is_finite_spec in Hf.
  rewrite py_round2_spec. apply round2_finite.
  - apply Prim2SF_valid.
  - rewrite K_mul_spec. apply K_mul_finite; [apply Prim2SF_valid|exact Hf].
Qed.

Lemma K_nn : nn (S754_finite false 8558640731854891 (-56)).
Proof. split; [reflexivity|right; eauto]. Qed.

Lemma positive_nn (fs : float) : finite_positive fs -> nn (Prim2SF fs).
Proof.
  intros [Hf Hp]. destruct (positive_finite_sf fs Hf Hp) as (m & e & H).
  split; [apply Prim2SF_valid|right; eauto].
Qed.

Lemma K_mul_nn (fs : float) :
  finite_positive fs -> nn (Prim2SF (0.118775 * fs)%float).
Proof.
  intros Hp. pose proof (positive_nn fs Hp) as Hn.
  rewrite K_mul_spec. apply nni_finite.
  - apply SFmul_nni; [exact K_nn|exact Hn].
  - apply K_mul_finite; [apply Prim2SF_valid|].
    destruct Hn as [_ [->|(m & e & ->)]]; exact I.
Qed.

Lemma factor_nn (fs : float) :
  finite_positive fs -> nn (Prim2SF (py_round2 (0.118775 * fs)%float)).
Proof.
  intros Hp. rewrite py_round2_spec. apply round2_nn, K_mul_nn, Hp.
Qed.

Lemma factor_mono (fs1 fs2 : float) :
  finite_positive fs1 -> finite_positive fs2 ->
  (fs1 <=? fs2)%float = true ->
  SFleb (Prim2SF (py_round2 (0.118775 * fs1)%float))
        (Prim2SF (py_round2 (0.118775 * fs2)%float)) = true.
Proof.
  intros H1 H2 Hle. rewrite leb_spec in Hle.
  rewrite !py_round2_spec.
  apply round2_mono; try (apply K_mul_nn; assumption).
  rewrite !K_mul_spec.
  apply SFmul_mono_r; auto using positive_nn, K_nn.
Qed.

(** *** Integers as doubles *)

Lemma int_to_float_zero : int_to_float 0 = Ok 0%float.
Proof. reflexivity. Qed.

Lemma int_to_float_pos (p : positive) (f : float) :
  int_to_float (Zpos p) = Ok f ->
  Prim2SF f = nearest false p 0 /\ nn (Prim2SF f).
Proof.
  unfold int_to_float. simpl binary_normalize.
  rewrite binary_round_nearest, is_infinity_spec.
  pose proof (nearest_nni p 0) as Hn.
  pose proof (Prim2SF_SF2Prim _ (finish_valid false p 0)) as Hp.
  set (sf := nearest false p 0) in *.
  set (f0 := SF2Prim sf) in *. clearbody f0. rewrite Hp.
  destruct Hn as [Hn|Hn].
  - destruct Hn as [Hv [Hz|(m & e & Hm)]]; rewrite ?Hz, ?Hm in *;
      intros H; inversion H; subst f; rewrite Hp; split; auto;
      split; auto.
    right. eauto.
  - rewrite Hn. discriminate.
Qed.

Lemma int_to_float_nonneg (z : Z) (f : float) :
  0 <= z -> int_to_float z = Ok f -> nn (Prim2SF f).
Proof.
  intros Hz H. destruct z as [|p|p]; try lia.
  - rewrite int_to_float_zero in H. inversion H; subst.
    split; [reflexivity|now left].
  - now apply int_to_float_pos in H.
Qed.

Lemma int_to_float_mono (z1 z2 : Z) (f1 f2 : float) :
  0 <= z1 <= z2 ->
  int_to_float z1 = Ok f1 -> int_to_float z2 = Ok f2 ->
  SFleb (Prim2SF f1) (Prim2SF f2) = true.
Proof.
  intros Hz H1 H2.
  pose proof (int_to_float_nonneg z2 f2 ltac:(lia) H2) as Hn2.
  destruct z1 as [|p1|p1]; try lia.
  - rewrite int_to_float_zero in H1. inversion H1; subst.
    rewrite Prim2SF_zero. apply SFleb_zero_l, nn_nni, Hn2.
  - destruct z2 as [|p2|p2]; try lia.
    apply int_to_float_pos in H1 as [-> _].
    apply int_to_float_pos in H2 as [-> _].
    apply (nearest_mono _ _ _ _ (-1074)); try lia.
Qed.

(** Every non-negative integer up to the largest double converts. *)
Lemma int_to_float_total (z : Z) :
  0 <= z <= max_double_int -> exists f, int_to_float z = Ok f.
Proof.
  intros Hz. destruct z as [|p|p]; try lia.
  - exists 0%float. reflexivity.
  - unfold int_to_float. simpl binary_normalize.
    rewrite binary_round_nearest, is_infinity_spec.
    rewrite (Prim2SF_SF2Prim _ (finish_valid false p 0)).
    assert (Hfin : finite_sf (nearest false p 0)).
    { unfold max_double_int in Hz.
      assert (H971 : 0 < 2 ^ 971) by (apply pow2_pos; lia).
      assert (Hd : Zpos (digits2_pos p) <= 1024).
      { apply digits2_upper.
        replace 1024 with (53 + 971) by lia. rewrite pow2_split by lia.
        change (2 ^ 53) with 9007199254740992 in *. nia. }
      pose proof (cexp_eq p 0) as HE.
      destruct (Z.eq_dec (cexp p 0) 971) as [HE971|HE971].
      - unfold nearest. rewrite HE971.
        pose proof (scaled_nonneg p 0) as H0.
        assert (Hs : scaled p 0 <= 2 ^ 53 - 1).
        { rewrite scaled_le by lia. rewrite HE971.
          replace (971 - 0) with 971 by lia.
          apply rhe_upper; [exact H971|]. lia. }
        destruct (Z.eq_dec (scaled p 0) 0) as [->|Hnz]; [exact I|].
        rewrite finish_carry by lia. unfold carry.
        change (2 ^ 53) with 9007199254740992 in *.
        destruct (Z.eqb_spec (scaled p 0) 9007199254740992); [lia|].
        simpl. exact I.
      - apply nearest_finite. lia. }
    set (sf := nearest false p 0) in *.
    set (f0 := SF2Prim sf). clearbody f0.
    destruct sf as [s|s| |s m e]; try contradiction; eexists; reflexivity.
Qed.

(** ** Statements about the width converter *)

Example round2_samples :
  map py_round2
    [1.3065250000000002; 2.675; 0.125; 0.375; 1.005; 0.004; 1e300]%float
  = [1.31; 2.67; 0.12; 0.38; 1; 0; 1e300]%float.
Proof. vm_compute. reflexivity. Qed.

(** On the samples, [nearest_hundredth] is the quotient by [100] that the
    division of binary64 rounds correctly. *)
Example nearest_hundredth_is_division :
  forallb
    (fun n =>
       (SF2Prim (nearest_hundredth false n)
        =? of_uint63 (Uint63Axioms.of_Z (Zpos n)) / 100)%float)
    hundredth_samples
  = true.
Proof. vm_compute. reflexivity. Qed.

Example int_to_float_samples :
  int_to_float 10 = Ok 10%float
  /\ int_to_float (2 ^ 53 + 1) = Ok 9007199254740992%float
  /\ int_to_float (2 ^ 53 + 3) = Ok 9007199254740996%float.
Proof. vm_compute. repeat split; reflexivity. Qed.

Example width_of_ten_at_eleven :
  excel_column_width (PyInt 10) default_fontsize
  = Ok (10 * 1.31)%float.
Proof. vm_compute. reflexivity. Qed.

(** C7 as stated fails twice: in binary64 the product [10 * 1.31] is the
    double above [13.1], which prints as [13.100000000000001]; and an
    integer too large for a double makes the multiplication raise. *)
Lemma converter_inexact_and_partial :
  (excel_column_width (PyInt 10) default_fontsize
   = Ok 13.100000000000001%float
   /\ (13.100000000000001 =? 13.1)%float = false)
  /\ excel_column_width (PyInt (2 ^ 1024)) default_fontsize
     = Raise (OverflowError "int too large to convert to float").
Proof. vm_compute. repeat split; reflexivity. Qed.

Lemma excel_column_width_int (c : Z) (fs w : float) :
  excel_column_width (PyInt c) fs = Ok w ->
  exists f,
    int_to_float c = Ok f
    /\ w = (f * py_round2 (0.118775 * fs))%float.
Proof.
  unfold excel_column_width. simpl to_float.
  destruct (int_to_float c) as [f|e]; simpl; [|discriminate].
  intros H. inversion H. eauto.
Qed.

(** C7, as the source has it.  For every non-negative integer [char_width]
    up to the largest double and every float [font_size] the converter does
    not raise and returns the binary64 product of [float(char_width)] and
    [round(0.118775 * font_size, 2)]; for [char_width = 10] and
    [font_size = 11] that product is [13.100000000000001], the double just
    above [13.1]. *)
Theorem excel_column_width_total :
  (forall (z : Z) (fs : float),
      0 <= z <= max_double_int ->
      exists c,
        int_to_float z = Ok c
        /\ excel_column_width (PyInt z) fs
           = Ok (c * py_round2 (0.118775 * fs))%float)
  /\ excel_column_width (PyInt 10) default_fontsize
     = Ok 13.100000000000001%float
  /\ next_up 13.1%float = 13.100000000000001%float.
Proof.
  split; [|split; vm_compute; reflexivity].
  intros z fs Hz. destruct (int_to_float_total z Hz) as [c Hc].
  exists c. split; [exact Hc|].
  unfold excel_column_width. simpl to_float. now rewrite Hc.
Qed.

Lemma excel_column_width_total_witness :
  0 <= 25 <= max_double_int
  /\ exists c,
       int_to_float 25 = Ok c
       /\ excel_column_width (PyInt 25) 12%float
          = Ok (c * py_round2 (0.118775 * 12))%float.
Proof.
  assert (H : 0 <= 25 <= max_double_int) by (unfold max_double_int; lia).
  split; [exact H|].
  exact (proj1 excel_column_width_total 25 12%float H).
Defined.

(** C8, as the source has it.  For every finite positive [font_size] the
    converter is non-decreasing in the non-negative integer [char_width];
    for every non-negative integer [char_width] it is non-decreasing in
    [font_size] over the finite positive doubles; and for every finite
    [font_size] it returns zero when [char_width] is [0]. *)
Theorem excel_column_width_monotone :
  (forall (c1 c2 : Z) (fs w1 w2 : float),
      0 <= c1 <= c2 ->
      finite_positive fs ->
      excel_column_width (PyInt c1) fs = Ok w1 ->
      excel_column_width (PyInt c2) fs = Ok w2 ->
      (w1 <=? w2)%float = true)
  /\ (forall (c : Z) (fs1 fs2 w1 w2 : float),
         0 <= c ->
         finite_positive fs1 -> finite_positive fs2 ->
         (fs1 <=? fs2)%float = true ->
         excel_column_width (PyInt c) fs1 = Ok w1 ->
         excel_column_width (PyInt c) fs2 = Ok w2 ->
         (w1 <=? w2)%float = true)
  /\ (forall fs : float,
         is_finite fs = true ->
         exists w,
           excel_column_width (PyInt 0) fs = Ok w
           /\ (w =? 0)%float = true).
Proof.
  split; [|split].
  - intros c1 c2 fs w1 w2 Hc Hfs H1 H2.
    apply excel_column_width_int in H1 as (f1 & Hf1 & ->).
    apply excel_column_width_int in H2 as (f2 & Hf2 & ->).
    rewrite leb_spec, !mul_spec.
    apply SFmul_mono_l.
    + apply (int_to_float_nonneg c1); [lia|exact Hf1].
    + apply (int_to_float_nonneg c2); [lia|exact Hf2].
    + apply factor_nn, Hfs.
    + apply (int_to_float_mono c1 c2); assumption.
  - intros c fs1 fs2 w1 w2 Hc Hfs1 Hfs2 Hle H1 H2.
    apply excel_column_width_int in H1 as (f1 & Hf1 & ->).
    apply excel_column_width_int in H2 as (f2 & Hf2 & ->).
    rewrite Hf1 in Hf2. inversion Hf2; subst f2.
    rewrite leb_spec, !mul_spec.
    apply SFmul_mono_r.
    + apply factor_nn, Hfs1.
    + apply factor_nn, Hfs2.
    + apply (int_to_float_nonneg c); [lia|exact Hf1].
    + apply factor_mono; assumption.
  - intros fs Hfs. eexists. split; [reflexivity|].
    rewrite eqb_spec, mul_spec, Prim2SF_zero.
    destruct (factor_finite fs Hfs) as [_ Hf].
    destruct (Prim2SF (py_round2 (0.118775 * fs)%float)) as [s|s| |s m e];
      try contradiction; destruct s; reflexivity.
Qed.

Lemma excel_column_width_monotone_witness :
  0 <= 3 <= 10
  /\ finite_positive 11%float
  /\ excel_column_width (PyInt 3) 11%float = Ok 3.93%float
  /\ excel_column_width (PyInt 10) 11%float = Ok 13.100000000000001%float
  /\ (3.93 <=? 13.100000000000001)%float = true.
Proof.
  assert (H1 : 0 <= 3 <= 10) by lia.
  assert (H2 : finite_positive 11%float) by (split; reflexivity).
  assert (H3 : excel_column_width (PyInt 3) 11%float = Ok 3.93%float)
    by (vm_compute; reflexivity).
  assert (H4 : excel_column_width (PyInt 10) 11%float
               = Ok 13.100000000000001%float) by (vm_compute; reflexivity).
  split; [exact H1|]. split; [exact H2|]. split; [exact H3|].
  split; [exact H4|].
  exact (proj1 excel_column_width_monotone 3 10 11%float _ _ H1 H2 H3 H4).
Defined.

(** C8 as stated fails at the font size [+infinity], which is positive: the
    factor is infinite, so a width of [0] gives NaN, which is neither zero
    nor below the width [1] gives. *)
Lemma converter_at_infinite_font_size :
  (0 <? infinity)%float = true
  /\ excel_column_width (PyInt 0) infinity = Ok nan
  /\ excel_column_width (PyInt 1) infinity = Ok infinity
  /\ (nan <=? infinity)%float = false
  /\ (nan =? 0)%float = false.
Proof. vm_compute. repeat split; reflexivity. Qed.

(** ** Further properties of the width converter *)

(** *** Products with NaN, one and zero *)

Lemma nan_mul (x : float) : (nan * x)%float = nan.
Proof. apply Prim2SF_inj. rewrite mul_spec. reflexivity. Qed.

Lemma Prim2SF_one : Prim2SF 1%float = S754_finite false 4503599627370496 (-52).
Proof. reflexivity. Qed.

Lemma one_nn : nn (S754_finite false 4503599627370496 (-52)).
Proof. split; [reflexivity|right; eauto]. Qed.

Lemma SFmul_one_r x :
  nn x -> SFmul prec emax x (S754_finite false 4503599627370496 (-52)) = x.
Proof.
  intros [Hv [->|(m & e & ->)]]; [reflexivity|].
  rewrite SFmul_nearest by (exact Hv || reflexivity).
  replace (e + -52) with (e - 52) by lia.
  rewrite (nearest_refine _ m _ e 52);
    [apply nearest_valid, Hv|lia|now rewrite Pos2Z.inj_mul].
Qed.

Lemma SFmul_zero_r x :
  nn x -> SFmul prec emax x (S754_zero false) = S754_zero false.
Proof. intros [_ [->|(m & e & ->)]]; reflexivity. Qed.

Lemma nn_le_zero x :
  nn x -> SFleb x (S754_zero false) = true -> x = S754_zero false.
Proof. intros [_ [->|(m & e & ->)]]; [reflexivity|discriminate]. Qed.

(** *** Where integers stop being doubles *)

Lemma rhe_below a b k :
  0 < b -> 2 * a < (2 * k + 1) * b -> round_half_even a b <= k.
Proof.
  intros Hb Ha. destruct (rhe_cases a b Hb) as (Hab & Hr & Hc).
  set (q := a / b) in *. set (r := a mod b) in *.
  destruct Hc as [[-> _]|[-> Hc]]; nia.
Qed.

Lemma threshold_split :
  overflow_threshold = (2 ^ 54 - 1) * 2 ^ 970
  /\ 2 ^ 971 = 2 * 2 ^ 970 /\ 2 ^ 1023 = 2 ^ 53 * 2 ^ 970
  /\ 2 ^ 1024 = 2 ^ 54 * 2 ^ 970 /\ 0 < 2 ^ 970.
Proof.
  unfold overflow_threshold.
  replace 1024 with (54 + 970) by lia. replace 1023 with (53 + 970) by lia.
  replace 971 with (1 + 970) by lia. rewrite !pow2_split by lia.
  assert (0 < 2 ^ 970) by (apply pow2_pos; lia).
  change (2 ^ 1) with 2. repeat split; auto; lia.
Qed.

(** Below the threshold an integer rounds to a finite double. *)
Lemma nearest_int_finite s p :
  Zpos p < overflow_threshold -> finite_sf (nearest s p 0).
Proof.
  intros Hp. destruct threshold_split as (HT & H971 & _ & H1024 & HP).
  set (P := 2 ^ 970) in *.
  change (2 ^ 54) with 18014398509481984 in *.
  assert (Hd : Zpos (digits2_pos p) <= 1024).
  { apply digits2_upper. rewrite H1024. lia. }
  pose proof (cexp_eq p 0) as HE.
  destruct (Z.eq_dec (cexp p 0) 971) as [HE971|HE971].
  - unfold nearest. rewrite HE971.
    pose proof (scaled_nonneg p 0) as H0.
    assert (Hs : scaled p 0 <= 2 ^ 53 - 1).
    { rewrite scaled_le by lia. rewrite HE971.
      replace (971 - 0) with 971 by lia.
      apply rhe_below; [lia|]. rewrite H971.
      change (2 ^ 53) with 9007199254740992. lia. }
    destruct (Z.eq_dec (scaled p 0) 0) as [->|Hnz]; [exact I|].
    rewrite finish_carry by lia. unfold carry.
    change (2 ^ 53) with 9007199254740992 in *.
    destruct (Z.eqb_spec (scaled p 0) 9007199254740992); [lia|].
    simpl. exact I.
  - apply nearest_finite. lia.
Qed.

(** From the threshold on it rounds beyond the largest double. *)
Lemma nearest_int_infinite s p :
  overflow_threshold <= Zpos p -> nearest s p 0 = S754_infinity s.
Proof.
  intros Hp. destruct threshold_split as (HT & H971 & H1023 & _ & HP).
  assert (Hd : 1023 < Zpos (digits2_pos p)).
  { apply digits2_lower. rewrite H1023.
    set (P := 2 ^ 970) in *.
    change (2 ^ 54) with 18014398509481984 in *.
    change (2 ^ 53) with 9007199254740992. lia. }
  pose proof (cexp_eq p 0) as HE.
  assert (He : 0 <= cexp p 0) by lia.
  pose proof (rounded_bounds p 0 He) as [Hb Hn].
  unfold nearest. rewrite scaled_le by exact He.
  set (m2 := round_half_even (Zpos p) (2 ^ (cexp p 0 - 0))) in *.
  assert (H52 : 2 ^ 52 <= m2) by (apply Hn; lia).
  assert (Hbig : cexp p 0 = 971 -> m2 = 2 ^ 53).
  { intros H1. apply Z.le_antisymm; [apply Hb|].
    unfold m2. rewrite H1. replace (971 - 0) with 971 by lia.
    assert (Hq : round_half_even ((2 ^ 54 - 1) * 2 ^ 970) (2 ^ 971) = 2 ^ 53).
    { rewrite H971. rewrite rhe_scale by lia. reflexivity. }
    rewrite <- Hq. apply rhe_mono; [rewrite H971; lia|].
    now rewrite <- HT. }
  change (2 ^ 52) with 4503599627370496 in H52.
  rewrite finish_carry by lia. unfold carry.
  destruct (Z.eqb_spec m2 (2 ^ 53)) as [Heq|Hne]; simpl.
  - destruct (Z.leb_spec (cexp p 0 + 1) 971); [lia|reflexivity].
  - destruct (Z.leb_spec (cexp p 0) 971) as [Hle|]; [|reflexivity].
    exfalso. apply Hne, Hbig. lia.
Qed.

Lemma int_to_float_nearest s z p :
  (z = Zpos p /\ s = false) \/ (z = Zneg p /\ s = true) ->
  int_to_float z
  = if is_infinity (SF2Prim (nearest s p 0))
    then Raise (OverflowError "int too large to convert to float")
    else Ok (SF2Prim (nearest s p 0)).
Proof.
  intros [[-> ->]|[-> ->]]; unfold int_to_float; simpl binary_normalize;
    now rewrite binary_round_nearest.
Qed.

Lemma int_to_float_in_range (z : Z) :
  Z.abs z < overflow_threshold -> exists f, int_to_float z = Ok f.
Proof.
  intros Hz.
  assert (Hs : z = 0 \/ exists s p,
               ((z = Zpos p /\ s = false) \/ (z = Zneg p /\ s = true))
               /\ Zpos p < overflow_threshold).
  { destruct z as [|p|p]; [left; reflexivity| |]; right.
    - exists false, p. split; [left; split; reflexivity|exact Hz].
    - exists true, p. split; [right; split; reflexivity|exact Hz]. }
  destruct Hs as [->|(s & p & Hsp & Hp)].
  - exists 0%float. reflexivity.
  - rewrite (int_to_float_nearest s z p Hsp), is_infinity_spec.
    rewrite (Prim2SF_SF2Prim _ (finish_valid s p 0)).
    pose proof (nearest_int_finite s p Hp) as Hfin.
    set (sf := nearest s p 0) in *.
    set (f0 := SF2Prim sf). clearbody f0.
    destruct sf as [s'|s'| |s' m e]; try contradiction; eexists; reflexivity.
Qed.

Lemma int_to_float_overflow (z : Z) :
  overflow_threshold <= Z.abs z ->
  int_to_float z = Raise (OverflowError "int too large to convert to float").
Proof.
  intros Hz.
  assert (HT : 0 < overflow_threshold).
  { destruct threshold_split as (-> & _ & _ & _ & HP).
    change (2 ^ 54) with 18014398509481984. lia. }
  assert (Hs : exists s p,
               ((z = Zpos p /\ s = false) \/ (z = Zneg p /\ s = true))
               /\ overflow_threshold <= Zpos p).
  { destruct z as [|p|p].
    - change (Z.abs 0) with 0 in Hz. lia.
    - exists false, p. split; [left; split; reflexivity|exact Hz].
    - exists true, p. split; [right; split; reflexivity|exact Hz]. }
  destruct Hs as (s & p & Hsp & Hp).
  rewrite (int_to_float_nearest s z p Hsp), is_infinity_spec.
  rewrite (Prim2SF_SF2Prim _ (finish_valid s p 0)).
  now rewrite (nearest_int_infinite s p Hp).
Qed.

(** X9.  A column without rows, sized without its header, gets a width the
    converter turns into NaN: with [consider_headers] false the calculator
    stores NaN for it, and the converter returns NaN on NaN at every font
    size. *)
Theorem rowless_column_is_sized_with_nan
    {cell : Type} (py_str : cell -> string)
    (df : Pandas.DataFrame cell) (alt : header_spec)
    (widths : PyDict.t width) (name : string) (fs : float) :
  (forall items, alt = AltDict items -> PyDict.wf items) ->
  maximum_character_widths py_str df false alt = Ok widths ->
  In (name, []) (Pandas.columns df) ->
  exists w,
    PyDict.get widths name = Some w
    /\ excel_column_width (num_of_width w) fs = Ok nan.
Proof.
  intros Hwf Hw Hin.
  destruct (maximum_character_widths_ok _ py_str df false alt widths Hwf Hw)
    as (headers & _ & Hnd & Hk & Hperm & Hkeys & Hf2 & _ & _).
  assert (Hname : In name (PyDict.keys headers)).
  { eapply Permutation_in; [apply Permutation_sym, Hperm|].
    change name with (fst (name, @nil cell)). now apply in_map. }
  apply in_map_iff in Hname as ([k label] & Heq & Hkv). simpl in Heq. subst k.
  exists WNaN. split.
  - now rewrite (widths_entry _ py_str df false headers widths Hnd Hk Hkeys
                   Hf2 name label [] Hkv Hin).
  - unfold excel_column_width. simpl. now rewrite nan_mul.
Qed.

Lemma rowless_column_is_sized_with_nan_witness :
  (forall items, AltList ["Alpha"] = AltDict items -> PyDict.wf items)
  /\ maximum_character_widths str_id (text_frame [("A", [])]) false
       (AltList ["Alpha"]) = Ok [("A", WNaN)]
  /\ In ("A", []) (Pandas.columns (text_frame [("A", [])]))
  /\ exists w,
       PyDict.get [("A", WNaN)] "A" = Some w
       /\ excel_column_width (num_of_width w) default_fontsize = Ok nan.
Proof.
  assert (H1 : forall items,
             AltList ["Alpha"] = AltDict items -> PyDict.wf items)
    by (intros items H; discriminate H).
  assert (H2 : maximum_character_widths str_id (text_frame [("A", [])])
                 false (AltList ["Alpha"]) = Ok [("A", WNaN)])
    by reflexivity.
  assert (H3 : In ("A", []) (Pandas.columns (text_frame [("A", [])])))
    by (simpl; now left).
  split; [exact H1|]. split; [exact H2|]. split; [exact H3|].
  exact (rowless_column_is_sized_with_nan str_id _ _ _ "A" default_fontsize
           H1 H2 H3).
Defined.

(** X10.  At every finite font size of at least [8.4] the factor
    [round(0.118775 * fontsize, 2)] is at least one, so the width returned
    for a non-negative integer [charwidth] is never below [charwidth]
    itself. *)
Theorem width_is_at_least_the_character_count
    (c : Z) (fs w : float) :
  0 <= c ->
  finite_positive fs ->
  (8.4 <=? fs)%float = true ->
  excel_column_width (PyInt c) fs = Ok w ->
  exists f, int_to_float c = Ok f /\ (f <=? w)%float = true.
Proof.
  intros Hc Hfs Hle H.
  apply excel_column_width_int in H as (f & Hf & ->).
  exists f. split; [exact Hf|].
  pose proof (int_to_float_nonneg c f Hc Hf) as Hn.
  rewrite leb_spec, mul_spec.
  rewrite <- (SFmul_one_r (Prim2SF f) Hn) at 1.
  apply SFmul_mono_r; [exact one_nn|now apply factor_nn|exact Hn|].
  assert (H84 : finite_positive 8.4%float) by (split; reflexivity).
  pose proof (factor_mono 8.4%float fs H84 Hfs Hle) as Hm.
  assert (H1 : Prim2SF (py_round2 (0.118775 * 8.4)%float)
               = S754_finite false 4503599627370496 (-52))
    by (vm_compute; reflexivity).
  now rewrite H1 in Hm.
Qed.

Lemma width_is_at_least_the_character_count_witness :
  0 <= 10
  /\ finite_positive 11%float
  /\ (8.4 <=? 11)%float = true
  /\ excel_column_width (PyInt 10) 11%float = Ok 13.100000000000001%float
  /\ exists f,
       int_to_float 10 = Ok f /\ (f <=? 13.100000000000001)%float = true.
Proof.
  assert (H1 : 0 <= 10) by lia.
  assert (H2 : finite_positive 11%float) by (split; reflexivity).
  assert (H3 : (8.4 <=? 11)%float = true) by reflexivity.
  assert (H4 : excel_column_width (PyInt 10) 11%float
               = Ok 13.100000000000001%float) by (vm_compute; reflexivity).
  split; [exact H1|]. split; [exact H2|]. split; [exact H3|].
  split; [exact H4|].
  exact (width_is_at_least_the_character_count 10 11%float _ H1 H2 H3 H4).
Defined.

(** X11.  At every finite positive font size of at most [0.042] the factor
    [round(0.118775 * fontsize, 2)] is zero, so the converter returns zero
    for every non-negative integer [charwidth], however large. *)
Theorem tiny_font_sizes_give_zero_width
    (c : Z) (fs w : float) :
  0 <= c ->
  finite_positive fs ->
  (fs <=? 0.042)%float = true ->
  excel_column_width (PyInt c) fs = Ok w ->
  w = 0%float.
Proof.
  intros Hc Hfs Hle H.
  apply excel_column_width_int in H as (f & Hf & ->).
  pose proof (int_to_float_nonneg c f Hc Hf) as Hn.
  assert (H42 : finite_positive 0.042%float) by (split; reflexivity).
  pose proof (factor_mono fs 0.042%float Hfs H42 Hle) as Hm.
  assert (H0 : Prim2SF (py_round2 (0.118775 * 0.042)%float)
               = S754_zero false) by (vm_compute; reflexivity).
  rewrite H0 in Hm.
  apply nn_le_zero in Hm; [|now apply factor_nn].
  apply Prim2SF_inj. rewrite mul_spec, Hm, Prim2SF_zero.
  now apply SFmul_zero_r.
Qed.

Lemma tiny_font_sizes_give_zero_width_witness :
  0 <= 1000
  /\ finite_positive 0.04%float
  /\ (0.04 <=? 0.042)%float = true
  /\ excel_column_width (PyInt 1000) 0.04%float = Ok 0%float
  /\ 0%float = 0%float.
Proof.
  assert (H1 : 0 <= 1000) by lia.
  assert (H2 : finite_positive 0.04%float) by (split; reflexivity).
  assert (H3 : (0.04 <=? 0.042)%float = true) by reflexivity.
  assert (H4 : excel_column_width (PyInt 1000) 0.04%float = Ok 0%float)
    by (vm_compute; reflexivity).
  split; [exact H1|]. split; [exact H2|]. split; [exact H3|].
  split; [exact H4|].
  exact (tiny_font_sizes_give_zero_width 1000 0.04%float _ H1 H2 H3 H4).
Defined.

(** X12.  Whether the converter raises on an integer [charwidth] depends on
    its size alone, never on the font size: below [2^1024 - 2^970] in
    absolute value it returns the product of [float(charwidth)] and the
    factor, and from there on it raises [OverflowError]. *)
Theorem converter_overflow_threshold (z : Z) (fs : float) :
  (Z.abs z < overflow_threshold ->
   exists f,
     int_to_float z = Ok f
     /\ excel_column_width (PyInt z) fs
        = Ok (f * py_round2 (0.118775 * fs))%float)
  /\ (overflow_threshold <= Z.abs z ->
      excel_column_width (PyInt z) fs
      = Raise (OverflowError "int too large to convert to float")).
Proof.
  split; intros Hz.
  - destruct (int_to_float_in_range z Hz) as [f Hf]. exists f.
    split; [exact Hf|].
    unfold excel_column_width. simpl to_float. now rewrite Hf.
  - unfold excel_column_width. simpl to_float.
    now rewrite (int_to_float_overflow z Hz).
Qed.

Lemma converter_overflow_threshold_witness :
  Z.abs (- (max_double_int + 1)) < overflow_threshold
  /\ overflow_threshold <= Z.abs (2 ^ 1024 - 2 ^ 970)
  /\ (exists f,
        int_to_float (- (max_double_int + 1)) = Ok f
        /\ excel_column_width (PyInt (- (max_double_int + 1))) 12%float
           = Ok (f * py_round2 (0.118775 * 12))%float)
  /\ excel_column_width (PyInt (2 ^ 1024 - 2 ^ 970)) 12%float
     = Raise (OverflowError "int too large to convert to float").
Proof.
  assert (H1 : Z.abs (- (max_double_int + 1)) < overflow_threshold)
    by (vm_compute; reflexivity).
  assert (H2 : overflow_threshold <= Z.abs (2 ^ 1024 - 2 ^ 970))
    by (vm_compute; discriminate).
  split; [exact H1|]. split; [exact H2|]. split.
  - exact (proj1 (converter_overflow_threshold _ 12%float) H1).
  - exact (proj2 (converter_overflow_threshold _ 12%float) H2).
Defined.

(** ** Further properties of the export entry point *)

Local Close Scope Z_scope.

Section OrchestrationFacts.

Variable cell : Type.
Variable py_str : cell -> string.
Variable to_excel_raises :
  Pandas.DataFrame cell -> to_excel_kwargs -> option exn.

Let DataFrame : Type := Pandas.DataFrame cell.
Implicit Types (df data sized : DataFrame) (o : options).

(** *** Selecting columns *)

Lemma filter_label_nonempty (cols : list (string * Pandas.Series cell)) k :
  In k (map fst cols) -> filter (fun c => String.eqb (fst c) k) cols <> [].
Proof.
  intros Hin Hf. apply in_map_iff in Hin as ([k' s] & Heq & Hks).
  simpl in Heq. subst k'.
  assert (Hc : In (k, s) (filter (fun c => String.eqb (fst c) k) cols)).
  { apply filter_In. split; [exact Hks|]. simpl. apply String.eqb_refl. }
  rewrite Hf in Hc. contradiction.
Qed.

Lemma filter_label_none (cols : list (string * Pandas.Series cell)) k :
  ~ In k (map fst cols) -> filter (fun c => String.eqb (fst c) k) cols = [].
Proof.
  intros Hk. destruct (filter _ cols) as [|c l] eqn:Hf; [reflexivity|].
  exfalso. apply Hk.
  assert (Hc : In c (filter (fun c => String.eqb (fst c) k) cols))
    by (rewrite Hf; now left).
  apply filter_label_in in Hc as [<- Hc]. now apply in_map.
Qed.

Lemma select_columns_total (cols : list (string * Pandas.Series cell)) names :
  incl names (map fst cols) ->
  exists sel, Pandas.select_columns cell cols names = Ok sel.
Proof.
  induction names as [|n names IH]; intros Hincl; [now exists []|].
  cbn [Pandas.select_columns].
  destruct (filter _ cols) as [|c l] eqn:Hf.
  - exfalso. apply (filter_label_nonempty cols n); [|exact Hf].
    apply Hincl. now left.
  - assert (Hrest : incl names (map fst cols))
      by (intros x Hx; apply Hincl; now right).
    destruct (IH Hrest) as [tl ->]. simpl. eauto.
Qed.

(** The first requested label the frame lacks is the one reported. *)
Lemma select_columns_missing (cols : list (string * Pandas.Series cell)) names :
  ~ incl names (map fst cols) ->
  exists k,
    In k names /\ ~ In k (map fst cols)
    /\ Pandas.select_columns cell cols names = Raise (KeyError k).
Proof.
  induction names as [|n names IH]; intros Hn.
  - exfalso. apply Hn. intros x [].
  - destruct (in_dec string_dec n (map fst cols)) as [Hin|Hnin].
    + cbn [Pandas.select_columns].
      destruct (filter _ cols) as [|c l] eqn:Hf.
      * exfalso. now apply (filter_label_nonempty cols n).
      * assert (Hrest : ~ incl names (map fst cols)).
        { intros Hincl. apply Hn. intros x [<-|Hx]; auto. }
        destruct (IH Hrest) as (k & Hk & Hnk & ->).
        exists k. repeat split; auto. now right.
    + exists n. repeat split; [now left|exact Hnin|].
      cbn [Pandas.select_columns]. now rewrite filter_label_none.
Qed.

(** On a frame with distinct labels, each requested label selects its one
    column. *)
Lemma select_columns_distinct (cols : list (string * Pandas.Series cell)) names :
  NoDup (map fst cols) -> incl names (map fst cols) ->
  exists sel,
    Pandas.select_columns cell cols names = Ok sel
    /\ map fst sel = names /\ incl sel cols.
Proof.
  intros Hnd. induction names as [|n names IH]; intros Hincl.
  - exists []. repeat split. intros x [].
  - assert (Hrest : incl names (map fst cols))
      by (intros x Hx; apply Hincl; now right).
    destruct (IH Hrest) as (tl & Htl & Hfst & Hsub).
    assert (Hin : In n (map fst cols)) by (apply Hincl; now left).
    apply in_map_iff in Hin as ([k s] & Heq & Hks). simpl in Heq. subst k.
    exists ((n, s) :: tl). cbn [Pandas.select_columns].
    assert (Hf : filter (fun c : string * Pandas.Series cell =>
                           String.eqb (fst c) n) cols = [(n, s)])
      by exact (filter_label_single _ cols n s Hnd Hks).
    rewrite Hf, Htl. simpl.
    repeat split; [now f_equal|]. intros x [<-|Hx]; auto.
Qed.

Lemma choose_data_columns df c data :
  choose_data df c = Ok data ->
  (columns_truthy c = false /\ data = df)
  \/ exists n names,
       c = ColList (n :: names)
       /\ Pandas.getitem_list df (n :: names) = Ok data.
Proof.
  unfold choose_data. destruct c as [|[|]|[|n names]]; simpl; intros H;
    try discriminate; try (left; split; [reflexivity|congruence]).
  right. exists n, names. split; [reflexivity|exact H].
Qed.

(** *** Index levels folded into the columns *)

Lemma reset_index_names_length df :
  List.length (Pandas.reset_index_names df) = List.length (Pandas.index df).
Proof.
  unfold Pandas.reset_index_names.
  assert (Hgen : forall levels : list (option string * list cell),
             List.length
               (map (fun il => match fst (snd il) with
                               | Some n => n
                               | None => String.append "level_"
                                           (Pandas.string_of_nat (fst il))
                               end)
                  (combine (seq 0 (List.length levels)) levels))
             = List.length levels).
  { intros levels. rewrite length_map, length_combine, length_seq. lia. }
  destruct (Pandas.index df) as [|[[n|] s] [|l ls]] eqn:Hi;
    try reflexivity; apply Hgen.
Qed.

Lemma insert_levels_length (levels cols done : list (string * Pandas.Series cell)) :
  Pandas.insert_levels cell levels cols = Ok done ->
  List.length done = List.length levels + List.length cols.
Proof.
  revert done. induction levels as [|[n s] levels IH]; intros done H;
    simpl in H.
  - inversion H. reflexivity.
  - destruct (Pandas.insert_levels cell levels cols) as [d|e];
      simpl in H; [|discriminate].
    destruct (Pandas.mem n (map fst d)); [discriminate|].
    inversion H; subst. simpl. now rewrite (IH d eq_refl).
Qed.

Lemma reset_index_length df d :
  Pandas.reset_index df = Ok d ->
  List.length (Pandas.columns d)
  = List.length (Pandas.index df) + List.length (Pandas.columns df).
Proof.
  unfold Pandas.reset_index.
  destruct (Pandas.insert_levels cell _ (Pandas.columns df)) as [cols|e]
    eqn:Hi; simpl; [|discriminate].
  intros H. inversion H; subst. simpl.
  rewrite (insert_levels_length _ _ _ Hi), length_combine, length_map,
    reset_index_names_length. lia.
Qed.

(** [reset_index] fails with a [ValueError] only. *)
Lemma insert_levels_raise (levels cols : list (string * Pandas.Series cell)) e :
  Pandas.insert_levels cell levels cols = Raise e ->
  exists msg, e = ValueError msg.
Proof.
  induction levels as [|[n s] levels IH]; simpl; [discriminate|].
  destruct (Pandas.insert_levels cell levels cols) as [d|e']; simpl.
  - destruct (Pandas.mem n (map fst d)); [|discriminate].
    intros H. inversion H. eauto.
  - intros H. inversion H; subst. now apply IH.
Qed.

Lemma reset_index_raise df e :
  Pandas.reset_index df = Raise e -> exists msg, e = ValueError msg.
Proof.
  unfold Pandas.reset_index.
  destruct (Pandas.insert_levels cell _ (Pandas.columns df)) as [cols|e']
    eqn:Hi; simpl; [discriminate|].
  intros H. inversion H; subst. eapply insert_levels_raise; eauto.
Qed.

(** *** The sizing loop *)

Lemma set_columns_cons first x xs :
  @set_columns cell first (x :: xs)
  = SetColumn first first x :: set_columns (S first) xs.
Proof. reflexivity. Qed.

Lemma set_columns_only first xs (ev : event cell) :
  In ev (set_columns first xs) -> exists c x, ev = SetColumn c c x.
Proof.
  unfold set_columns. intros H. apply in_map_iff in H as ([c x] & <- & _).
  now exists c, x.
Qed.

Lemma size_column_inv sized widths c ev :
  size_column sized widths c = Ok ev ->
  exists name w x,
    nth_error (Pandas.column_names sized) c = Some name
    /\ PyDict.get widths name = Some w
    /\ excel_column_width (num_of_width w) default_fontsize = Ok x
    /\ ev = SetColumn c c x.
Proof.
  unfold size_column, bind.
  destruct (nth_error (Pandas.column_names sized) c) as [name|];
    [|discriminate].
  destruct (PyDict.get widths name) as [w|] eqn:Hw; [|discriminate].
  destruct (excel_column_width (num_of_width w) default_fontsize) as [x|e]
    eqn:Hx; [|discriminate].
  intros H. inversion H. exists name, w, x. auto.
Qed.

Lemma size_column_at sized widths c name w x :
  nth_error (Pandas.column_names sized) c = Some name ->
  PyDict.get widths name = Some w ->
  excel_column_width (num_of_width w) default_fontsize = Ok x ->
  size_column sized widths c = Ok (SetColumn c c x).
Proof.
  intros Hn Hw Hx. unfold size_column, bind. now rewrite Hn, Hw, Hx.
Qed.

(** The loop over [range(first, first + n)] sizes the columns one by one,
    in order, and stops at the first turn that raises. *)
Lemma size_columns_seq sized widths n :
  forall first log log' r,
    size_columns sized widths (seq first n) log = (log', r) ->
    exists xs,
      log' = log ++ set_columns first xs
      /\ (forall i x,
             nth_error xs i = Some x ->
             size_column sized widths (first + i)
             = Ok (SetColumn (first + i) (first + i) x))
      /\ match r with
         | Ok _ => List.length xs = n
         | Raise e =>
             List.length xs < n
             /\ size_column sized widths (first + List.length xs) = Raise e
         end.
Proof.
  induction n as [|n IH]; intros first log log' r H;
    cbn [seq size_columns] in H.
  - inversion H; subst. exists []. rewrite app_nil_r.
    repeat split; auto. intros [|i] x Hx; discriminate.
  - destruct (size_column sized widths first) as [ev|e] eqn:Hev.
    + pose proof Hev as Hev'.
      apply size_column_inv in Hev' as (name & w & x & _ & _ & _ & ->).
      apply IH in H as (xs & -> & Hxs & Hr).
      exists (x :: xs). rewrite set_columns_cons, <- app_assoc.
      split; [reflexivity|]. split.
      * intros [|i] y Hy; cbn [nth_error] in Hy.
        -- inversion Hy; subst. now rewrite Nat.add_0_r.
        -- rewrite Nat.add_succ_r. exact (Hxs i y Hy).
      * destruct r as [u|e]; cbn [List.length].
        -- lia.
        -- destruct Hr as [Hlt He]. split; [lia|].
           rewrite Nat.add_succ_r. exact He.
    + inversion H; subst. exists []. rewrite app_nil_r.
      cbn [List.length]. repeat split; auto.
      * intros [|i] x Hx; discriminate.
      * lia.
      * now rewrite Nat.add_0_r.
Qed.

(** *** The ways a call can end *)

Lemma export_outcome df outfile o :
  (exists e,
      choose_data df (columns o) = Raise e
      /\ to_autosize_excel py_str to_excel_raises df outfile o
         = ([], Raise e))
  \/ (exists data e,
         choose_data df (columns o) = Ok data
         /\ to_excel_raises df (kwargs_of o) = Some e
         /\ to_autosize_excel py_str to_excel_raises df outfile o
            = ([Close], Raise e))
  \/ (exists data e,
         choose_data df (columns o) = Ok data
         /\ to_excel_raises df (kwargs_of o) = None
         /\ (choose_labels data o = Raise e
             \/ exists labels,
                  choose_labels data o = Ok labels
                  /\ (sized_frame data o = Raise e
                      \/ exists sized,
                           sized_frame data o = Ok sized
                           /\ maximum_character_widths py_str sized
                                (consider_headers o) (AltList labels)
                              = Raise e))
         /\ to_autosize_excel py_str to_excel_raises df outfile o
            = ([ToExcel df (kwargs_of o); Close], Raise e))
  \/ (exists data labels sized widths xs,
         choose_data df (columns o) = Ok data
         /\ to_excel_raises df (kwargs_of o) = None
         /\ choose_labels data o = Ok labels
         /\ sized_frame data o = Ok sized
         /\ maximum_character_widths py_str sized (consider_headers o)
              (AltList labels) = Ok widths
         /\ (forall i x,
                nth_error xs i = Some x ->
                size_column sized widths (startcol o + i)
                = Ok (SetColumn (startcol o + i) (startcol o + i) x))
         /\ ((List.length xs = List.length labels
              /\ to_autosize_excel py_str to_excel_raises df outfile o
                 = (ToExcel df (kwargs_of o)
                    :: set_columns (startcol o) xs
                    ++ (if columns_truthy (columns o)
                           && negb (consider_headers o)
                        then rewrite_header o labels else [])
                    ++ [Close],
                    Ok outfile))
             \/ (exists e,
                    List.length xs < List.length labels
                    /\ size_column sized widths
                         (startcol o + List.length xs) = Raise e
                    /\ to_autosize_excel py_str to_excel_raises df outfile o
                       = (ToExcel df (kwargs_of o)
                          :: set_columns (startcol o) xs ++ [Close],
                          Raise e)))).
Proof.
  unfold to_autosize_excel, with_body.
  destruct (choose_data df (columns o)) as [data|e] eqn:Hdata;
    [|left; now exists e].
  right.
  destruct (to_excel_raises df (kwargs_of o)) as [e|] eqn:Hx;
    [left; now exists data, e|].
  right.
  destruct (choose_labels data o) as [labels|e] eqn:Hl;
    [|left; exists data, e; auto].
  destruct (sized_frame data o) as [sized|e] eqn:Hs;
    [|left; exists data, e; repeat split; auto; right; eauto].
  destruct (maximum_character_widths py_str sized (consider_headers o)
              (AltList labels)) as [widths|e] eqn:Hw;
    [|left; exists data, e; repeat split; auto; right; eauto 6].
  right.
  destruct (size_columns sized widths
              (seq (startcol o) (List.length labels))
              ([] ++ [ToExcel df (kwargs_of o)])) as [log' r] eqn:Hsz.
  apply size_columns_seq in Hsz as (xs & -> & Hxs & Hr).
  exists data, labels, sized, widths, xs. repeat split; auto.
  destruct r as [u|e].
  - left. split; [exact Hr|].
    destruct (columns_truthy (columns o) && negb (consider_headers o));
      cbn [app]; rewrite <- ?app_assoc; reflexivity.
  - right. exists e. destruct Hr as [Hlt He]. repeat split; auto.
Qed.

(** *** Widths that convert *)

Lemma max_text_length_bound (s : list cell) (M : Z) :
  (0 <= M)%Z ->
  (forall v, In v s -> (len (py_str v) <= M)%Z) ->
  (max_text_length py_str s <= M)%Z.
Proof.
  intros HM Hall. unfold max_text_length.
  induction s as [|v l IH]; cbn [map list_max fold_right]; [exact HM|].
  rewrite Nat2Z.inj_max. apply Z.max_lub.
  - apply Hall. now left.
  - apply IH. intros x Hx. apply Hall. now right.
Qed.

Lemma max_double_int_nonneg : (0 <= max_double_int)%Z.
Proof. vm_compute. discriminate. Qed.

Lemma converts_nan (fs : float) :
  exists x, excel_column_width (num_of_width WNaN) fs = Ok x.
Proof. eexists. reflexivity. Qed.

Lemma converts_int (n : Z) (fs : float) :
  (0 <= n <= max_double_int)%Z ->
  exists x, excel_column_width (num_of_width (WInt n)) fs = Ok x.
Proof.
  intros Hn. destruct (int_to_float_total n Hn) as [f Hf].
  exists (f * py_round2 (0.118775 * fs))%float.
  unfold excel_column_width. cbn [num_of_width to_float]. now rewrite Hf.
Qed.

(** What a turn stores converts, when the label and the cells are short
    enough. *)
Lemma stored_converts ch label (s : list cell) (fs : float) :
  (len label <= max_double_int)%Z ->
  (forall v, In v s -> (len (py_str v) <= max_double_int)%Z) ->
  exists x,
    excel_column_width (num_of_width (stored py_str ch label s)) fs = Ok x.
Proof.
  intros Hl Hs.
  pose proof (max_text_length_bound s _ max_double_int_nonneg Hs) as Hm.
  pose proof (max_text_length_nonneg _ py_str s) as Hm0.
  assert (Hl0 : (0 <= len label)%Z) by (unfold len; lia).
  destruct ch.
  - rewrite stored_true_max. apply converts_int. lia.
  - unfold stored.
    destruct (series_max_cases _ py_str s) as [[_ ->]|[_ ->]].
    + apply converts_nan.
    + apply converts_int. lia.
Qed.

Lemma nth_error_combine {A B} (l : list A) (l' : list B) i a b :
  nth_error l i = Some a -> nth_error l' i = Some b ->
  nth_error (combine l l') i = Some (a, b).
Proof.
  revert l l'. induction i as [|i IH]; intros [|x l] [|y l'] Ha Hb;
    simpl in *; try discriminate.
  - now inversion Ha; inversion Hb.
  - now apply IH.
Qed.

(** A call whose labels are as many as the columns to size, on distinct
    labels and short texts, from sheet column [0], sizes every column and
    returns. *)
Lemma export_succeeds df outfile o data labels sized :
  choose_data df (columns o) = Ok data ->
  to_excel_raises df (kwargs_of o) = None ->
  choose_labels data o = Ok labels ->
  sized_frame data o = Ok sized ->
  NoDup (Pandas.column_names sized) ->
  List.length labels = List.length (Pandas.columns sized) ->
  startcol o = 0 ->
  short_texts py_str sized labels ->
  exists xs,
    to_autosize_excel py_str to_excel_raises df outfile o
    = (ToExcel df (kwargs_of o)
       :: set_columns 0 xs
       ++ (if columns_truthy (columns o) && negb (consider_headers o)
           then rewrite_header o labels else [])
       ++ [Close],
       Ok outfile)
    /\ List.length xs = List.length labels
    /\ forall i name s label,
         nth_error (Pandas.columns sized) i = Some (name, s) ->
         nth_error labels i = Some label ->
         exists x,
           nth_error xs i = Some x
           /\ excel_column_width
                (num_of_width (stored py_str (consider_headers o) label s))
                default_fontsize = Ok x.
Proof.
  intros Hdata Hx Hl Hs Hnd Hlen Hsc [Hcells Hlabels].
  (* every turn of the loop succeeds *)
  assert (Hturn : forall widths i,
             maximum_character_widths py_str sized (consider_headers o)
               (AltList labels) = Ok widths ->
             i < List.length labels ->
             exists name s label x,
               nth_error (Pandas.columns sized) i = Some (name, s)
               /\ nth_error labels i = Some label
               /\ excel_column_width
                    (num_of_width
                       (stored py_str (consider_headers o) label s))
                    default_fontsize = Ok x
               /\ size_column sized widths i = Ok (SetColumn i i x)).
  { intros widths i Hw Hi.
    assert (Hwf : forall items,
               AltList labels = AltDict items -> PyDict.wf items)
      by (intros items H; discriminate H).
    destruct (maximum_character_widths_ok _ py_str sized _ _ widths Hwf Hw)
      as (headers & _ & _ & Hk & _ & Hkeys & Hf2 & Hshape & _).
    destruct (nth_error (Pandas.columns sized) i) as [[name s]|] eqn:Hc.
    2:{ apply nth_error_None in Hc. lia. }
    destruct (nth_error labels i) as [label|] eqn:Hlab.
    2:{ apply nth_error_None in Hlab. lia. }
    assert (Hname : nth_error (Pandas.column_names sized) i = Some name).
    { unfold Pandas.column_names. now rewrite nth_error_map, Hc. }
    assert (Hin : In (name, label) headers).
    { rewrite Hshape. eapply nth_error_In.
      apply nth_error_combine; eauto. }
    assert (Hget : PyDict.get widths name
                   = Some (stored py_str (consider_headers o) label s)).
    { apply (widths_entry _ py_str sized _ headers widths Hnd Hk Hkeys Hf2
               name label s Hin).
      eapply nth_error_In; eauto. }
    destruct (stored_converts (consider_headers o) label s default_fontsize)
      as [x Hcx].
    { apply Hlabels. eapply nth_error_In; eauto. }
    { intros v Hv. apply (Hcells name s v); [|exact Hv].
      eapply nth_error_In; eauto. }
    exists name, s, label, x. repeat split; auto.
    eapply size_column_at; eauto. }
  destruct (export_outcome df outfile o)
    as [(e & H & _)|[(d & e & _ & H & _)|[(d & e & Hd & _ & H & _)|H]]].
  - congruence.
  - congruence.
  - exfalso. rewrite Hdata in Hd. inversion Hd; subst d.
    destruct H as [H|(labels' & Hl' & [H|(sized' & Hs' & H)])];
      try congruence.
    rewrite Hl in Hl'. inversion Hl'; subst labels'.
    rewrite Hs in Hs'. inversion Hs'; subst sized'.
    destruct (maximum_character_widths_fits _ py_str sized
                (consider_headers o) (AltList labels) Hnd Hlen)
      as (headers & widths & _ & Hw & _).
    congruence.
  - destruct H as (d & labels' & sized' & widths & xs
                   & Hd & _ & Hl' & Hs' & Hw & Hxs & Hend).
    rewrite Hdata in Hd. inversion Hd; subst d.
    rewrite Hl in Hl'. inversion Hl'; subst labels'.
    rewrite Hs in Hs'. inversion Hs'; subst sized'.
    rewrite Hsc in *. cbn [Nat.add] in *.
    destruct Hend as [[Hn Hrun]|(e & Hlt & He & _)].
    + exists xs. split; [exact Hrun|]. split; [exact Hn|].
      intros i name s label Hc Hlab.
      assert (Hi : i < List.length labels)
        by (apply nth_error_Some; congruence).
      destruct (Hturn widths i Hw Hi)
        as (name' & s' & label' & x & Hc' & Hlab' & Hcx & Hsz).
      rewrite Hc in Hc'. inversion Hc'; subst name' s'.
      rewrite Hlab in Hlab'. inversion Hlab'; subst label'.
      destruct (nth_error xs i) as [y|] eqn:Hy.
      2:{ apply nth_error_None in Hy. lia. }
      rewrite (Hxs i y Hy) in Hsz. inversion Hsz; subst y.
      now exists x.
    + exfalso.
      destruct (Hturn widths (List.length xs) Hw Hlt)
        as (name' & s' & label' & x & _ & _ & _ & Hsz).
      congruence.
Qed.

(** Requested labels are the last of the labels sized by. *)
Lemma choose_labels_requested data o n names labels :
  columns o = ColList (n :: names) ->
  choose_labels data o = Ok labels ->
  exists front, labels = front ++ n :: names.
Proof.
  unfold choose_labels. intros ->.
  destruct (index o); cbn [andb].
  - destruct (index_label_truthy (index_label o)); cbn [negb].
    + destruct (index_label o) as [|s|l]; cbn [list_of_columns bind];
        intros H; inversion H; [now exists [s]|now exists l].
    + cbn [list_of_columns bind]. intros H. inversion H. eauto.
  - cbn [list_of_columns]. intros H. inversion H. now exists [].
Qed.

End OrchestrationFacts.

Lemma log_members {cell : Type} (df : Pandas.DataFrame cell)
    (kw : to_excel_kwargs) (first : nat) (xs : list float)
    (tail : list (event cell)) (ev : event cell) :
  In ev (ToExcel df kw :: set_columns first xs ++ tail ++ [Close]) ->
  ev = ToExcel df kw
  \/ (exists c x, ev = SetColumn c c x)
  \/ In ev tail
  \/ ev = Close.
Proof.
  intros [H|H]; [now left|]. right.
  apply in_app_or in H as [H|H].
  - left. eapply set_columns_only; eauto.
  - right. apply in_app_or in H as [H|[H|[]]]; auto.
Qed.

(** X13.  Nothing reaches the writer exactly when the data cannot be
    chosen: when [columns] is [True], which [list(columns)] rejects with a
    [TypeError], or when it is a non-empty list naming a label the frame
    does not have, which [df[...]] rejects with the [KeyError] of that
    label.  Both happen before the [with] block: the log is empty, not even
    the writer's close is in it. *)
Theorem nothing_is_written_without_data
    {cell : Type} (py_str : cell -> string)
    (to_excel_raises : Pandas.DataFrame cell -> to_excel_kwargs -> option exn)
    (df : Pandas.DataFrame cell) (outfile : string) (o : options) :
  (fst (to_autosize_excel py_str to_excel_raises df outfile o) = []
   <-> columns o = ColBool true
       \/ exists names,
            columns o = ColList names /\ names <> []
            /\ ~ incl names (Pandas.column_names df))
  /\ (columns o = ColBool true ->
      to_autosize_excel py_str to_excel_raises df outfile o
      = ([], Raise (TypeError "'bool' object is not iterable")))
  /\ (forall names,
         columns o = ColList names -> names <> [] ->
         ~ incl names (Pandas.column_names df) ->
         exists k,
           In k names /\ ~ In k (Pandas.column_names df)
           /\ to_autosize_excel py_str to_excel_raises df outfile o
              = ([], Raise (KeyError k))).
Proof.
  assert (Hbool : columns o = ColBool true ->
                  to_autosize_excel py_str to_excel_raises df outfile o
                  = ([], Raise (TypeError "'bool' object is not iterable"))).
  { intros Hc. unfold to_autosize_excel. now rewrite Hc. }
  assert (Hlist : forall names,
             columns o = ColList names -> names <> [] ->
             ~ incl names (Pandas.column_names df) ->
             exists k,
               In k names /\ ~ In k (Pandas.column_names df)
               /\ to_autosize_excel py_str to_excel_raises df outfile o
                  = ([], Raise (KeyError k))).
  { intros names Hc Hne Hn.
    destruct (select_columns_missing _ (Pandas.columns df) names Hn)
      as (k & Hk & Hnk & Hs).
    exists k. split; [exact Hk|]. split; [exact Hnk|].
    destruct names as [|n names]; [congruence|].
    unfold to_autosize_excel, choose_data, Pandas.getitem_list.
    rewrite Hc. cbn [columns_truthy list_of_columns bind].
    now rewrite Hs. }
  split; [|split; assumption].
  split.
  - intros Hlog.
    destruct (export_outcome _ py_str to_excel_raises df outfile o)
      as [(e & Hd & _)|[(d & e & _ & _ & Hr)|[(d & e & _ & _ & _ & Hr)|H]]].
    + unfold choose_data in Hd.
      destruct (columns o) as [|[|]|[|n names]] eqn:Hc;
        cbn [columns_truthy list_of_columns bind] in Hd;
        try discriminate; [now left|].
      right. exists (n :: names). split; [reflexivity|].
      split; [discriminate|].
      intros Hincl.
      destruct (select_columns_total _ (Pandas.columns df) (n :: names) Hincl)
        as [sel Hsel].
      unfold Pandas.getitem_list in Hd. rewrite Hsel in Hd. discriminate.
    + rewrite Hr in Hlog. discriminate.
    + rewrite Hr in Hlog. discriminate.
    + destruct H as (d & labels & sized & widths & xs
                     & _ & _ & _ & _ & _ & _ & [[_ Hr]|(e & _ & _ & Hr)]);
        rewrite Hr in Hlog; discriminate.
  - intros [Hc|(names & Hc & Hne & Hn)].
    + now rewrite (Hbool Hc).
    + destruct (Hlist names Hc Hne Hn) as (k & _ & _ & ->). reflexivity.
Qed.

Lemma nothing_is_written_without_data_witness :
  columns both_columns_no_index
  = ColList ["Name"; "Age"]
  /\ ["Name"; "Age"] <> []
  /\ ~ incl ["Name"; "Age"] (Pandas.column_names names_frame)
  /\ exists k,
       In k ["Name"; "Age"] /\ ~ In k (Pandas.column_names names_frame)
       /\ to_autosize_excel str_id to_excel_succeeds names_frame "out.xlsx"
            both_columns_no_index
          = ([], Raise (KeyError k)).
Proof.
  assert (H1 : columns both_columns_no_index
               = ColList ["Name"; "Age"]) by reflexivity.
  assert (H2 : ["Name"; "Age"] <> []) by discriminate.
  assert (H3 : ~ incl ["Name"; "Age"] (Pandas.column_names names_frame)).
  { intros H. destruct (H "Age") as [Heq|[]]; [right; now left|].
    discriminate Heq. }
  split; [exact H1|]. split; [exact H2|]. split; [exact H3|].
  exact (proj2 (proj2 (nothing_is_written_without_data str_id
                         to_excel_succeeds names_frame "out.xlsx"
                         both_columns_no_index))
               _ H1 H2 H3).
Defined.

(** X14.  What the writer is asked, on every call: nothing at all; or only
    to close, when [to_excel] raised, whose exception then leaves the call
    unchanged; or else the one [to_excel] call, on the frame and the keyword
    arguments of the caller, then [set_column] calls for single sheet
    columns [startcol], [startcol + 1], ... in order, then possibly the
    rewriting of the header row, and last the close. *)
Theorem writer_protocol
    {cell : Type} (py_str : cell -> string)
    (to_excel_raises : Pandas.DataFrame cell -> to_excel_kwargs -> option exn)
    (df : Pandas.DataFrame cell) (outfile : string) (o : options) :
  let log := fst (to_autosize_excel py_str to_excel_raises df outfile o) in
  (log = [] \/ log = [Close]
   \/ exists xs tail,
        log = ToExcel df (kwargs_of o)
              :: set_columns (startcol o) xs ++ tail ++ [Close]
        /\ (tail = [] \/ exists labels, tail = rewrite_header o labels))
  /\ (forall data e,
         choose_data df (columns o) = Ok data ->
         to_excel_raises df (kwargs_of o) = Some e ->
         to_autosize_excel py_str to_excel_raises df outfile o
         = ([Close], Raise e)).
Proof.
  intros log. subst log. split.
  - destruct (export_outcome _ py_str to_excel_raises df outfile o)
      as [(e & _ & Hr)|[(d & e & _ & _ & Hr)|[(d & e & _ & _ & _ & Hr)|H]]].
    + left. now rewrite Hr.
    + right. left. now rewrite Hr.
    + right. right. exists [], []. rewrite Hr. split; [reflexivity|now left].
    + right. right.
      destruct H as (d & labels & sized & widths & xs
                     & _ & _ & _ & _ & _ & _ & [[_ Hr]|(e & _ & _ & Hr)]);
        rewrite Hr; cbn [fst].
      * exists xs. eexists. split; [reflexivity|].
        destruct (columns_truthy (columns o) && negb (consider_headers o));
          [right; now exists labels|now left].
      * exists xs, []. split; [reflexivity|now left].
  - intros data e Hd Hx. unfold to_autosize_excel, with_body.
    now rewrite Hd, Hx.
Qed.

Lemma writer_protocol_witness :
  choose_data people_frame (columns both_columns_no_index)
  = Ok (Pandas.mkDataFrame [(None, ["0"; "1"])]
          [("Name", ["Al"; "Bartholomew"]); ("Age", ["31"; "7"])])
  /\ (fun (df : Pandas.DataFrame string) (kw : to_excel_kwargs) =>
        Some (ValueError "Excel does not support this")) people_frame
       (kwargs_of both_columns_no_index)
     = Some (ValueError "Excel does not support this")
  /\ to_autosize_excel str_id
       (fun df kw => Some (ValueError "Excel does not support this"))
       people_frame "out.xlsx" both_columns_no_index
     = ([Close], Raise (ValueError "Excel does not support this")).
Proof.
  split; [reflexivity|]. split; [reflexivity|].
  exact (proj2 (writer_protocol str_id
                  (fun df kw => Some (ValueError "Excel does not support this"))
                  people_frame "out.xlsx" both_columns_no_index)
               _ _ eq_refl eq_refl).
Defined.

(** X15.  The header row is rewritten exactly when the call returns,
    [columns] is true and [consider_headers] is false; it is then written
    once, at [(startrow, startcol)], with the labels the columns were sized
    by. *)
Theorem header_row_is_rewritten_iff
    {cell : Type} (py_str : cell -> string)
    (to_excel_raises : Pandas.DataFrame cell -> to_excel_kwargs -> option exn)
    (df : Pandas.DataFrame cell) (outfile : string) (o : options) :
  let run := to_autosize_excel py_str to_excel_raises df outfile o in
  (In AddFormat (fst run)
   <-> is_ok (snd run) = true
       /\ columns_truthy (columns o) = true
       /\ consider_headers o = false)
  /\ (forall row col l,
         In (WriteRow row col l) (fst run) ->
         In AddFormat (fst run)
         /\ row = startrow o /\ col = startcol o
         /\ exists data,
              choose_data df (columns o) = Ok data
              /\ choose_labels data o = Ok l).
Proof.
  intros run. subst run.
  destruct (export_outcome _ py_str to_excel_raises df outfile o)
    as [(e & _ & Hr)|[(d & e & _ & _ & Hr)|[(d & e & _ & _ & _ & Hr)|H]]].
  - rewrite Hr. cbn [fst snd is_ok]. split.
    + split; [intros []|intros [H _]; discriminate].
    + intros row col l [].
  - rewrite Hr. cbn [fst snd is_ok]. split.
    + split; [intros [H|[]]; discriminate|intros [H _]; discriminate].
    + intros row col l [H|[]]; discriminate.
  - rewrite Hr. cbn [fst snd is_ok]. split.
    + split; [intros [H|[H|[]]]; discriminate|intros [H _]; discriminate].
    + intros row col l [H|[H|[]]]; discriminate.
  - destruct H as (d & labels & sized & widths & xs
                   & Hd & _ & Hl & _ & _ & _ & [[_ Hr]|(e & _ & _ & Hr)]);
      rewrite Hr; cbn [fst snd is_ok].
    + destruct (columns_truthy (columns o)) eqn:Hc,
               (consider_headers o) eqn:Hch; cbn [andb negb].
      2:{ split.
          - split; [intros _; auto|intros _].
            right. apply in_or_app. right. now left.
          - intros row col l H.
            apply log_members in H
              as [H|[(c & x & H)|[H|H]]]; try discriminate.
            destruct H as [H|[H|[]]]; [discriminate|].
            inversion H; subst. repeat split; auto.
            + right. apply in_or_app. right. now left.
            + now exists d. }
      all: split;
        [split;
         [intros H; apply log_members in H
            as [H|[(c & x & H)|[[]|H]]]; discriminate
         |intros (_ & H1 & H2); discriminate]
        |intros row col l H; apply log_members in H
           as [H|[(c & x & H)|[[]|H]]]; discriminate].
    + split.
      * split; [|intros [H _]; discriminate].
        intros H. change (set_columns (startcol o) xs ++ [Close])
          with (set_columns (startcol o) xs ++ [] ++ [@Close cell]) in H.
        apply log_members in H as [H|[(c & x & H)|[[]|H]]]; discriminate.
      * intros row col l H.
        change (set_columns (startcol o) xs ++ [Close])
          with (set_columns (startcol o) xs ++ [] ++ [@Close cell]) in H.
        apply log_members in H as [H|[(c & x & H)|[[]|H]]]; discriminate.
Qed.

(** X16.  The sizing loop indexes the columns of the data by sheet column.
    With a [startcol] other than [0] a call therefore returns only when
    there is no column to size, and has then sized nothing. *)
Theorem offset_start_column_sizes_nothing
    {cell : Type} (py_str : cell -> string)
    (to_excel_raises : Pandas.DataFrame cell -> to_excel_kwargs -> option exn)
    (df : Pandas.DataFrame cell) (outfile : string) (o : options)
    (log : list (event cell)) (path : string) :
  0 < startcol o ->
  to_autosize_excel py_str to_excel_raises df outfile o = (log, Ok path) ->
  log = [ToExcel df (kwargs_of o); Close]
  /\ exists data sized,
       choose_data df (columns o) = Ok data
       /\ sized_frame data o = Ok sized
       /\ Pandas.columns sized = [].
Proof.
  intros Hsc Hrun.
  destruct (export_outcome _ py_str to_excel_raises df outfile o)
    as [(e & _ & Hr)|[(d & e & _ & _ & Hr)|[(d & e & _ & _ & _ & Hr)|H]]];
    try (rewrite Hr in Hrun; discriminate).
  destruct H as (d & labels & sized & widths & xs
                 & Hd & _ & Hl & Hs & Hw & Hxs & [[Hn Hr]|(e & _ & _ & Hr)]);
    [|rewrite Hr in Hrun; discriminate].
  assert (Hwf : forall items,
             AltList labels = AltDict items -> PyDict.wf items)
    by (intros items H; discriminate H).
  destruct (maximum_character_widths_ok _ py_str sized _ _ widths Hwf Hw)
    as (headers & Hres & _).
  apply resolve_headers_ok in Hres as [Hlen _].
  assert (H0 : List.length labels = 0).
  { destruct (List.length labels) as [|m] eqn:Hm; [reflexivity|exfalso].
    destruct (nth_error xs m) as [x|] eqn:Hx.
    2:{ apply nth_error_None in Hx. lia. }
    apply Hxs, size_column_inv in Hx as (name & _ & _ & Hname & _).
    assert (Hlt : startcol o + m < List.length (Pandas.column_names sized)).
    { apply nth_error_Some. congruence. }
    rewrite column_names_length in Hlt. lia. }
  assert (Hxs0 : xs = []) by (apply length_zero_iff_nil; lia).
  assert (Hl0 : labels = []) by now apply length_zero_iff_nil.
  assert (Hc : columns_truthy (columns o) = false).
  { destruct (choose_data_columns _ df (columns o) d Hd)
      as [[Hc _]|(n & names & Hc & _)]; [exact Hc|exfalso].
    destruct (choose_labels_requested _ d o n names labels Hc Hl)
      as [front Hf].
    rewrite Hl0 in Hf. now destruct front. }
  rewrite Hr, Hxs0, Hc in Hrun. cbn in Hrun. inversion Hrun; subst.
  split; [reflexivity|]. exists d, sized. repeat split; auto.
  apply length_zero_iff_nil. lia.
Qed.

Lemma offset_start_column_sizes_nothing_witness :
  0 < startcol (from_column own_labels_no_index 1)
  /\ to_autosize_excel str_id to_excel_succeeds (text_frame []) "out.xlsx"
       (from_column own_labels_no_index 1)
     = ([ToExcel (text_frame [])
           (kwargs_of (from_column own_labels_no_index 1)); Close],
        Ok "out.xlsx")
  /\ [ToExcel (text_frame [])
        (kwargs_of (from_column own_labels_no_index 1)); Close]
     = [ToExcel (text_frame [])
          (kwargs_of (from_column own_labels_no_index 1)); Close].
Proof.
  assert (H1 : 0 < startcol (from_column own_labels_no_index 1))
    by (simpl; lia).
  assert (H2 : to_autosize_excel str_id to_excel_succeeds (text_frame [])
                 "out.xlsx" (from_column own_labels_no_index 1)
               = ([ToExcel (text_frame [])
                     (kwargs_of (from_column own_labels_no_index 1)); Close],
                  Ok "out.xlsx")) by reflexivity.
  split; [exact H1|]. split; [exact H2|].
  exact (proj1 (offset_start_column_sizes_nothing str_id to_excel_succeeds
                  (text_frame []) "out.xlsx" _ _ _ H1 H2)).
Defined.

(** With a [startcol] other than [0] and a column to size, the loop runs
    past the last column of the data. *)
Example offset_start_column_raises :
  to_autosize_excel str_id to_excel_succeeds people_frame "out.xlsx"
    (from_column own_labels_no_index 1)
  = ([ToExcel people_frame (kwargs_of (from_column own_labels_no_index 1));
      SetColumn 1 1 3.93%float;
      Close],
     Raise (IndexError "index out of bounds")).
Proof. vm_compute. reflexivity. Qed.

(** X18.  With [columns] a non-empty list of distinct labels of a frame
    with distinct labels and short texts, the index not written, from sheet
    column [0], the call returns the path; it has handed the whole frame to
    [to_excel], then sized one sheet column per requested label, in the
    order requested, the width of each being the converter applied to what
    the calculator stores for that column under that label; the header row
    is rewritten after that exactly when [consider_headers] is false. *)
Theorem export_with_column_list
    {cell : Type} (py_str : cell -> string)
    (to_excel_raises : Pandas.DataFrame cell -> to_excel_kwargs -> option exn)
    (df : Pandas.DataFrame cell) (outfile : string) (o : options)
    (names : list string) :
  columns o = ColList names ->
  names <> [] ->
  NoDup names ->
  incl names (Pandas.column_names df) ->
  NoDup (Pandas.column_names df) ->
  index o = false ->
  startcol o = 0 ->
  to_excel_raises df (kwargs_of o) = None ->
  short_texts py_str df names ->
  exists xs,
    to_autosize_excel py_str to_excel_raises df outfile o
    = (ToExcel df (kwargs_of o)
       :: set_columns 0 xs
       ++ (if consider_headers o then [] else rewrite_header o names)
       ++ [Close],
       Ok outfile)
    /\ List.length xs = List.length names
    /\ forall i name s,
         nth_error names i = Some name ->
         In (name, s) (Pandas.columns df) ->
         exists x,
           nth_error xs i = Some x
           /\ excel_column_width
                (num_of_width (stored py_str (consider_headers o) name s))
                default_fontsize = Ok x.
Proof.
  intros Hc Hne Hnd Hincl Hdf Hi Hsc Hx [Hcells Hlabels].
  destruct (select_columns_distinct _ (Pandas.columns df) names Hdf Hincl)
    as (sel & Hsel & Hfst & Hsub).
  set (data := Pandas.mkDataFrame (Pandas.index df) sel).
  assert (Htruthy : columns_truthy (ColList names) = true)
    by (destruct names; [congruence|reflexivity]).
  assert (Hdata : choose_data df (columns o) = Ok data).
  { unfold choose_data, Pandas.getitem_list. rewrite Hc, Htruthy.
    cbn [list_of_columns bind]. now rewrite Hsel. }
  assert (Hl : choose_labels data o = Ok names).
  { unfold choose_labels. rewrite Hc, Hi. reflexivity. }
  assert (Hs : sized_frame data o = Ok data).
  { unfold sized_frame. now rewrite Hi. }
  assert (Hnames : Pandas.column_names data = names) by exact Hfst.
  assert (Hshort : short_texts py_str data names).
  { split; [|exact Hlabels]. intros name s v Hin Hv.
    apply (Hcells name s v); [|exact Hv]. now apply Hsub. }
  destruct (export_succeeds _ py_str to_excel_raises df outfile o data
              names data Hdata Hx Hl Hs)
    as (xs & Hrun & Hn & Hcols); auto.
  { now rewrite Hnames. }
  { change (Pandas.columns data) with sel. now rewrite <- Hfst, length_map. }
  rewrite Hc, Htruthy in Hrun. cbn [andb] in Hrun.
  exists xs. split; [|split; [exact Hn|]].
  - rewrite Hrun. now destruct (consider_headers o).
  - intros i name s Hname Hin.
    assert (Hsi : exists s', nth_error sel i = Some (name, s')).
    { rewrite <- Hfst, nth_error_map in Hname.
      destruct (nth_error sel i) as [[k s']|]; [|discriminate].
      simpl in Hname. inversion Hname; subst. eauto. }
    destruct Hsi as [s' Hs'].
    assert (s' = s).
    { assert (Hin' : In (name, s') (Pandas.columns df))
        by (apply Hsub; eapply nth_error_In; eauto).
      pose proof (filter_label_single _ _ name s Hdf Hin) as Hf.
      pose proof (filter_label_single _ _ name s' Hdf Hin') as Hf'.
      rewrite Hf in Hf'. now inversion Hf'. }
    subst s'. exact (Hcols i name s name Hs' Hname).
Qed.

Lemma export_with_column_list_witness :
  columns both_columns_no_index = ColList ["Name"; "Age"]
  /\ ["Name"; "Age"] <> []
  /\ NoDup ["Name"; "Age"]
  /\ incl ["Name"; "Age"] (Pandas.column_names people_frame)
  /\ NoDup (Pandas.column_names people_frame)
  /\ index both_columns_no_index = false
  /\ startcol both_columns_no_index = 0
  /\ to_excel_succeeds people_frame (kwargs_of both_columns_no_index) = None
  /\ short_texts str_id people_frame ["Name"; "Age"]
  /\ exists xs,
       to_autosize_excel str_id to_excel_succeeds people_frame "out.xlsx"
         both_columns_no_index
       = (ToExcel people_frame (kwargs_of both_columns_no_index)
          :: set_columns 0 xs
          ++ (if consider_headers both_columns_no_index then []
              else rewrite_header both_columns_no_index ["Name"; "Age"])
          ++ [Close],
          Ok "out.xlsx")
       /\ List.length xs = List.length ["Name"; "Age"].
Proof.
  assert (H1 : columns both_columns_no_index = ColList ["Name"; "Age"])
    by reflexivity.
  assert (H2 : ["Name"; "Age"] <> []) by discriminate.
  assert (H3 : NoDup ["Name"; "Age"]).
  { repeat constructor; simpl; intuition discriminate. }
  assert (H4 : incl ["Name"; "Age"] (Pandas.column_names people_frame))
    by apply incl_refl.
  assert (H5 : NoDup (Pandas.column_names people_frame)) by exact H3.
  assert (H6 : index both_columns_no_index = false) by reflexivity.
  assert (H7 : startcol both_columns_no_index = 0) by reflexivity.
  assert (H8 : to_excel_succeeds people_frame
                 (kwargs_of both_columns_no_index) = None) by reflexivity.
  assert (H9 : short_texts str_id people_frame ["Name"; "Age"]).
  { split.
    - intros name s v [H|[H|[]]] Hv; inversion H; subst;
        simpl in Hv; intuition subst; vm_compute; discriminate.
    - intros label [<-|[<-|[]]]; vm_compute; discriminate. }
  split; [exact H1|]. split; [exact H2|]. split; [exact H3|].
  split; [exact H4|]. split; [exact H5|]. split; [exact H6|].
  split; [exact H7|]. split; [exact H8|]. split; [exact H9|].
  destruct (export_with_column_list str_id to_excel_succeeds people_frame
              "out.xlsx" both_columns_no_index _ H1 H2 H3 H4 H5 H6 H7 H8 H9)
    as (xs & Hrun & Hn & _).
  exists xs. split; [exact Hrun|exact Hn].
Defined.

(** X19.  An empty [columns] list selects nothing and labels nothing: the
    data sized is the whole frame, under no label.  When [to_excel] accepts
    the call and the index is not written, the sizing then fails on the
    label count, whenever the frame has a column. *)
Theorem empty_column_list_raises
    {cell : Type} (py_str : cell -> string)
    (to_excel_raises : Pandas.DataFrame cell -> to_excel_kwargs -> option exn)
    (df : Pandas.DataFrame cell) (outfile : string) (o : options) :
  columns o = ColList [] ->
  index o = false ->
  Pandas.columns df <> [] ->
  to_excel_raises df (kwargs_of o) = None ->
  to_autosize_excel py_str to_excel_raises df outfile o
  = ([ToExcel df (kwargs_of o); Close], Raise (ValueError label_count_msg)).
Proof.
  intros Hc Hi Hcols Hx.
  unfold to_autosize_excel, with_body, choose_data, choose_labels,
    sized_frame.
  rewrite Hc, Hi, Hx. cbn [columns_truthy andb list_of_columns].
  unfold maximum_character_widths, resolve_headers.
  destruct (Pandas.columns df) as [|c cols]; [congruence|]. reflexivity.
Qed.

Lemma empty_column_list_raises_witness :
  columns (requesting both_columns_no_index []) = ColList []
  /\ index (requesting both_columns_no_index []) = false
  /\ Pandas.columns people_frame <> []
  /\ to_excel_succeeds people_frame
       (kwargs_of (requesting both_columns_no_index [])) = None
  /\ to_autosize_excel str_id to_excel_succeeds people_frame "out.xlsx"
       (requesting both_columns_no_index [])
     = ([ToExcel people_frame
           (kwargs_of (requesting both_columns_no_index [])); Close],
        Raise (ValueError label_count_msg)).
Proof.
  assert (H1 : columns (requesting both_columns_no_index []) = ColList [])
    by reflexivity.
  assert (H2 : index (requesting both_columns_no_index []) = false)
    by reflexivity.
  assert (H3 : Pandas.columns people_frame <> []) by discriminate.
  assert (H4 : to_excel_succeeds people_frame
                 (kwargs_of (requesting both_columns_no_index [])) = None)
    by reflexivity.
  split; [exact H1|]. split; [exact H2|]. split; [exact H3|].
  split; [exact H4|].
  exact (empty_column_list_raises str_id to_excel_succeeds people_frame
           "out.xlsx" _ H1 H2 H3 H4).
Defined.

(** X20.  Index labels must be as many as the index has levels.  With the
    index written, [columns] a non-empty list of labels of a frame with
    distinct labels, and an [index_label] that supplies another number of
    labels than the index has levels, the call raises a [ValueError] after
    the data was written and before any column is sized. *)
Theorem index_label_count_must_match_levels
    {cell : Type} (py_str : cell -> string)
    (to_excel_raises : Pandas.DataFrame cell -> to_excel_kwargs -> option exn)
    (df : Pandas.DataFrame cell) (outfile : string) (o : options)
    (names : list string) :
  columns o = ColList names ->
  names <> [] ->
  incl names (Pandas.column_names df) ->
  NoDup (Pandas.column_names df) ->
  index o = true ->
  index_label_truthy (index_label o) = true ->
  index_label_count (index_label o) <> List.length (Pandas.index df) ->
  to_excel_raises df (kwargs_of o) = None ->
  exists msg,
    to_autosize_excel py_str to_excel_raises df outfile o
    = ([ToExcel df (kwargs_of o); Close], Raise (ValueError msg)).
Proof.
  intros Hc Hne Hincl Hdf Hi Ht Hcount Hx.
  destruct (select_columns_distinct _ (Pandas.columns df) names Hdf Hincl)
    as (sel & Hsel & Hfst & _).
  set (data := Pandas.mkDataFrame (Pandas.index df) sel).
  assert (Htruthy : columns_truthy (ColList names) = true)
    by (destruct names; [congruence|reflexivity]).
  assert (Hdata : choose_data df (columns o) = Ok data).
  { unfold choose_data, Pandas.getitem_list. rewrite Hc, Htruthy.
    cbn [list_of_columns bind]. now rewrite Hsel. }
  assert (Hl : exists labels,
             choose_labels data o = Ok labels
             /\ List.length labels
                = index_label_count (index_label o) + List.length names).
  { unfold choose_labels. rewrite Hc, Hi, Ht. cbn [andb].
    destruct (index_label o) as [|s|l]; cbn [list_of_columns bind];
      [discriminate Ht| |]; eexists; split; try reflexivity;
      now rewrite length_app. }
  destruct Hl as (labels & Hl & Hlen).
  unfold to_autosize_excel, with_body.
  rewrite Hdata, Hx, Hl. unfold sized_frame. rewrite Hi.
  destruct (Pandas.reset_index data) as [sized|e] eqn:Hs.
  - exists label_count_msg.
    pose proof (reset_index_length _ data sized Hs) as Hsl.
    change (Pandas.index data) with (Pandas.index df) in Hsl.
    change (Pandas.columns data) with sel in Hsl.
    assert (Hsel_len : List.length sel = List.length names)
      by now rewrite <- Hfst, length_map.
    unfold maximum_character_widths, resolve_headers.
    destruct (Nat.eqb_spec (List.length labels)
                (List.length (Pandas.columns sized))) as [Heq|Hneq];
      [exfalso; lia|reflexivity].
  - destruct (reset_index_raise _ data e Hs) as [msg ->].
    now exists msg.
Qed.

Lemma index_label_count_must_match_levels_witness :
  columns two_index_labels = ColList ["Name"]
  /\ ["Name"] <> []
  /\ incl ["Name"] (Pandas.column_names people_frame)
  /\ NoDup (Pandas.column_names people_frame)
  /\ index two_index_labels = true
  /\ index_label_truthy (index_label two_index_labels) = true
  /\ index_label_count (index_label two_index_labels)
     <> List.length (Pandas.index people_frame)
  /\ to_excel_succeeds people_frame (kwargs_of two_index_labels) = None
  /\ exists msg,
       to_autosize_excel str_id to_excel_succeeds people_frame "out.xlsx"
         two_index_labels
       = ([ToExcel people_frame (kwargs_of two_index_labels); Close],
          Raise (ValueError msg)).
Proof.
  assert (H1 : columns two_index_labels = ColList ["Name"]) by reflexivity.
  assert (H2 : ["Name"] <> []) by discriminate.
  assert (H3 : incl ["Name"] (Pandas.column_names people_frame)).
  { intros x [<-|[]]. now left. }
  assert (H4 : NoDup (Pandas.column_names people_frame)).
  { simpl. repeat constructor; simpl; intuition discriminate. }
  assert (H5 : index two_index_labels = true) by reflexivity.
  assert (H6 : index_label_truthy (index_label two_index_labels) = true)
    by reflexivity.
  assert (H7 : index_label_count (index_label two_index_labels)
               <> List.length (Pandas.index people_frame))
    by (simpl; lia).
  assert (H8 : to_excel_succeeds people_frame (kwargs_of two_index_labels)
               = None) by reflexivity.
  split; [exact H1|]. split; [exact H2|]. split; [exact H3|].
  split; [exact H4|]. split; [exact H5|]. split; [exact H6|].
  split; [exact H7|]. split; [exact H8|].
  exact (index_label_count_must_match_levels str_id to_excel_succeeds
           people_frame "out.xlsx" two_index_labels _
           H1 H2 H3 H4 H5 H6 H7 H8).
Defined.

(** *** The exceptions of a call *)

Lemma column_width_raise_kinds {cell : Type} (py_str : cell -> string)
    (df : Pandas.DataFrame cell) (ch : bool) (k v : string) (e : exn) :
  column_width py_str df ch k v = Raise e ->
  (exists key, e = KeyError key) \/ (exists msg, e = AttributeError msg).
Proof.
  assert (Hm : forall e',
             Pandas.str_len_max cell py_str df k = Raise e' ->
             (exists key, e' = KeyError key)
             \/ (exists msg, e' = AttributeError msg)).
  { unfold Pandas.str_len_max, Pandas.getitem.
    destruct (filter _ (Pandas.columns df)) as [|c [|c' l]]; simpl;
      intros e' H; inversion H; eauto. }
  unfold column_width. destruct ch; [|apply Hm].
  destruct (Pandas.str_len_max cell py_str df k) as [m|e'] eqn:Hs; simpl;
    [discriminate|].
  intros H. inversion H; subst. now apply Hm.
Qed.

(** Called with a list of labels, the calculator does not raise a
    [TypeError]. *)
Lemma calculator_list_raise {cell : Type} (py_str : cell -> string)
    (df : Pandas.DataFrame cell) (ch : bool) (labels : list string)
    (e : exn) :
  maximum_character_widths py_str df ch (AltList labels) = Raise e ->
  forall msg, e <> TypeError msg.
Proof.
  unfold maximum_character_widths, resolve_headers.
  destruct (negb (Nat.eqb (List.length labels)
                    (List.length (Pandas.columns df)))); simpl.
  - intros H msg. inversion H. discriminate.
  - intros H msg. apply fill_widths_raise_inv in H as (k & v & _ & H).
    apply column_width_raise_kinds in H as [[key ->]|[m ->]]; discriminate.
Qed.

Lemma size_column_raise {cell : Type} (sized : Pandas.DataFrame cell)
    (widths : PyDict.t width) (c : nat) (e : exn) :
  size_column sized widths c = Raise e -> forall msg, e <> TypeError msg.
Proof.
  unfold size_column, bind.
  destruct (nth_error (Pandas.column_names sized) c) as [name|];
    [|intros H msg; inversion H; discriminate].
  destruct (PyDict.get widths name) as [w|];
    [|intros H msg; inversion H; discriminate].
  destruct w as [n|]; unfold excel_column_width; cbn [num_of_width to_float].
  - unfold int_to_float, bind.
    destruct (is_infinity _); intros H msg; inversion H; discriminate.
  - discriminate.
Qed.

Lemma select_columns_raise {cell : Type}
    (cols : list (string * Pandas.Series cell)) (names : list string)
    (e : exn) :
  Pandas.select_columns cell cols names = Raise e -> exists k, e = KeyError k.
Proof.
  induction names as [|n names IH]; cbn [Pandas.select_columns];
    [discriminate|].
  destruct (filter _ cols) as [|c l].
  - intros H. inversion H. eauto.
  - destruct (Pandas.select_columns cell cols names) as [tl|e']; simpl;
      [discriminate|].
    intros H. inversion H; subst. now apply IH.
Qed.

(** X21.  The entry point hands the calculator a list of labels on every
    path, so the calculator's complaint about header labels that are
    neither a list nor a dictionary never leaves [to_autosize_excel], unless
    [to_excel] itself raises it. *)
Theorem header_type_error_is_unreachable
    {cell : Type} (py_str : cell -> string)
    (to_excel_raises : Pandas.DataFrame cell -> to_excel_kwargs -> option exn)
    (df : Pandas.DataFrame cell) (outfile : string) (o : options) :
  to_excel_raises df (kwargs_of o) <> Some (TypeError header_type_msg) ->
  snd (to_autosize_excel py_str to_excel_raises df outfile o)
  <> Raise (TypeError header_type_msg).
Proof.
  intros Hx.
  destruct (export_outcome _ py_str to_excel_raises df outfile o)
    as [(e & Hd & Hr)|[(d & e & _ & He & Hr)|[(d & e & _ & _ & H & Hr)|H]]].
  - rewrite Hr. cbn [snd]. intros Heq. inversion Heq; subst e.
    unfold choose_data in Hd.
    destruct (columns o) as [|[|]|[|n names]];
      cbn [columns_truthy list_of_columns bind] in Hd; try discriminate.
    unfold Pandas.getitem_list in Hd.
    destruct (Pandas.select_columns cell (Pandas.columns df) (n :: names))
      as [sel|e] eqn:Hs; simpl in Hd; [discriminate|].
    apply select_columns_raise in Hs as [k ->]. discriminate.
  - rewrite Hr. cbn [snd]. intros Heq. inversion Heq; subst e. now apply Hx.
  - rewrite Hr. cbn [snd]. intros Heq. inversion Heq; subst e.
    destruct H as [H|(labels & _ & [H|(sized & _ & H)])].
    + unfold choose_labels in H.
      destruct (columns o) as [|b|names]; destruct (index o); cbn [andb] in H;
        try (destruct (index_label_truthy (index_label o)); cbn [negb] in H;
             try destruct (index_label o));
        cbn [list_of_columns bind] in H; try discriminate.
      all: destruct (Pandas.reset_index d) as [d'|e] eqn:Hs; simpl in H;
        [discriminate|].
      all: apply reset_index_raise in Hs as [msg ->]; discriminate.
    + unfold sized_frame in H. destruct (index o); [|discriminate].
      apply reset_index_raise in H as [msg H]. discriminate.
    + exact (calculator_list_raise _ _ _ _ _ H _ eq_refl).
  - destruct H as (d & labels & sized & widths & xs
                   & _ & _ & _ & _ & _ & _ & [[_ Hr]|(e & _ & He & Hr)]);
      rewrite Hr; cbn [snd]; [discriminate|].
    intros Heq. inversion Heq; subst e.
    exact (size_column_raise _ _ _ _ He _ eq_refl).
Qed.

Lemma header_type_error_is_unreachable_witness :
  to_excel_succeeds people_frame (kwargs_of default_options)
  <> Some (TypeError header_type_msg)
  /\ snd (to_autosize_excel str_id to_excel_succeeds people_frame "out.xlsx"
            default_options)
     <> Raise (TypeError header_type_msg).
Proof.
  assert (H : to_excel_succeeds people_frame (kwargs_of default_options)
              <> Some (TypeError header_type_msg)) by discriminate.
  split; [exact H|].
  exact (header_type_error_is_unreachable str_id to_excel_succeeds
           people_frame "out.xlsx" default_options H).
Defined.
